(** * dbm/helpers.py: scripting helpers of the DBM pipeline

    A shallow embedding of [src/dbm/helpers.py]: the path helper
    [add_suffix], the decorator [requires_program], the class
    [ScriptHelper] ([run_command], [timestamp], [check_dir], ...) and the
    decorator [with_helper].

    Python strings are [string], Python integers are [Z].  Code that
    prints, spawns processes or raises is written in a small
    writer-and-exception monad: a computation yields the list of events it
    performed, in order, and either a value or the exception it raised. *)

From Stdlib Require Import String Ascii List ZArith Bool Lia.
From Stdlib Require Import DecimalString.
Import ListNotations.
Open Scope string_scope.
Open Scope Z_scope.

Set Implicit Arguments.

(** ** Python string primitives *)

Module PyStr.

(** [len(s)] *)
Definition len (s : string) : Z := Z.of_nat (String.length s).

(** [s[n:]] for [0 <= n] *)
Fixpoint drop (n : nat) (s : string) : string :=
  match n, s with
  | O, _ => s
  | S _, EmptyString => EmptyString
  | S n', String _ s' => drop n' s'
  end.

(** [s[:n]] for [0 <= n] *)
Fixpoint take (n : nat) (s : string) : string :=
  match n, s with
  | O, _ => EmptyString
  | S _, EmptyString => EmptyString
  | S n', String c s' => String c (take n' s')
  end.

(** [s.startswith(p)] *)
Definition startswith (s p : string) : bool := String.prefix p s.

(** [s.removesuffix(e)]: [s] without its ending [e] when [e] is not empty
    and [s] ends with it, [s] otherwise. *)
Fixpoint removesuffix (s e : string) : string :=
  if String.eqb s e then EmptyString
  else match s with
       | EmptyString => EmptyString
       | String c s' => String c (removesuffix s' e)
       end.

(** [s.rfind(c)]: the highest index of [c] in [s], or [-1]. *)
Fixpoint rfind (c : ascii) (s : string) : Z :=
  match s with
  | EmptyString => -1
  | String a s' =>
      let r := rfind c s' in
      if 0 <=? r then r + 1
      else if Ascii.eqb a c then 0 else -1
  end.

(** [s.split(c)] for a one-character separator. *)
Fixpoint split (c : ascii) (s : string) : list string :=
  match s with
  | EmptyString => [EmptyString]
  | String a s' =>
      if Ascii.eqb a c then EmptyString :: split c s'
      else match split c s' with
           | [] => [String a EmptyString]
           | x :: xs => String a x :: xs
           end
  end.

(** [sep.join(l)] *)
Fixpoint join (sep : string) (l : list string) : string :=
  match l with
  | [] => EmptyString
  | [x] => x
  | x :: xs => x ++ sep ++ join sep xs
  end.

(** [str(n)] for an integer. *)
Definition str_int (n : Z) : string := NilZero.string_of_int (Z.to_int n).

(** [c in s] for a character. *)
Fixpoint contains (c : ascii) (s : string) : bool :=
  match s with
  | EmptyString => false
  | String a s' => Ascii.eqb a c || contains c s'
  end.

End PyStr.

(** ** [pathlib.PurePosixPath] *)

Module PurePath.

(** A parsed path: the root ([""], ["/"] or ["//"]) and the components
    after it. *)
Record t : Type := mk { root : string; tail : list string }.

Definition slash : ascii := "/"%char.
Definition dot : ascii := "."%char.

(** The root of a POSIX path and what follows it: one leading slash, or
    exactly two, is kept; three or more collapse to one. *)
Definition splitroot (s : string) : string * string :=
  match s with
  | String a s1 =>
      if Ascii.eqb a slash then
        match s1 with
        | String b s2 =>
            if Ascii.eqb b slash then
              match s2 with
              | String c _ =>
                  if Ascii.eqb c slash then ("/", s1) else ("//", s2)
              | EmptyString => ("//", s2)
              end
            else ("/", s1)
        | EmptyString => ("/", s1)
        end
      else ("", s)
  | EmptyString => ("", s)
  end.

Definition is_component (x : string) : bool :=
  negb (String.eqb x "") && negb (String.eqb x ".").

(** [Path(s)] *)
Definition parse (s : string) : t :=
  let (r, rel) := splitroot s in
  mk r (filter is_component (PyStr.split slash rel)).

(** [str(p)] *)
Definition to_string (p : t) : string :=
  match root p, tail p with
  | EmptyString, [] => "."
  | r, l => r ++ PyStr.join "/" l
  end.

(** [p.name] *)
Definition name (p : t) : string := last (tail p) "".

(** [p.parent] *)
Definition parent (p : t) : t := mk (root p) (removelast (tail p)).

(** [p.suffix]: the last dot of the name and what follows, unless that
    dot is the first or the last character. *)
Definition suffix (p : t) : string :=
  let n := name p in
  let i := PyStr.rfind dot n in
  if (0 <? i) && (i <? PyStr.len n - 1) then PyStr.drop (Z.to_nat i) n
  else "".

(** [p.stem] *)
Definition stem (p : t) : string :=
  let n := name p in
  let i := PyStr.rfind dot n in
  if (0 <? i) && (i <? PyStr.len n - 1) then PyStr.take (Z.to_nat i) n
  else n.

(** [p / s] for a string [s]: an absolute [s] replaces [p]. *)
Definition joinpath (p : t) (s : string) : t :=
  let q := parse s in
  if String.eqb (root q) "" then mk (root p) (tail p ++ tail q) else q.

End PurePath.

(** ** Module constants *)

Definition DEFAULT_VERBOSITY : Z := 2.
Definition PREFIX_RUN : string := "[RUN] ".
Definition PREFIX_ERROR : string := "[ERROR] ".
Definition DONE_MESSAGE : string := "[SUCCESS]".
Definition SEP_SUFFIX : string := "-".

(** ** [add_suffix] *)

(** [add_suffix(path, suffix, sep, ext)]; [None] for [sep] or [ext] is
    [None] here. *)
Definition add_suffix (path : string) (suffix : string)
    (sep : option string) (ext : option string) : PurePath.t :=
  let path := PurePath.parse path in
  let '(sep, suffix) :=
    match sep with
    | Some sep =>
        if PyStr.startswith suffix sep
        then (sep, PyStr.drop (String.length sep) suffix)
        else (sep, suffix)
    | None => ("", suffix)
    end in
  let '(stem, ext) :=
    match ext with
    | Some ext => (PyStr.removesuffix (PurePath.to_string path) ext, ext)
    | None => (PurePath.stem path, PurePath.suffix path)
    end in
  PurePath.joinpath (PurePath.parent path) (stem ++ sep ++ suffix ++ ext).

(** The call with the default [sep] and [ext]. *)
Definition add_suffix_default (path suffix : string) : PurePath.t :=
  add_suffix path suffix (Some SEP_SUFFIX) None.

(** ** Exceptions, outcomes and traces *)

(** The exceptions the module raises or meets.  [SystemExit] and
    [KeyboardInterrupt] derive from [BaseException] only: [except Exception]
    does not catch them. *)
Inductive exn : Type :=
| RuntimeError (msg : string)
| FileExistsError (msg : string)
| FileNotFoundError (msg : string)
| CalledProcessError (returncode : Z)
| OtherException (name : string)
| SystemExit (code : Z)
| KeyboardInterrupt.

Definition is_Exception (e : exn) : bool :=
  match e with
  | SystemExit _ | KeyboardInterrupt => false
  | _ => true
  end.

Inductive outcome (A : Type) : Type :=
| Return (a : A)
| Raise (e : exn).
Arguments Return {A} a.
Arguments Raise {A} e.

(** What can be passed as [stdout] or [stderr] of a subprocess, or as the
    [file] of [click.echo], when it is not [None]. *)
Inductive handle : Type :=
| DEVNULL
| PIPE
| FileObj (name : string).

(** [click.style(text, fg=color)] *)
Inductive segment : Type :=
| Styled (fg : option string) (text : string)
| Plain (text : string).

(** Input and output of the helper's methods. *)
Inductive io_event : Type :=
| Echo (text : list segment) (color : bool) (file : option handle)
| Run (args : list string) (shell : bool) (stdout stderr : option handle)
| CheckOutput (args : list string).

(** Writer and exception monad: the events performed, oldest first, and the
    outcome. *)
Definition W (E A : Type) : Type := list E * outcome A.

Module W.
Definition ret {E A} (a : A) : W E A := ([], Return a).
Definition raise {E A} (e : exn) : W E A := ([], Raise e).
Definition emit {E} (ev : E) : W E unit := ([ev], Return tt).
Definition bind {E A B} (m : W E A) (k : A -> W E B) : W E B :=
  match m with
  | (t, Return a) => let (t', o) := k a in ((t ++ t')%list, o)
  | (t, Raise e) => (t, Raise e)
  end.
(** [try: m except <those selected by h>: ...] *)
Definition try_except {E A} (m : W E A) (h : exn -> option (W E A))
  : W E A :=
  match m with
  | (t, Raise e) =>
      match h e with
      | Some k => let (t', o) := k in ((t ++ t')%list, o)
      | None => (t, Raise e)
      end
  | r => r
  end.
Definition trace {E A} (m : W E A) : list E := fst m.
Definition result {E A} (m : W E A) : outcome A := snd m.
End W.

Declare Scope w_scope.
Delimit Scope w_scope with W.
Notation "x <- m ;; k" := (W.bind m (fun x => k))
  (at level 61, m at next level, right associativity) : w_scope.
Notation "m ;; k" := (W.bind m (fun _ => k))
  (at level 61, right associativity) : w_scope.

(** ** The world outside the program *)

Inductive proc_result : Type :=
| Exited (returncode : Z)
| SpawnError (e : exn).

Inductive kind : Type := RegularFile | Directory.

(** The program's surroundings.  A process is known by its argument list
    and the [shell] flag: the same command ends the same way each time. *)
Record World : Type := mkWorld {
  (** how the process started from an argument list ends *)
  proc : list string -> bool -> proc_result;
  (** the entries of the file system *)
  files : list (PurePath.t * kind);
  (** [traceback.format_exc()] while the exception is handled *)
  format_exc : exn -> string;
  (** how [TemporaryDirectory()] ends: with the directory it creates, or
      with the error it raises *)
  mkdtemp : outcome string
}.

(** ** [ScriptHelper] *)

(** A registered callback: a zero-argument action, seen through what it
    prints or runs and whether it raises.  A callback leaves the helper as
    it is. *)
Record callback : Type := mkCallback {
  cb_id : nat;
  cb_io : list io_event;
  cb_raises : option exn
}.

Record ScriptHelper : Type := mkScriptHelper {
  file_log : option handle;
  verbosity : Z;
  quiet : bool;
  dry_run : bool;
  overwrite : bool;
  dpath_tmp : option PurePath.t;
  prefix_run : string;
  prefix_error : string;
  done_message : string;
  callbacks_always : list callback;
  callbacks_success : list callback;
  callback_failure : list callback
}.

(** [ScriptHelper.__init__] *)
Definition ScriptHelper_init
    (file_log : option handle) (verbosity : Z)
    (quiet dry_run overwrite : bool) (dpath_tmp : option PurePath.t)
    (prefix_run prefix_error done_message : string)
    (callbacks_always callbacks_success callbacks_failure
       : option (list callback))
  : ScriptHelper :=
  (* quiet overrides verbosity *)
  let verbosity := if quiet then 0 else verbosity in
  let callbacks_always :=
    match callbacks_always with None => [] | Some l => l end in
  let callbacks_success :=
    match callbacks_success with None => [] | Some l => l end in
  let callbacks_failure :=
    match callbacks_failure with None => [] | Some l => l end in
  {| file_log := file_log;
     verbosity := verbosity;
     quiet := quiet;
     dry_run := dry_run;
     overwrite := overwrite;
     dpath_tmp := dpath_tmp;
     prefix_run := prefix_run;
     prefix_error := prefix_error;
     done_message := done_message;
     callbacks_always := callbacks_always;
     callbacks_success := callbacks_success;
     callback_failure := callbacks_failure |}.

(** The assignment [self.quiet = b]. *)
Definition set_quiet (b : bool) (self : ScriptHelper) : ScriptHelper :=
  {| file_log := file_log self;
     verbosity := verbosity self;
     quiet := b;
     dry_run := dry_run self;
     overwrite := overwrite self;
     dpath_tmp := dpath_tmp self;
     prefix_run := prefix_run self;
     prefix_error := prefix_error self;
     done_message := done_message self;
     callbacks_always := callbacks_always self;
     callbacks_success := callbacks_success self;
     callback_failure := callback_failure self |}.

(** [symbol * length] *)
Fixpoint repeat_str (symbol : string) (length : nat) : string :=
  match length with
  | O => ""
  | S n => symbol ++ repeat_str symbol n
  end.

Section Methods.

Variable world : World.
Variable self : ScriptHelper.

Local Open Scope w_scope.

(** The property [verbose]. *)
Definition verbose : bool := verbosity self >? 0.

(** [echo]: format the text, then [click.echo] it to the log. *)
Definition echo (message prefix : string) (text_color : option string)
    (color_prefix_only force_color : bool) : W io_event unit :=
  let text :=
    if negb (String.eqb prefix "") && color_prefix_only
    then [Styled text_color prefix; Plain message]
    else [Styled text_color (prefix ++ message)] in
  W.emit (Echo text force_color (file_log self)).

Definition print_separation (symbol : string) (length : nat)
  : W io_event unit :=
  echo (repeat_str symbol length) "" None false true.

Definition print_info (message : string) (text_color : option string)
  : W io_event unit :=
  if verbose then echo message "" text_color false true else W.ret tt.

Definition print_outcome (message : string) (text_color : option string)
  : W io_event unit :=
  echo message "" text_color false true.

(** [print_error]: [sys.exit] raises [SystemExit]. *)
Definition print_error (message : string) (text_color : option string)
    (exit_code : Z) (exit : bool) : W io_event unit :=
  echo message (prefix_error self) text_color false true ;;
  if exit then W.raise (SystemExit exit_code) else W.ret tt.

(** [subprocess.run(args, check=True, ...)] *)
Definition subprocess_run (args : list string) (shell : bool)
    (stdout stderr : option handle) : W io_event unit :=
  W.emit (Run args shell stdout stderr) ;;
  match proc world args shell with
  | Exited 0 => W.ret tt
  | Exited returncode => W.raise (CalledProcessError returncode)
  | SpawnError e => W.raise e
  end.

(** [subprocess.check_output(args)]; the output is not used. *)
Definition subprocess_check_output (args : list string)
  : W io_event unit :=
  W.emit (CheckOutput args) ;;
  match proc world args false with
  | Exited 0 => W.ret tt
  | Exited returncode => W.raise (CalledProcessError returncode)
  | SpawnError e => W.raise e
  end.

(** The argument list after [str(arg) for arg in args if arg != ""]. *)
Definition clean_args (args : list string) : list string :=
  filter (fun arg => negb (String.eqb arg "")) args.

(** The streams [run_command] hands to [subprocess.run]. *)
Definition run_streams (stdout stderr : option handle) (silent : bool)
  : option handle * option handle :=
  let '(stdout, stderr) :=
    match stdout with
    | None =>
        if silent || (verbosity self <? 2)
        then (Some DEVNULL, Some DEVNULL)
        else (file_log self, stderr)
    | Some _ => (stdout, stderr)
    end in
  let stderr :=
    match stderr with
    | None => file_log self
    | Some _ => stderr
    end in
  (stdout, stderr).

Definition run_command (args : list string) (shell : bool)
    (stdout stderr : option handle) (silent force : bool)
  : W io_event unit :=
  let args := clean_args args in
  let args_str := PyStr.join " " args in
  (if negb silent && ((verbosity self >? 0) || dry_run self)
   then echo args_str PREFIX_RUN (Some "yellow") (dry_run self) true
   else W.ret tt) ;;
  if force || negb (dry_run self) then
    let '(stdout, stderr) := run_streams stdout stderr silent in
    W.try_except
      (subprocess_run args shell stdout stderr)
      (fun ex =>
         match ex with
         | CalledProcessError returncode =>
             Some (W.raise (RuntimeError
               (String "010" "Command " ++ args_str ++ " returned "
                ++ PyStr.str_int returncode)))
         | _ => None
         end)
  else W.ret tt.

(** [timestamp]: print the current time. *)
Definition timestamp : W io_event unit :=
  run_command ["date"] false None None false true.

Definition done : W io_event unit :=
  echo (done_message self) "" (Some "green") false true.

End Methods.

(** ** The file system, as [check_dir] and [check_file] read it *)

Module Fs.

Fixpoint list_eqb (l l' : list string) : bool :=
  match l, l' with
  | [], [] => true
  | x :: r, y :: r' => String.eqb x y && list_eqb r r'
  | _, _ => false
  end.

Definition path_eqb (p q : PurePath.t) : bool :=
  String.eqb (PurePath.root p) (PurePath.root q)
  && list_eqb (PurePath.tail p) (PurePath.tail q).

(** [l] is a proper prefix of [l']. *)
Fixpoint strict_prefixb (l l' : list string) : bool :=
  match l, l' with
  | [], _ :: _ => true
  | x :: r, y :: r' => String.eqb x y && strict_prefixb r r'
  | _, _ => false
  end.

(** [p] lies somewhere below [d]. *)
Definition is_below (d p : PurePath.t) : bool :=
  String.eqb (PurePath.root d) (PurePath.root p)
  && strict_prefixb (PurePath.tail d) (PurePath.tail p).

Section Queries.

Variable fs : list (PurePath.t * kind).

Definition lookup (p : PurePath.t) : option kind :=
  match find (fun e => path_eqb (fst e) p) fs with
  | Some e => Some (snd e)
  | None => None
  end.

(** [p.exists()] *)
Definition exists_ (p : PurePath.t) : bool :=
  match lookup p with Some _ => true | None => false end.

(** [p.is_file()] *)
Definition is_file (p : PurePath.t) : bool :=
  match lookup p with Some RegularFile => true | _ => false end.

(** [p.is_dir()] *)
Definition is_dir (p : PurePath.t) : bool :=
  match lookup p with Some Directory => true | _ => false end.

(** [d.rglob("*")]: every entry below [d], at any depth; nothing when
    [d] is not a directory. *)
Definition rglob_all (d : PurePath.t) : list PurePath.t :=
  if is_dir d then filter (is_below d) (map fst fs) else [].

End Queries.

End Fs.

Section Checks.

Variable world : World.
Variable self : ScriptHelper.

Definition check_dir (dpath : PurePath.t) (prefix : option string)
  : W io_event PurePath.t :=
  if Fs.exists_ (files world) dpath && negb (overwrite self) then
    (* get all files in directory *)
    let files_in_dir :=
      filter (Fs.is_file (files world)) (Fs.rglob_all (files world) dpath) in
    (* optionally keep only those with a specific prefix *)
    let files_in_dir :=
      match prefix with
      | Some prefix =>
          filter (fun p => PyStr.startswith (PurePath.name p) prefix)
                 files_in_dir
      | None => files_in_dir
      end in
    if negb (Z.of_nat (List.length files_in_dir) =? 0) then
      W.raise (FileExistsError
        ("Directory " ++ PurePath.to_string dpath
         ++ " exists and/or contains expected result files. "
         ++ "Use --overwrite to overwrite."))
    else W.ret dpath
  else W.ret dpath.

Definition check_file (fpath : PurePath.t) : W io_event unit :=
  if Fs.exists_ (files world) fpath && negb (overwrite self) then
    W.raise (FileExistsError
      ("File " ++ PurePath.to_string fpath
       ++ " exists. Use --overwrite to overwrite."))
  else W.ret tt.

End Checks.

(** ** Making directories and opening files *)

(** What is at a path: the root and the current directory (no component)
    are directories that always exist. *)
Definition kind_at (fs : list (PurePath.t * kind)) (p : PurePath.t)
  : option kind :=
  match PurePath.tail p with
  | [] => Some Directory
  | _ => Fs.lookup fs p
  end.

(** Walking down from the directory of components [seen] through [rest]:
    the first step that does not lead to a directory.  [Some true]: it
    leads to a file; [Some false]: to nothing; [None]: every step leads
    to a directory. *)
Fixpoint descend (fs : list (PurePath.t * kind)) (root : string)
    (seen rest : list string) : option bool :=
  match rest with
  | [] => None
  | c :: rest' =>
      match kind_at fs (PurePath.mk root (seen ++ [c])) with
      | Some Directory => descend fs root (seen ++ [c])%list rest'
      | Some RegularFile => Some true
      | None => Some false
      end
  end.

(** [os.mkdir(p)]: the file system afterwards and the outcome.  The
    directories above [p] are looked up first, from the top; components
    are names (no [".."], no symbolic links). *)
Definition os_mkdir (fs : list (PurePath.t * kind)) (p : PurePath.t)
  : list (PurePath.t * kind) * outcome unit :=
  match PurePath.tail p with
  | [] => (fs, Raise (FileExistsError (PurePath.to_string p)))
  | _ =>
      match descend fs (PurePath.root p) [] (removelast (PurePath.tail p)) with
      | Some true => (fs, Raise (OtherException "NotADirectoryError"))
      | Some false => (fs, Raise (FileNotFoundError (PurePath.to_string p)))
      | None =>
          match kind_at fs p with
          | Some _ => (fs, Raise (FileExistsError (PurePath.to_string p)))
          | None => ((fs ++ [(p, Directory)])%list, Return tt)
          end
      end
  end.

(** The [except OSError] clause of [Path.mkdir]: the error is let go when
    [exist_ok] is set and the path is a directory. *)
Definition mkdir_exists (fs : list (PurePath.t * kind)) (p : PurePath.t)
    (exist_ok : bool) (e : exn) : list (PurePath.t * kind) * outcome unit :=
  if negb exist_ok
     || negb match kind_at fs p with Some Directory => true | _ => false end
  then (fs, Raise e)
  else (fs, Return tt).

(** [Path.mkdir(parents=False, exist_ok=exist_ok)] *)
Definition mkdir_leaf (fs : list (PurePath.t * kind)) (p : PurePath.t)
    (exist_ok : bool) : list (PurePath.t * kind) * outcome unit :=
  match os_mkdir fs p with
  | (fs', Return _) => (fs', Return tt)
  | (_, Raise (FileNotFoundError m)) => (fs, Raise (FileNotFoundError m))
  | (_, Raise e) => mkdir_exists fs p exist_ok e
  end.

(** [Path.mkdir(parents=parents, exist_ok=exist_ok)] for the path of root
    [root] whose components are [rtail], last one first: when the parent
    is missing and [parents] is set, the parent is made first, with its
    own parents, and then the path itself. *)
Fixpoint Path_mkdir_rev (root : string) (rtail : list string)
    (fs : list (PurePath.t * kind)) (parents exist_ok : bool)
  : list (PurePath.t * kind) * outcome unit :=
  let p := PurePath.mk root (rev rtail) in
  match os_mkdir fs p with
  | (fs', Return _) => (fs', Return tt)
  | (_, Raise (FileNotFoundError m)) =>
      match rtail with
      | [] => (fs, Raise (FileNotFoundError m))
      | _ :: rparent =>
          if negb parents then (fs, Raise (FileNotFoundError m))
          else
            match Path_mkdir_rev root rparent fs true true with
            | (fs1, Return _) => mkdir_leaf fs1 p exist_ok
            | (fs1, Raise e) => (fs1, Raise e)
            end
      end
  | (_, Raise e) => mkdir_exists fs p exist_ok e
  end.

Definition Path_mkdir (p : PurePath.t) (fs : list (PurePath.t * kind))
    (parents exist_ok : bool) : list (PurePath.t * kind) * outcome unit :=
  Path_mkdir_rev (PurePath.root p) (rev (PurePath.tail p)) fs
    parents exist_ok.

(** [open(p, "w")]: the file system afterwards and the outcome.  A
    directory cannot be opened for writing; a file is made when there is
    none, in a directory that exists. *)
Definition open_w (fs : list (PurePath.t * kind)) (p : PurePath.t)
  : list (PurePath.t * kind) * outcome unit :=
  match PurePath.tail p with
  | [] => (fs, Raise (OtherException "IsADirectoryError"))
  | _ =>
      match descend fs (PurePath.root p) [] (removelast (PurePath.tail p)) with
      | Some true => (fs, Raise (OtherException "NotADirectoryError"))
      | Some false => (fs, Raise (FileNotFoundError (PurePath.to_string p)))
      | None =>
          match kind_at fs p with
          | Some Directory => (fs, Raise (OtherException "IsADirectoryError"))
          | Some RegularFile => (fs, Return tt)
          | None => ((fs ++ [(p, RegularFile)])%list, Return tt)
          end
      end
  end.

(** ** [requires_program] *)

Section Decorators.

Variable world : World.
Local Open Scope w_scope.

(** [requires_program(func, program, program_name)]: the wrapper it
    returns, applied to the arguments [args] of a call.  [func] is the
    wrapped function: what it does and returns on its arguments. *)
Definition requires_program {A V : Type} (func : A -> W io_event V)
    (program : string) (program_name : option string)
  : A -> W io_event unit :=
  let program_name :=
    match program_name with None => program | Some n => n end in
  fun args =>
    W.try_except
      (subprocess_check_output world ["which"; program])
      (fun ex =>
         match ex with
         | CalledProcessError _ =>
             Some (W.raise (RuntimeError
               ("This function requires " ++ program_name ++ ", "
                ++ "which does not appear to be installed")))
         | _ => None
         end) ;;
    _ <- func args ;;
    W.ret tt.

Definition require_minc {A V : Type} (func : A -> W io_event V) :=
  requires_program func "mincinfo" (Some "MINC tools").

Definition require_python2 {A V : Type} (func : A -> W io_event V) :=
  requires_program func "python2" (Some "Python 2").

End Decorators.

(** ** [with_helper] *)

Inductive hook : Type := Always | Success | Failure.

(** What a scoped run does: the helper's input and output, the calls of
    registered callbacks, and the log file and scratch directory. *)
Inductive event : Type :=
| IO (e : io_event)
| Call (h : hook) (id : nat)
| MkdirParents (p : PurePath.t)
| TmpCreate (d : string)
| TmpRemove (d : string)
| LogOpen (p : PurePath.t)
| LogClose (p : PurePath.t).

(** The wrapped function, called with the helper: what it prints and runs,
    the helper as it leaves it (it may register callbacks or change
    attributes, also when it raises), and the exception it raises, if
    any. *)
Record task_result : Type := mkTaskResult {
  t_io : list io_event;
  t_helper : ScriptHelper;
  t_raises : option exn
}.

Definition task : Type := ScriptHelper -> task_result.

(** Computations on the helper object: state, trace and exceptions.  The
    state survives a raise, as the object does. *)
Definition MS (A : Type) : Type :=
  ScriptHelper -> list event * ScriptHelper * outcome A.

Module MS.
Definition ret {A} (a : A) : MS A := fun h => ([], h, Return a).
Definition raise {A} (e : exn) : MS A := fun h => ([], h, Raise e).
Definition bind {A B} (m : MS A) (k : A -> MS B) : MS B :=
  fun h =>
    match m h with
    | (t, h', Return a) =>
        let '(t', h'', o) := k a h' in ((t ++ t')%list, h'', o)
    | (t, h', Raise e) => (t, h', Raise e)
    end.
(** A method of the helper, which reads [self] and leaves it as it is. *)
Definition method {A} (m : ScriptHelper -> W io_event A) : MS A :=
  fun h => let (t, o) := m h in (map IO t, h, o).
(** [try: m except Exception as ex: k ex] *)
Definition try_except_Exception {A} (m : MS A) (k : exn -> MS A) : MS A :=
  fun h =>
    match m h with
    | (t, h', Raise e) =>
        if is_Exception e
        then let '(t', h'', o) := k e h' in ((t ++ t')%list, h'', o)
        else (t, h', Raise e)
    | r => r
    end.
(** [try: m finally: f]: [f] runs whatever [m] did; what [f] raises
    replaces the outcome of [m]. *)
Definition try_finally {A} (m : MS A) (f : MS unit) : MS A :=
  fun h =>
    let '(t, h', o) := m h in
    let '(t', h'', o') := f h' in
    ((t ++ t')%list, h'',
     match o' with
     | Return _ => o
     | Raise e => Raise e
     end).
(** Run from a fresh helper and forget it. *)
Definition run {A} (m : MS A) (h : ScriptHelper) : W event A :=
  let '(t, _, o) := m h in (t, o).
End MS.

Declare Scope ms_scope.
Delimit Scope ms_scope with MS.
Notation "x <- m ;; k" := (MS.bind m (fun x => k))
  (at level 61, m at next level, right associativity) : ms_scope.
Notation "m ;; k" := (MS.bind m (fun _ => k))
  (at level 61, right associativity) : ms_scope.

(** [with cm: body], for a context manager that does not suppress
    exceptions: the exit runs whatever the body did. *)
Definition with_context {A} (enter exit : list event) (body : W event A)
  : W event A :=
  let (t, o) := body in ((enter ++ t ++ exit)%list, o).

Section ScopedRun.

Variable world : World.

(** [func(helper=helper, **kwargs)] *)
Definition call_task (func : task) : MS unit :=
  fun h =>
    let r := func h in
    (map IO (t_io r), t_helper r,
     match t_raises r with
     | None => Return tt
     | Some e => Raise e
     end).

(** [callback()] *)
Definition invoke (k : hook) (cb : callback) : MS unit :=
  fun h =>
    (Call k (cb_id cb) :: map IO (cb_io cb), h,
     match cb_raises cb with
     | None => Return tt
     | Some e => Raise e
     end).

Fixpoint invoke_each (k : hook) (cbs : list callback) : MS unit :=
  match cbs with
  | [] => MS.ret tt
  | cb :: rest => MS.bind (invoke k cb) (fun _ => invoke_each k rest)
  end.

(** [for callback in helper.<list>: callback()] *)
Definition for_callbacks (k : hook)
    (get : ScriptHelper -> list callback) : MS unit :=
  fun h => invoke_each k (get h) h.

Local Open Scope ms_scope.

(** The body of the [try] statement of [_with_helper]. *)
Definition try_block (func : task) : MS unit :=
  MS.method (timestamp world) ;;
  MS.method (fun h => print_separation h "-" 20) ;;
  call_task func ;;
  for_callbacks Success callbacks_success ;;
  MS.method done.

(** Its [except Exception as ex] clause. *)
Definition except_block (exit_on_error : bool) (ex : exn) : MS unit :=
  for_callbacks Failure callback_failure ;;
  MS.method (fun h =>
    print_error h (format_exc world ex) (Some "red") 1 exit_on_error) ;;
  MS.raise ex.

(** Its [finally] clause. *)
Definition finally_block : MS unit :=
  for_callbacks Always callbacks_always ;;
  MS.method (fun h => print_separation h "-" 20) ;;
  MS.method (timestamp world).

(** The [try] statement. *)
Definition scoped_body (func : task) (exit_on_error : bool) : MS unit :=
  MS.try_finally
    (MS.try_except_Exception
       (try_block func)
       (except_block exit_on_error))
    finally_block.

(** [fpath_log.parent.mkdir(parents=True, exist_ok=True)] when a log is
    asked for: the file system afterwards and the outcome. *)
Definition make_log_dir (fpath_log : option PurePath.t)
  : list (PurePath.t * kind) * outcome unit :=
  match fpath_log with
  | Some p => Path_mkdir (PurePath.parent p) (files world) true true
  | None => (files world, Return tt)
  end.

(** [fpath_log.open("w") if with_log else nullcontext()], entered: the
    file object of the log, or [None]. *)
Definition open_log (fs : list (PurePath.t * kind))
    (fpath_log : option PurePath.t) : outcome (option handle) :=
  match fpath_log with
  | Some p =>
      match open_w fs p with
      | (_, Return _) => Return (Some (FileObj (PurePath.to_string p)))
      | (_, Raise e) => Raise e
      end
  | None => Return None
  end.

(** [_with_helper(fpath_log, verbosity, quiet, dry_run, overwrite,
    exit_on_error, prefix_run, prefix_error, **kwargs)] for the wrapped
    function [func].  The directory of the log is made first; then the
    scratch directory is created and, inside its [with] statement, the
    log is opened.  Each of the three can raise, and then nothing of what
    follows it is done. *)
Definition with_helper (func : task)
    (fpath_log : option PurePath.t) (verbosity : Z)
    (quiet dry_run overwrite exit_on_error : bool)
    (prefix_run prefix_error : string) : W event unit :=
  let body file_log dpath_tmp :=
    MS.run (scoped_body func exit_on_error)
      (ScriptHelper_init file_log verbosity quiet dry_run overwrite
         (Some (PurePath.parse dpath_tmp))
         prefix_run prefix_error DONE_MESSAGE None None None) in
  match make_log_dir fpath_log with
  | (_, Raise e) => ([], Raise e)
  | (fs, Return _) =>
      let made :=
        match fpath_log with
        | Some p => [MkdirParents (PurePath.parent p)]
        | None => []
        end in
      match mkdtemp world with
      | Raise e => (made, Raise e)
      | Return dpath_tmp =>
          let (t, o) :=
            with_context [TmpCreate dpath_tmp] [TmpRemove dpath_tmp]
              (match open_log
                       (fs ++ [(PurePath.parse dpath_tmp, Directory)])
                       fpath_log with
               | Raise e => ([], Raise e)
               | Return file_log =>
                   with_context
                     (match fpath_log with
                      | Some p => [LogOpen p]
                      | None => []
                      end)
                     (match fpath_log with
                      | Some p => [LogClose p]
                      | None => []
                      end)
                     (body file_log dpath_tmp)
               end) in
          ((made ++ t)%list, o)
      end
  end.

(** The call with the defaults of the signature. *)
Definition with_helper_default (func : task) : W event unit :=
  with_helper func None DEFAULT_VERBOSITY false false false true
    PREFIX_RUN PREFIX_ERROR.

End ScopedRun.

(** ** Notions used to state the properties *)

(** The events that start a process. *)
Definition spawns (e : io_event) : bool :=
  match e with
  | Run _ _ _ _ | CheckOutput _ => true
  | Echo _ _ _ => false
  end.

(** The suffix [add_suffix] inserts: [suffix] without one leading [sep]. *)
Definition inserted_suffix (suffix sep : string) : string :=
  if PyStr.startswith suffix sep
  then PyStr.drop (String.length sep) suffix
  else suffix.

(** [stderr] when given, the log otherwise. *)
Definition or_log (self : ScriptHelper) (stderr : option handle)
  : option handle :=
  match stderr with
  | None => file_log self
  | Some _ => stderr
  end.

(** The directory [d] holds a file, at any depth, whose name starts with
    [prefix] when one is given. *)
Definition holds_file (fs : list (PurePath.t * kind)) (d : PurePath.t)
    (prefix : option string) : Prop :=
  Fs.is_dir fs d = true
  /\ exists p,
       In p (map fst fs)
       /\ Fs.is_below d p = true
       /\ Fs.is_file fs p = true
       /\ match prefix with
          | None => True
          | Some pre => PyStr.startswith (PurePath.name p) pre = true
          end.

(** The name the error message of [requires_program] gives to the
    program. *)
Definition shown_name (program : string) (program_name : option string)
  : string :=
  match program_name with None => program | Some n => n end.

(** The files [check_dir] counts. *)
Definition files_in_dir (world : World) (dpath : PurePath.t)
    (prefix : option string) : list PurePath.t :=
  let l :=
    filter (Fs.is_file (files world)) (Fs.rglob_all (files world) dpath) in
  match prefix with
  | Some prefix =>
      filter (fun p => PyStr.startswith (PurePath.name p) prefix) l
  | None => l
  end.

(** The callbacks a loop over [cbs] calls: up to the first that raises,
    included. *)
Fixpoint until_raise (cbs : list callback) : list callback :=
  match cbs with
  | [] => []
  | cb :: rest =>
      cb :: match cb_raises cb with
            | None => until_raise rest
            | Some _ => []
            end
  end.

(** What the first raising callback of [cbs] raises. *)
Fixpoint first_raise (cbs : list callback) : option exn :=
  match cbs with
  | [] => None
  | cb :: rest =>
      match cb_raises cb with
      | None => first_raise rest
      | Some e => Some e
      end
  end.

(** The events of one callback called from the loop [k]. *)
Definition invoke_events (k : hook) (cb : callback) : list event :=
  Call k (cb_id cb) :: map IO (cb_io cb).

Definition hook_eqb (k k' : hook) : bool :=
  match k, k' with
  | Always, Always | Success, Success | Failure, Failure => true
  | _, _ => false
  end.

(** The callbacks called from the loop [k] in a trace, in order. *)
Fixpoint calls (k : hook) (t : list event) : list nat :=
  match t with
  | [] => []
  | Call k' id :: r => if hook_eqb k k' then id :: calls k r else calls k r
  | _ :: r => calls k r
  end.

(** The helper of a scoped run when the [try] statement is left: as the
    wrapped function left it, or as constructed when the opening timestamp
    raised and the function was not called. *)
Definition helper_at_exit (world : World) (func : task)
    (h : ScriptHelper) : ScriptHelper :=
  match W.result (timestamp world h) with
  | Return _ => t_helper (func h)
  | Raise _ => h
  end.

(** The scratch directory of a run in which [TemporaryDirectory()]
    succeeds. *)
Definition tmp_name (world : World) : string :=
  match mkdtemp world with
  | Return d => d
  | Raise _ => ""
  end.

(** How the set-up of a scoped run ends: the directory of the log, the
    scratch directory, the log file. *)
Definition set_up (world : World) (fpath_log : option PurePath.t)
  : outcome unit :=
  match make_log_dir world fpath_log with
  | (_, Raise e) => Raise e
  | (fs, Return _) =>
      match mkdtemp world with
      | Raise e => Raise e
      | Return d =>
          match open_log (fs ++ [(PurePath.parse d, Directory)]) fpath_log with
          | Raise e => Raise e
          | Return _ => Return tt
          end
      end
  end.

(** What a run does when its set-up fails: the directory of the log, when
    it could be made, and the scratch directory, created and removed,
    when the log could not be opened in it. *)
Definition failed_set_up_events (world : World)
    (fpath_log : option PurePath.t) : list event :=
  match make_log_dir world fpath_log with
  | (_, Raise _) => []
  | (_, Return _) =>
      (match fpath_log with
       | Some p => [MkdirParents (PurePath.parent p)]
       | None => []
       end
       ++ match mkdtemp world with
          | Raise _ => []
          | Return d => [TmpCreate d; TmpRemove d]
          end)%list
  end.

(** The helper [_with_helper] constructs. *)
Definition scoped_helper (world : World) (fpath_log : option PurePath.t)
    (verbosity : Z) (quiet dry_run overwrite : bool)
    (prefix_run prefix_error : string) : ScriptHelper :=
  ScriptHelper_init
    (match fpath_log with
     | Some p => Some (FileObj (PurePath.to_string p))
     | None => None
     end)
    verbosity quiet dry_run overwrite
    (Some (PurePath.parse (tmp_name world)))
    prefix_run prefix_error DONE_MESSAGE None None None.

(** The exits of the two [with] statements. *)
Definition scope_exit (world : World) (fpath_log : option PurePath.t)
  : list event :=
  match fpath_log with
  | Some p => [LogClose p; TmpRemove (tmp_name world)]
  | None => [TmpRemove (tmp_name world)]
  end.

(** The directory of the log, and the entries of the two [with]
    statements. *)
Definition scope_enter (world : World) (fpath_log : option PurePath.t)
  : list event :=
  match fpath_log with
  | Some p =>
      [MkdirParents (PurePath.parent p); TmpCreate (tmp_name world); LogOpen p]
  | None => [TmpCreate (tmp_name world)]
  end.

(** The separator line [print_separation()] writes. *)
Definition separator_line (self : ScriptHelper) : event :=
  IO (Echo [Styled None "--------------------"] true (file_log self)).

(** The stream the [date] process of [timestamp()] writes to. *)
Definition date_stream (self : ScriptHelper) : option handle :=
  if verbosity self <? 2 then Some DEVNULL else file_log self.

(** What [timestamp()] does: the command line, when the verbosity is
    above 0 or under dry-run, and the [date] process. *)
Definition timestamp_events (self : ScriptHelper) : list io_event :=
  ((if (verbosity self >? 0) || dry_run self
    then [Echo (if dry_run self
                then [Styled (Some "yellow") PREFIX_RUN; Plain "date"]
                else [Styled (Some "yellow") (PREFIX_RUN ++ "date")])
               true (file_log self)]
    else [])
   ++ [Run ["date"] false (date_stream self) (date_stream self)])%list.

(** What the [finally] clause does on the helper [h]: the always-callbacks
    up to the first that raises and, when none raises, the separator line
    and the timestamp. *)
Definition epilogue (h : ScriptHelper) : list event :=
  (flat_map (invoke_events Always) (until_raise (callbacks_always h))
   ++ match first_raise (callbacks_always h) with
      | None => separator_line h :: map IO (timestamp_events h)
      | Some _ => []
      end)%list.

(** ** Sample values *)

Module Samples.

Definition world : World :=
  {| proc := fun args _ =>
       match args with
       | ["false"] => Exited 1
       | ["which"; "mincinfo"] => Exited 1
       | _ => Exited 0
       end;
     files :=
       [ (PurePath.parse "out", Directory);
         (PurePath.parse "out/sub-01", Directory);
         (PurePath.parse "out/sub-01/sub-01_T1w.mnc", RegularFile);
         (PurePath.parse "fresh", Directory);
         (PurePath.parse "fresh/logs", Directory) ];
     format_exc := fun _ => "Traceback (most recent call last): ...";
     mkdtemp := Return "/tmp/tmpk3x9" |}.

Definition helper (verbosity : Z) (quiet dry_run overwrite : bool)
  : ScriptHelper :=
  ScriptHelper_init (Some (FileObj "run.log")) verbosity quiet dry_run
    overwrite None PREFIX_RUN PREFIX_ERROR DONE_MESSAGE None None None.

(** A wrapped function that registers callbacks on the helper and
    returns or raises. *)
Definition registering (always success failure : list callback)
    (raises : option exn) : task :=
  fun h =>
    {| t_io := [];
       t_helper :=
         {| file_log := file_log h;
            verbosity := verbosity h;
            quiet := quiet h;
            dry_run := dry_run h;
            overwrite := overwrite h;
            dpath_tmp := dpath_tmp h;
            prefix_run := prefix_run h;
            prefix_error := prefix_error h;
            done_message := done_message h;
            callbacks_always := callbacks_always h ++ always;
            callbacks_success := callbacks_success h ++ success;
            callback_failure := callback_failure h ++ failure |};
       t_raises := raises |}.

Definition cb_ok (id : nat) : callback :=
  {| cb_id := id; cb_io := []; cb_raises := None |}.

Definition cb_failing (id : nat) : callback :=
  {| cb_id := id; cb_io := [];
     cb_raises := Some (OtherException "ValueError") |}.

End Samples.

(** ** Further functions of the module *)

Definition DNAME_NIHPD : string := "nihpd_pipeline".

(** [sub in s] for strings: [sub] occurs in [s]. *)
Fixpoint str_in (sub s : string) : bool :=
  PyStr.startswith s sub
  || match s with
     | EmptyString => false
     | String _ s' => str_in sub s'
     end.

(** [add_options(options)(func)]: the decorators of [options], applied
    from the last to the first. *)
Definition add_options {F : Type} (options : list (F -> F)) (func : F) : F :=
  fold_left (fun func option => option func) (rev options) func.

(** [check_nihpd_pipeline(dpath_pipeline)]; [environ] is
    [os.environ.get]. *)
Definition check_nihpd_pipeline (world : World)
    (environ : string -> option string) (dpath_pipeline : PurePath.t)
  : W io_event unit :=
  let fpath_to_source := PurePath.joinpath dpath_pipeline "init.sh" in
  if negb (Fs.exists_ (files world) fpath_to_source) then
    W.raise (FileNotFoundError (PurePath.to_string fpath_to_source))
  else
    let pythonpath := environ "PYTHONPATH" in
    if match pythonpath with
       | None => true
       | Some v => negb (str_in DNAME_NIHPD v)
       end
    then
      W.raise (RuntimeError
        ("PYTHONPATH environment variable not set correctly. "
         ++ "Make sure to source " ++ PurePath.to_string fpath_to_source
         ++ " before running"))
    else W.ret tt.

(** *** [ScriptHelper.mkdir] *)

(** [self.mkdir(path, parents, exist_ok)] on the file system [fs]. *)
Definition mkdir (self : ScriptHelper) (fs : list (PurePath.t * kind))
    (path : string) (parents : bool) (exist_ok : option bool)
  : list (PurePath.t * kind) * outcome unit :=
  let exist_ok :=
    match exist_ok with
    | None => overwrite self
    | Some b => b
    end in
  if negb (dry_run self)
  then Path_mkdir (PurePath.parse path) fs parents exist_ok
  else (fs, Return tt).

(** The world with another file system. *)
Definition with_files (world : World) (fs : list (PurePath.t * kind))
  : World :=
  {| proc := proc world;
     files := fs;
     format_exc := format_exc world;
     mkdtemp := mkdtemp world |}.

(** Every entry of the file system lies in a directory. *)
Definition well_formed (fs : list (PurePath.t * kind)) : Prop :=
  forall q k, In (q, k) fs -> kind_at fs (PurePath.parent q) = Some Directory.

(** ** Further notions *)

(** The characters of a styled text, without the colours. *)
Definition segment_text (s : segment) : string :=
  match s with
  | Styled _ text => text
  | Plain text => text
  end.

Definition plain_text (l : list segment) : string :=
  String.concat "" (map segment_text l).

Definition is_echo (e : io_event) : bool :=
  match e with
  | Echo _ _ _ => true
  | _ => false
  end.

(** The command line [run_command] prints, when it prints one. *)
Definition run_echo (self : ScriptHelper) (args : list string)
    (silent : bool) : list io_event :=
  if negb silent && ((verbosity self >? 0) || dry_run self)
  then [Echo (if dry_run self
              then [Styled (Some "yellow") PREFIX_RUN;
                    Plain (PyStr.join " " (clean_args args))]
              else [Styled (Some "yellow")
                      (PREFIX_RUN ++ PyStr.join " " (clean_args args))])
             true (file_log self)]
  else [].

(** [sub] occurs in [s]: [s] is some text, [sub], and some text. *)
Definition occurs (sub s : string) : Prop :=
  exists a b, s = a ++ sub ++ b.

(** The opening of a scoped run: the timestamp and the separator line. *)
Definition opening (h0 : ScriptHelper) : list event :=
  (map IO (timestamp_events h0) ++ [separator_line h0])%list.

(** The line [done()] writes. *)
Definition done_line (h : ScriptHelper) : event :=
  IO (Echo [Styled (Some "green") (done_message h)] true (file_log h)).

(** The line [print_error] writes for the traceback of [ex]. *)
Definition error_line (world : World) (h : ScriptHelper) (ex : exn) : event :=
  IO (Echo [Styled (Some "red") (prefix_error h ++ format_exc world ex)]
        true (file_log h)).

(** The events of log file and scratch directory. *)
Definition is_scope (e : event) : bool :=
  match e with
  | IO _ | Call _ _ => false
  | _ => true
  end.

(** How the body of the [try] statement ends, from the helper [h0] it
    starts with. *)
Definition try_outcome (world : World) (func : task) (h0 : ScriptHelper)
  : outcome unit :=
  match W.result (timestamp world h0) with
  | Raise e => Raise e
  | Return _ =>
      match t_raises (func h0) with
      | Some e => Raise e
      | None =>
          match first_raise (callbacks_success (t_helper (func h0))) with
          | Some e => Raise e
          | None => Return tt
          end
      end
  end.

(** What the body of the [try] statement does. *)
Definition try_events (world : World) (func : task) (h0 : ScriptHelper)
  : list event :=
  match W.result (timestamp world h0) with
  | Raise _ => map IO (timestamp_events h0)
  | Return _ =>
      let r := func h0 in
      (opening h0 ++ map IO (t_io r)
       ++ match t_raises r with
          | Some _ => []
          | None =>
              flat_map (invoke_events Success)
                (until_raise (callbacks_success (t_helper r)))
              ++ match first_raise (callbacks_success (t_helper r)) with
                 | Some _ => []
                 | None => [done_line (t_helper r)]
                 end
          end)%list
  end.

(** What the [except] clause does after the body ended with [o], on the
    helper [h]. *)
Definition except_events (world : World) (h : ScriptHelper)
    (o : outcome unit) : list event :=
  match o with
  | Return _ => []
  | Raise e =>
      if is_Exception e then
        (flat_map (invoke_events Failure) (until_raise (callback_failure h))
         ++ match first_raise (callback_failure h) with
            | Some _ => []
            | None => [error_line world h e]
            end)%list
      else []
  end.

(** How body and [except] clause end together. *)
Definition except_outcome (exit_on_error : bool) (h : ScriptHelper)
    (o : outcome unit) : outcome unit :=
  match o with
  | Return a => Return a
  | Raise e =>
      if is_Exception e then
        match first_raise (callback_failure h) with
        | Some e' => Raise e'
        | None => if exit_on_error then Raise (SystemExit 1) else Raise e
        end
      else Raise e
  end.

(** How the [try] statement ends when the clauses before [finally] ended
    with [o]. *)
Definition finally_outcome (world : World) (h : ScriptHelper)
    (o : outcome unit) : outcome unit :=
  match first_raise (callbacks_always h) with
  | Some e => Raise e
  | None =>
      match W.result (timestamp world h) with
      | Raise e => Raise e
      | Return _ => o
      end
  end.

(** ** More sample values *)

Module MoreSamples.

(** A machine without the [date] program. *)
Definition world_without_date : World :=
  {| proc := fun args _ =>
       match args with
       | ["date"] => SpawnError (FileNotFoundError "date")
       | _ => Exited 0
       end;
     files := [];
     format_exc := fun _ => "Traceback (most recent call last): ...";
     mkdtemp := Return "/tmp/tmpk3x9" |}.

End MoreSamples.

(** A path component: not empty, not ["."], without a slash. *)
Definition valid_component (x : string) : Prop :=
  PyStr.contains PurePath.slash x = false /\ PurePath.is_component x = true.

(** * Properties *)

(** ** The model on small inputs *)

Example str_int_examples :
  PyStr.str_int 1 = "1" /\ PyStr.str_int 0 = "0"
  /\ PyStr.str_int 127 = "127" /\ PyStr.str_int (-9) = "-9".
Proof. repeat split. Qed.

Example split_examples :
  PyStr.split "/" "a//b" = ["a"; ""; "b"]
  /\ PyStr.split "/" "" = [""]
  /\ PyStr.split "/" "/a/" = [""; "a"; ""].
Proof. repeat split. Qed.

Example removesuffix_examples :
  PyStr.removesuffix "img.nii.gz" ".nii.gz" = "img"
  /\ PyStr.removesuffix "img.nii.gz" ".mnc" = "img.nii.gz"
  /\ PyStr.removesuffix "img.nii.gz" "" = "img.nii.gz"
  /\ PyStr.removesuffix ".gz" ".gz" = "".
Proof. repeat split. Qed.

Example parse_examples :
  PurePath.parse "/a//b/./c.tar.gz" = PurePath.mk "/" ["a"; "b"; "c.tar.gz"]
  /\ PurePath.parse "" = PurePath.mk "" []
  /\ PurePath.to_string (PurePath.parse "") = "."
  /\ PurePath.parse "//a" = PurePath.mk "//" ["a"]
  /\ PurePath.parse "///a" = PurePath.mk "/" ["a"]
  /\ PurePath.to_string (PurePath.parse "out/./sub-01/") = "out/sub-01".
Proof. repeat split. Qed.

Example stem_suffix_examples :
  PurePath.suffix (PurePath.parse "c.tar.gz") = ".gz"
  /\ PurePath.stem (PurePath.parse "c.tar.gz") = "c.tar"
  /\ PurePath.suffix (PurePath.parse ".bashrc") = ""
  /\ PurePath.suffix (PurePath.parse "a.") = ""
  /\ PurePath.stem (PurePath.parse "..") = "..".
Proof. repeat split. Qed.

Example add_suffix_examples :
  PurePath.to_string (add_suffix_default "out/sub-01_T1w.mnc" "mask")
  = "out/sub-01_T1w-mask.mnc"
  /\ PurePath.to_string (add_suffix_default "/a//b/./c.tar.gz" "-x")
     = "/a/b/c.tar-x.gz"
  /\ PurePath.to_string (add_suffix "a/b.txt" "x" None None) = "a/bx.txt"
  /\ PurePath.to_string (add_suffix_default "/" "a") = "/-a".
Proof. repeat split. Qed.

Example run_command_examples :
  run_command Samples.world (Samples.helper 2 false false false)
    ["false"; ""; "x"] false None None false false
  = ([Echo [Styled (Some "yellow") "[RUN] false x"] true
        (Some (FileObj "run.log"));
      Run ["false"; "x"] false (Some (FileObj "run.log"))
        (Some (FileObj "run.log"))],
     Return tt)
  /\ run_command Samples.world (Samples.helper 2 true true false)
       ["ls"] false None None false true
     = ([Echo [Styled (Some "yellow") "[RUN] "; Plain "ls"] true
           (Some (FileObj "run.log"));
         Run ["ls"] false (Some DEVNULL) (Some DEVNULL)],
        Return tt).
Proof. repeat split. Qed.

(** ** Strings and paths *)

Section StringFacts.

Local Open Scope string_scope.

Lemma append_nil_r (s : string) : s ++ "" = s.
Proof. induction s as [|c s IH]; simpl; [reflexivity | now rewrite IH]. Qed.

Lemma append_assoc (a b c : string) : (a ++ b) ++ c = a ++ b ++ c.
Proof. induction a as [|x a IH]; simpl; [reflexivity | now rewrite IH]. Qed.

Lemma take_drop (n : nat) (s : string) :
  PyStr.take n s ++ PyStr.drop n s = s.
Proof.
  revert s; induction n as [|n IH]; intros [|c s]; simpl; try reflexivity.
  now rewrite IH.
Qed.

Lemma contains_append (c : ascii) (a b : string) :
  PyStr.contains c (a ++ b) = PyStr.contains c a || PyStr.contains c b.
Proof.
  induction a as [|x a IH]; simpl; [reflexivity|].
  rewrite IH. now rewrite orb_assoc.
Qed.

Lemma contains_drop (c : ascii) (n : nat) (s : string) :
  PyStr.contains c s = false -> PyStr.contains c (PyStr.drop n s) = false.
Proof.
  intros H. rewrite <- (take_drop n s), contains_append in H.
  now apply orb_false_elim in H.
Qed.

(** A string without the separator is its own only field. *)
Lemma split_no_sep (c : ascii) (s : string) :
  PyStr.contains c s = false -> PyStr.split c s = [s].
Proof.
  induction s as [|a s IH]; simpl; [reflexivity|].
  intros H. apply orb_false_elim in H as [Ha Hs].
  rewrite Ha, (IH Hs). reflexivity.
Qed.

(** No field of a split holds the separator. *)
Lemma split_fields (c : ascii) (s x : string) :
  In x (PyStr.split c s) -> PyStr.contains c x = false.
Proof.
  revert x; induction s as [|a s IH]; simpl; intros x H.
  - destruct H as [<-|[]]. reflexivity.
  - destruct (Ascii.eqb a c) eqn:E.
    + destruct H as [<-|H]; [reflexivity | now apply IH].
    + destruct (PyStr.split c s) as [|y ys] eqn:Es.
      * destruct H as [<-|[]]. simpl. now rewrite E.
      * destruct H as [<-|H].
        -- simpl. rewrite E. apply IH. now left.
        -- apply IH. now right.
Qed.

End StringFacts.

Section PathFacts.

Import PurePath.
Local Open Scope string_scope.

Lemma splitroot_relative (s : string) :
  PyStr.contains slash s = false -> splitroot s = ("", s).
Proof.
  destruct s as [|a s]; simpl; [reflexivity|].
  intros H. apply orb_false_elim in H as [Ha _]. now rewrite Ha.
Qed.

(** A name without a slash that is neither empty nor ["."] is a path of
    one component. *)
Lemma parse_single (s : string) :
  PyStr.contains slash s = false -> is_component s = true ->
  parse s = mk "" [s].
Proof.
  intros Hs Hc. unfold parse.
  rewrite (splitroot_relative s Hs), (split_no_sep _ _ Hs).
  simpl. now rewrite Hc.
Qed.

(** The components of a parsed path hold no slash. *)
Lemma parse_components (s x : string) :
  In x (tail (parse s)) -> PyStr.contains slash x = false.
Proof.
  unfold parse. destruct (splitroot s) as [r rel]. simpl.
  intros H. apply filter_In in H as [H _].
  now apply split_fields in H.
Qed.

Lemma name_no_slash (s : string) :
  PyStr.contains slash (name (parse s)) = false.
Proof.
  unfold name.
  destruct (tail (parse s)) as [|y l] eqn:E; [reflexivity|].
  apply (parse_components s). rewrite E.
  assert (H : y :: l <> []) by discriminate.
  destruct (exists_last H) as (l' & z & ->).
  rewrite last_last. apply in_or_app. right. now left.
Qed.

(** [p.stem + p.suffix == p.name] *)
Lemma stem_suffix (p : t) : stem p ++ suffix p = name p.
Proof.
  unfold stem, suffix.
  destruct (andb _ _).
  - apply take_drop.
  - apply append_nil_r.
Qed.

Lemma stem_no_slash (s : string) :
  PyStr.contains slash (stem (parse s)) = false.
Proof.
  pose proof (name_no_slash s) as H.
  rewrite <- stem_suffix, contains_append in H.
  now apply orb_false_elim in H.
Qed.

Lemma suffix_no_slash (s : string) :
  PyStr.contains slash (suffix (parse s)) = false.
Proof.
  pose proof (name_no_slash s) as H.
  rewrite <- stem_suffix, contains_append in H.
  now apply orb_false_elim in H.
Qed.

(** A name made of a stem, a dash and more is a path component. *)
Lemma dashed_is_component (a b : string) :
  is_component (a ++ "-" ++ b) = true.
Proof.
  unfold is_component.
  destruct a as [|x a]; [reflexivity|].
  cbn [append String.eqb negb andb].
  destruct (Ascii.eqb x "."); [|reflexivity].
  destruct a; reflexivity.
Qed.

Lemma joinpath_single (p : t) (s : string) :
  PyStr.contains slash s = false -> is_component s = true ->
  joinpath p s = mk (root p) (tail p ++ [s]).
Proof.
  intros Hs Hc. unfold joinpath. now rewrite (parse_single s Hs Hc).
Qed.

Lemma parent_joinpath_single (p : t) (s : string) :
  parent (mk (root p) (tail p ++ [s])) = p.
Proof.
  unfold parent; simpl. rewrite removelast_last. now destruct p.
Qed.

End PathFacts.

(** ** [add_suffix] *)

Section AddSuffix.

Import PurePath.
Local Open Scope string_scope.

(** With a separator and no [ext], the new name is the stem, the
    separator, the suffix without one leading separator, and the
    extension of the path. *)
Lemma add_suffix_auto (path suffix sep : string) :
  add_suffix path suffix (Some sep) None
  = joinpath (parent (parse path))
      (stem (parse path) ++ sep ++ inserted_suffix suffix sep
       ++ PurePath.suffix (parse path)).
Proof.
  unfold add_suffix, inserted_suffix.
  destruct (PyStr.startswith suffix sep); reflexivity.
Qed.

(** With [ext], the stem is the whole path string without [ext]. *)
Lemma add_suffix_ext (path suffix sep ext : string) :
  add_suffix path suffix (Some sep) (Some ext)
  = joinpath (parent (parse path))
      (PyStr.removesuffix (to_string (parse path)) ext ++ sep
       ++ inserted_suffix suffix sep ++ ext).
Proof.
  unfold add_suffix, inserted_suffix.
  destruct (PyStr.startswith suffix sep); reflexivity.
Qed.

Lemma inserted_suffix_no_slash (suffix sep : string) :
  PyStr.contains slash suffix = false ->
  PyStr.contains slash (inserted_suffix suffix sep) = false.
Proof.
  intros H. unfold inserted_suffix.
  destruct (PyStr.startswith suffix sep); [|exact H].
  now apply contains_drop.
Qed.

(** C8 (as amended): for every path and every suffix without a slash,
    [add_suffix(path, suffix)] with the default separator and no [ext]
    lies in the parent directory of [path], and its name is the stem of
    [path], a dash, the suffix (without one leading dash) and the
    extension of [path], where stem and extension make up the name of
    [path]; and [add_suffix(path, "-a")] is [add_suffix(path, "a")]. *)
Theorem add_suffix_before_extension (path suffix : string) :
  PyStr.contains slash suffix = false ->
  let p := parse path in
  let r := add_suffix_default path suffix in
  parent r = parent p
  /\ name r = stem p ++ SEP_SUFFIX ++ inserted_suffix suffix SEP_SUFFIX
              ++ PurePath.suffix p
  /\ stem p ++ PurePath.suffix p = name p
  /\ add_suffix_default path "-a" = add_suffix_default path "a".
Proof.
  intros Hs p r.
  assert (Hr : r = mk (root (parent p))
                 (List.app (tail (parent p))
                    [stem p ++ SEP_SUFFIX
                     ++ inserted_suffix suffix SEP_SUFFIX
                     ++ PurePath.suffix p])).
  { subst r. unfold add_suffix_default. rewrite add_suffix_auto.
    apply joinpath_single.
    - rewrite !contains_append. subst p.
      rewrite stem_no_slash, suffix_no_slash.
      now rewrite (inserted_suffix_no_slash _ _ Hs).
    - apply dashed_is_component. }
  split; [|split; [|split]].
  - rewrite Hr. apply parent_joinpath_single.
  - rewrite Hr. unfold name at 1. simpl. apply last_last.
  - apply stem_suffix.
  - unfold add_suffix_default. now rewrite !add_suffix_auto.
Qed.

Lemma add_suffix_before_extension_witness :
  parent (add_suffix_default "out/sub-01_T1w.mnc" "-mask")
  = parent (parse "out/sub-01_T1w.mnc")
  /\ name (add_suffix_default "out/sub-01_T1w.mnc" "-mask")
     = "sub-01_T1w-mask.mnc".
Proof.
  destruct (add_suffix_before_extension "out/sub-01_T1w.mnc" "-mask")
    as (Hp & Hn & _); [reflexivity|].
  split; [exact Hp | exact Hn].
Defined.

(** C8 (as stated) fails: a suffix with a slash moves the result out of
    the parent directory of the path. *)
Lemma add_suffix_slash_changes_parent :
  to_string (add_suffix_default "dir/img.nii" "x/y") = "dir/img-x/y.nii"
  /\ parent (add_suffix_default "dir/img.nii" "x/y")
     <> parent (parse "dir/img.nii").
Proof. split; [reflexivity | vm_compute; discriminate]. Qed.

(** C9: [add_suffix("img.nii.gz", "brain", ext=".nii.gz")] is the path
    ["img-brain.nii.gz"]: the given extension is removed from the path
    and put back after the suffix, where the automatic detection would
    have taken [".gz"] alone. *)
Theorem add_suffix_custom_extension :
  add_suffix "img.nii.gz" "brain" (Some SEP_SUFFIX) (Some ".nii.gz")
  = parse "img-brain.nii.gz"
  /\ to_string
       (add_suffix "img.nii.gz" "brain" (Some SEP_SUFFIX) (Some ".nii.gz"))
     = "img-brain.nii.gz"
  /\ PyStr.removesuffix (to_string (parse "img.nii.gz")) ".nii.gz" = "img"
  /\ PurePath.suffix (parse "img.nii.gz") = ".gz"
  /\ to_string (add_suffix_default "img.nii.gz" "brain")
     = "img.nii-brain.gz".
Proof. repeat split; reflexivity. Qed.

End AddSuffix.

(** ** [ScriptHelper.__init__] *)

(** C7: a helper constructed with [quiet=True] has verbosity 0 whatever
    verbosity was asked for, 3 included, and assigning [quiet] afterwards
    leaves the stored verbosity as it is. *)
Theorem quiet_forces_verbosity_zero :
  (forall log level dry over tmp p_run p_error message
          cbs_always cbs_success cbs_failure,
      verbosity
        (ScriptHelper_init log level true dry over tmp p_run p_error message
           cbs_always cbs_success cbs_failure) = 0)
  /\ (forall log dry over tmp p_run p_error message
             cbs_always cbs_success cbs_failure,
      verbosity
        (ScriptHelper_init log 3 true dry over tmp p_run p_error message
           cbs_always cbs_success cbs_failure) = 0)
  /\ (forall b self, verbosity (set_quiet b self) = verbosity self).
Proof. repeat split. Qed.

(** ** [run_command] *)

Section RunCommand.

Variable world : World.
Variable self : ScriptHelper.

(** C1: under dry-run and without [force], [run_command] starts no
    process, whatever the verbosity, the streams and [silent] are: it
    prints the joined command line unless [silent], does nothing else,
    and returns. *)
Theorem run_command_dry_run_no_spawn
    (args : list string) (shell : bool) (stdout stderr : option handle)
    (silent force : bool) :
  dry_run self = true ->
  force = false ->
  let r := run_command world self args shell stdout stderr silent force in
  existsb spawns (W.trace r) = false
  /\ W.trace r
     = (if silent then []
        else [Echo [Styled (Some "yellow") PREFIX_RUN;
                    Plain (PyStr.join " " (clean_args args))]
                   true (file_log self)])
  /\ W.result r = Return tt.
Proof.
  intros Hdry ->. unfold run_command. rewrite Hdry, orb_true_r.
  destruct silent; repeat split.
Qed.

(** C4: when [run_command] runs the command and the process ends with a
    status other than 0, the call raises the error whose message holds
    the joined command line and that status; the process was started
    with the cleaned argument list. *)
Theorem run_command_nonzero_exit_raises
    (args : list string) (shell : bool) (stdout stderr : option handle)
    (silent force : bool) (returncode : Z) :
  (force || negb (dry_run self)) = true ->
  proc world (clean_args args) shell = Exited returncode ->
  returncode <> 0 ->
  let r := run_command world self args shell stdout stderr silent force in
  W.result r
  = Raise (RuntimeError
      (String "010" "Command " ++ PyStr.join " " (clean_args args)
       ++ " returned " ++ PyStr.str_int returncode))
  /\ exists so se, In (Run (clean_args args) shell so se) (W.trace r).
Proof.
  intros Hexec Hproc Hrc. unfold run_command. rewrite Hexec.
  destruct (run_streams self stdout stderr silent) as [so se].
  unfold subprocess_run. rewrite Hproc.
  destruct (negb silent && _);
    (destruct returncode; [congruence | |]); simpl;
    (split; [reflexivity | exists so, se; simpl; auto]).
Qed.

(** The one process an executing call starts, and its streams. *)
Lemma run_command_spawn
    (args : list string) (shell : bool) (stdout stderr : option handle)
    (silent force : bool) :
  (force || negb (dry_run self)) = true ->
  filter spawns
    (W.trace (run_command world self args shell stdout stderr silent force))
  = [Run (clean_args args) shell
       (fst (run_streams self stdout stderr silent))
       (snd (run_streams self stdout stderr silent))].
Proof.
  intros Hexec. unfold run_command. rewrite Hexec.
  destruct (run_streams self stdout stderr silent) as [so se].
  unfold subprocess_run.
  destruct (negb silent && _);
    destruct (proc world (clean_args args) shell) as [[|c|c]|e];
    try reflexivity; destruct e; reflexivity.
Qed.

(** C5 (as amended): an executing call starts exactly one process.
    Without an explicit [stdout], both streams are discarded when
    [silent] or the verbosity is below 2 (an explicit [stderr]
    included); otherwise [stdout] is the log and [stderr] is the given
    one, or the log.  With an explicit [stdout], that one is used and
    [stderr] is the given one, or the log. *)
Theorem run_command_stream_routing
    (args : list string) (shell : bool) (stdout stderr : option handle)
    (silent force : bool) :
  (force || negb (dry_run self)) = true ->
  exists so se,
    filter spawns
      (W.trace
         (run_command world self args shell stdout stderr silent force))
    = [Run (clean_args args) shell so se]
    /\ (stdout = None -> silent = true \/ verbosity self < 2 ->
        so = Some DEVNULL /\ se = Some DEVNULL)
    /\ (stdout = None -> silent = false -> 2 <= verbosity self ->
        so = file_log self /\ se = or_log self stderr)
    /\ (forall s, stdout = Some s ->
        so = Some s /\ se = or_log self stderr).
Proof.
  intros Hexec.
  exists (fst (run_streams self stdout stderr silent)),
         (snd (run_streams self stdout stderr silent)).
  split; [now apply run_command_spawn|].
  unfold run_streams, or_log.
  split; [|split].
  - intros -> [-> | Hv]; simpl.
    + split; reflexivity.
    + apply Z.ltb_lt in Hv. rewrite Hv, orb_true_r. split; reflexivity.
  - intros -> -> Hv. apply Z.ltb_ge in Hv. rewrite Hv. simpl.
    destruct stderr; split; reflexivity.
  - intros s ->. destruct stderr; split; reflexivity.
Qed.

End RunCommand.

Lemma run_command_dry_run_no_spawn_witness :
  existsb spawns
    (W.trace (run_command Samples.world (Samples.helper 3 false true false)
                ["minccalc"; ""; "in.mnc"] false None None false false))
  = false.
Proof.
  apply (run_command_dry_run_no_spawn Samples.world
           (Samples.helper 3 false true false)
           ["minccalc"; ""; "in.mnc"] false None None false
           eq_refl eq_refl).
Defined.

Lemma run_command_nonzero_exit_raises_witness :
  W.result (run_command Samples.world (Samples.helper 2 false false false)
              ["false"] false None None false false)
  = Raise (RuntimeError (String "010" "Command false returned 1")).
Proof.
  apply (run_command_nonzero_exit_raises Samples.world
           (Samples.helper 2 false false false)
           ["false"] false None None false false (returncode := 1)).
  - reflexivity.
  - reflexivity.
  - discriminate.
Defined.

Lemma run_command_stream_routing_witness :
  exists so se,
    filter spawns
      (W.trace (run_command Samples.world (Samples.helper 2 false false false)
                  ["ls"] false None None false false))
    = [Run ["ls"] false so se].
Proof.
  destruct (run_command_stream_routing Samples.world
              (Samples.helper 2 false false false)
              ["ls"] false None None false false eq_refl)
    as (so & se & H & _).
  exists so, se. exact H.
Defined.

(** C5 (as stated) fails: at verbosity 1 and with no [stdout] given, the
    standard error of the process is discarded, not sent to the log, and a
    [stderr] given by the caller is replaced as well. *)
Lemma run_command_discards_stderr :
  let self := Samples.helper 1 false false false in
  file_log self = Some (FileObj "run.log")
  /\ filter spawns
       (W.trace (run_command Samples.world self ["ls"] false
                   None None false false))
     = [Run ["ls"] false (Some DEVNULL) (Some DEVNULL)]
  /\ filter spawns
       (W.trace (run_command Samples.world self ["ls"] false
                   None (Some (FileObj "err.txt")) false false))
     = [Run ["ls"] false (Some DEVNULL) (Some DEVNULL)]
  /\ Some DEVNULL <> file_log self
  /\ Some DEVNULL <> Some (FileObj "err.txt").
Proof. repeat split; discriminate. Qed.

(** ** [requires_program] *)

Section RequiresProgram.

Variable world : World.
Variables A V : Type.
Variable func : A -> W io_event V.

(** C10: when [which program] fails, the wrapper raises the error that
    names the program and does nothing of the wrapped function: its
    trace is the lookup alone, whatever the function is.  When the
    lookup succeeds and the function returns a value, the wrapper did
    what the function did and returns [None], not that value. *)
Theorem requires_program_guard
    (program : string) (program_name : option string) (args : A) :
  (forall returncode,
      proc world ["which"; program] false = Exited returncode ->
      returncode <> 0 ->
      requires_program world func program program_name args
      = ([CheckOutput ["which"; program]],
         Raise (RuntimeError
           ("This function requires " ++ shown_name program program_name
            ++ ", which does not appear to be installed"))))
  /\ (forall t v,
      proc world ["which"; program] false = Exited 0 ->
      func args = (t, Return v) ->
      requires_program world func program program_name args
      = (CheckOutput ["which"; program] :: t, Return tt)).
Proof.
  unfold requires_program, subprocess_check_output, shown_name. split.
  - intros rc Hp Hrc. rewrite Hp.
    destruct rc; [congruence | |]; reflexivity.
  - intros t v Hp Hf. rewrite Hp, Hf. simpl.
    now rewrite app_nil_r.
Qed.

End RequiresProgram.

Lemma requires_program_guard_witness :
  requires_program Samples.world
    (fun _ : unit => ([Echo [Plain "converted"] true None], Return 5))
    "mincinfo" (Some "MINC tools") tt
  = ([CheckOutput ["which"; "mincinfo"]],
     Raise (RuntimeError
       "This function requires MINC tools, which does not appear to be installed"))
  /\ requires_program Samples.world
       (fun _ : unit => ([Echo [Plain "converted"] true None], Return 5))
       "python2" None tt
     = ([CheckOutput ["which"; "python2"]; Echo [Plain "converted"] true None],
        Return tt).
Proof.
  split.
  - apply (proj1 (requires_program_guard Samples.world
                    (fun _ : unit =>
                       ([Echo [Plain "converted"] true None], Return 5))
                    "mincinfo" (Some "MINC tools") tt) 1).
    + reflexivity.
    + discriminate.
  - apply (proj2 (requires_program_guard Samples.world
                    (fun _ : unit =>
                       ([Echo [Plain "converted"] true None], Return 5))
                    "python2" None tt) _ 5).
    + reflexivity.
    + reflexivity.
Defined.

(** ** [check_dir] *)

Section CheckDir.

Variable world : World.
Variable self : ScriptHelper.

Lemma files_in_dir_holds (dpath : PurePath.t) (prefix : option string) :
  files_in_dir world dpath prefix <> []
  <-> holds_file (files world) dpath prefix.
Proof.
  unfold files_in_dir, holds_file, Fs.rglob_all. split.
  - intros Hne.
    destruct (Fs.is_dir (files world) dpath);
      [|destruct prefix; now elim Hne].
    split; [reflexivity|].
    destruct prefix as [pre|].
    + destruct (filter _ _) as [|p l] eqn:E; [now elim Hne|].
      assert (Hin : In p (p :: l)) by now left.
      rewrite <- E in Hin.
      apply filter_In in Hin as [Hin Hpre].
      apply filter_In in Hin as [Hin Hfile].
      apply filter_In in Hin as [Hin Hbelow].
      exists p. auto.
    + destruct (filter _ _) as [|p l] eqn:E; [now elim Hne|].
      assert (Hin : In p (p :: l)) by now left.
      rewrite <- E in Hin.
      apply filter_In in Hin as [Hin Hfile].
      apply filter_In in Hin as [Hin Hbelow].
      exists p. auto.
  - intros [Hdir (p & Hin & Hbelow & Hfile & Hpre)]. rewrite Hdir.
    assert (H : In p (filter (Fs.is_file (files world))
                        (filter (Fs.is_below dpath)
                           (map fst (files world))))).
    { apply filter_In. split; [|exact Hfile].
      apply filter_In. split; assumption. }
    destruct prefix as [pre|].
    + intros E.
      assert (H' : In p (filter
                    (fun p => PyStr.startswith (PurePath.name p) pre)
                    (filter (Fs.is_file (files world))
                       (filter (Fs.is_below dpath)
                          (map fst (files world)))))).
      { apply filter_In. split; assumption. }
      rewrite E in H'. exact H'.
    + intros E. rewrite E in H. exact H.
Qed.

Lemma length_zero_nil (X : Type) (l : list X) :
  (Z.of_nat (List.length l) =? 0) = true <-> l = [].
Proof.
  destruct l; simpl; split; try reflexivity; discriminate.
Qed.

(** C6: [check_dir] raises [FileExistsError] exactly when the path
    exists, [overwrite] is false and the directory holds a file, at any
    depth, whose name starts with the prefix when one is given; in every
    other case it returns the path it was given. *)
Theorem check_dir_raises_iff (dpath : PurePath.t) (prefix : option string) :
  let guard :=
    Fs.exists_ (files world) dpath = true
    /\ overwrite self = false
    /\ holds_file (files world) dpath prefix in
  ((exists msg, check_dir world self dpath prefix
                = ([], Raise (FileExistsError msg)))
   <-> guard)
  /\ (~ guard -> check_dir world self dpath prefix = ([], Return dpath)).
Proof.
  intros guard. subst guard. unfold check_dir.
  fold (files_in_dir world dpath prefix).
  pose proof (files_in_dir_holds dpath prefix) as Hh.
  pose proof (length_zero_nil (files_in_dir world dpath prefix)) as Hl.
  destruct (Fs.exists_ (files world) dpath);
    destruct (overwrite self); simpl;
    try (split; [split; [intros [msg H]; discriminate
                        | intros (H1 & H2 & _); discriminate]
                | reflexivity]).
  destruct (Z.of_nat (List.length (files_in_dir world dpath prefix)) =? 0)
    eqn:E; simpl.
  - assert (Hnil : files_in_dir world dpath prefix = []) by now apply Hl.
    split; [split|reflexivity].
    + intros [msg H]; discriminate.
    + intros (_ & _ & H). apply Hh in H. contradiction.
  - assert (Hne : files_in_dir world dpath prefix <> []).
    { intros H. apply Hl in H. congruence. }
    split; [split|].
    + intros _. split; [reflexivity | split; [reflexivity | now apply Hh]].
    + intros _. eexists. reflexivity.
    + intros Hn. elim Hn.
      split; [reflexivity | split; [reflexivity | now apply Hh]].
Qed.

End CheckDir.

Lemma check_dir_raises_iff_witness :
  (exists msg,
      check_dir Samples.world (Samples.helper 2 false false false)
        (PurePath.parse "out") (Some "sub-")
      = ([], Raise (FileExistsError msg)))
  /\ check_dir Samples.world (Samples.helper 2 false false true)
       (PurePath.parse "out") None
     = ([], Return (PurePath.parse "out"))
  /\ check_dir Samples.world (Samples.helper 2 false false false)
       (PurePath.parse "fresh") None
     = ([], Return (PurePath.parse "fresh")).
Proof.
  split; [|split].
  - apply (proj1 (check_dir_raises_iff Samples.world
                    (Samples.helper 2 false false false)
                    (PurePath.parse "out") (Some "sub-"))).
    split; [reflexivity | split; [reflexivity|]].
    split; [reflexivity|].
    exists (PurePath.parse "out/sub-01/sub-01_T1w.mnc").
    repeat split. simpl. auto.
  - apply (proj2 (check_dir_raises_iff Samples.world
                    (Samples.helper 2 false false true)
                    (PurePath.parse "out") None)).
    intros (_ & H & _). discriminate.
  - apply (proj2 (check_dir_raises_iff Samples.world
                    (Samples.helper 2 false false false)
                    (PurePath.parse "fresh") None)).
    intros (_ & _ & _ & p & Hin & Hbelow & Hfile & _).
    simpl in Hin.
    repeat (destruct Hin as [<- | Hin]; [discriminate|]).
    exact Hin.
Defined.

(** ** [with_helper] *)

Section ScopedRunFacts.

Variable world : World.
Local Arguments timestamp : simpl never.

Lemma calls_app k (t t' : list event) :
  calls k (t ++ t')%list = (calls k t ++ calls k t')%list.
Proof.
  induction t as [|e t IH]; simpl; [reflexivity|].
  destruct e; try exact IH.
  destruct (hook_eqb k h); simpl; now rewrite IH.
Qed.

Lemma calls_IO k (t : list io_event) : calls k (map IO t) = [].
Proof. induction t; simpl; auto. Qed.

Lemma calls_invoke k k' cbs :
  calls k (flat_map (invoke_events k') cbs)
  = if hook_eqb k k' then map cb_id cbs else [].
Proof.
  induction cbs as [|cb r IH]; simpl.
  - now destruct (hook_eqb k k').
  - rewrite calls_app, calls_IO. simpl.
    destruct (hook_eqb k k'); simpl; now rewrite IH.
Qed.

Lemma invoke_each_run k cbs h :
  invoke_each k cbs h
  = (flat_map (invoke_events k) (until_raise cbs), h,
     match first_raise cbs with None => Return tt | Some e => Raise e end).
Proof.
  induction cbs as [|cb r IH]; simpl; [reflexivity|].
  unfold MS.bind, invoke. destruct (cb_raises cb) as [e|].
  - simpl. now rewrite app_nil_r.
  - rewrite IH. reflexivity.
Qed.

Lemma until_raise_all cbs : first_raise cbs = None -> until_raise cbs = cbs.
Proof.
  induction cbs as [|cb r IH]; simpl; [reflexivity|].
  destruct (cb_raises cb); [discriminate|]. intros H. now rewrite IH.
Qed.

Lemma until_raise_firstn cbs : exists n, until_raise cbs = firstn n cbs.
Proof.
  induction cbs as [|cb r [n IH]]; simpl.
  - now exists 0%nat.
  - destruct (cb_raises cb).
    + now exists 1%nat.
    + exists (S n). simpl. now rewrite IH.
Qed.

Lemma timestamp_trace h : W.trace (timestamp world h) = timestamp_events h.
Proof.
  unfold timestamp, run_command, timestamp_events, date_stream, run_streams.
  simpl. unfold subprocess_run, echo.
  destruct (verbosity h >? 0); destruct (dry_run h); simpl;
  destruct (verbosity h <? 2); simpl;
    destruct (proc world ["date"] false) as [[|c|c]|e]; try reflexivity;
    destruct e; reflexivity.
Qed.

Lemma finally_block_run h :
  exists o, finally_block world h = (epilogue h, h, o).
Proof.
  unfold finally_block, epilogue, MS.bind, for_callbacks, MS.method.
  rewrite invoke_each_run, <- timestamp_trace.
  destruct (first_raise (callbacks_always h)) as [e|].
  - eexists. now rewrite app_nil_r.
  - simpl. unfold W.trace. destruct (timestamp world h) as [t o]. simpl.
    eexists. reflexivity.
Qed.

Lemma except_block_run exit ex h :
  exists t o,
    except_block world exit ex h = (t, h, o)
    /\ calls Failure t = map cb_id (until_raise (callback_failure h))
    /\ calls Success t = []
    /\ calls Always t = [].
Proof.
  unfold except_block, MS.bind, for_callbacks, MS.method, MS.raise.
  rewrite invoke_each_run.
  destruct (first_raise (callback_failure h)) as [e|].
  - eexists. eexists. split; [reflexivity|].
    rewrite !calls_invoke. simpl. auto.
  - destruct (print_error h _ _ _ exit) as [t [[]|e]]; simpl;
      eexists; eexists; (split; [reflexivity|]);
      rewrite !calls_app, !calls_invoke, !calls_IO; simpl;
      rewrite ?app_nil_r; auto.
Qed.

Ltac calls_norm :=
  repeat (progress (rewrite ?calls_app, ?calls_IO, ?calls_invoke, ?app_nil_r;
                    cbn [calls hook_eqb app map])).

Lemma try_block_run func h0 :
  let h := helper_at_exit world func h0 in
  exists t o,
    try_block world func h0 = (t, h, o)
    /\ calls Always t = []
    /\ calls Failure t = []
    /\ ((calls Success t = []
         /\ exists e, o = Raise e
            /\ (W.result (timestamp world h0) = Raise e
                \/ t_raises (func h0) = Some e))
        \/ (W.result (timestamp world h0) = Return tt
            /\ t_raises (func h0) = None
            /\ calls Success t = map cb_id (until_raise (callbacks_success h))
            /\ o = match first_raise (callbacks_success h) with
                   | None => Return tt
                   | Some e => Raise e
                   end)).
Proof.
  intros h. subst h.
  unfold try_block, helper_at_exit, MS.bind, for_callbacks, call_task,
    MS.method, W.result.
  destruct (timestamp world h0) as [t0 [[]|e0]]; simpl.
  - destruct (func h0) as [tio th [e1|]]; simpl.
    + eexists. eexists. split; [reflexivity|]. calls_norm.
      repeat split. left. split; [reflexivity|].
      exists e1. auto.
    + rewrite invoke_each_run.
      destruct (first_raise (callbacks_success th)) as [e|]; simpl.
      * eexists. eexists. split; [reflexivity|]. calls_norm.
        repeat split. right. repeat split.
      * eexists. eexists. split; [reflexivity|]. calls_norm.
        repeat split. right. repeat split.
  - eexists. eexists. split; [reflexivity|]. calls_norm.
    repeat split. left. split; [reflexivity|].
    exists e0. auto.
Qed.

Lemma scoped_body_run func exit h0 :
  let h := helper_at_exit world func h0 in
  exists pre o,
    scoped_body world func exit h0 = ((pre ++ epilogue h)%list, h, o)
    /\ calls Always pre = []
    /\ (calls Success pre = []
        \/ calls Success pre = map cb_id (until_raise (callbacks_success h)))
    /\ (calls Failure pre = []
        \/ calls Failure pre = map cb_id (until_raise (callback_failure h)))
    /\ (calls Success pre <> [] -> calls Failure pre <> [] ->
        exists e, first_raise (callbacks_success h) = Some e
                  /\ is_Exception e = true)
    /\ (forall e, t_raises (func h0) = Some e -> calls Success pre = [])
    /\ (W.result (timestamp world h0) = Return tt ->
        t_raises (func h0) = None ->
        first_raise (callbacks_success h) = None ->
        calls Success pre = map cb_id (callbacks_success h)
        /\ calls Failure pre = []).
Proof.
  intros h.
  destruct (try_block_run func h0) as (t & o & Ht & Ha & Hf & Hs).
  fold h in Ht, Hs.
  unfold scoped_body, MS.try_finally, MS.try_except_Exception.
  rewrite Ht.
  assert (Huncaught :
    forall o1 : outcome unit,
      (o = Return tt \/ exists e, o = Raise e /\ is_Exception e = false) ->
      exists pre o2,
        (let '(t', h'', o') := finally_block world h in
         ((t ++ t')%list, h'',
          match o' with Return _ => o | Raise e => Raise e end))
        = ((pre ++ epilogue h)%list, h, o2)
        /\ calls Always pre = []
        /\ (calls Success pre = []
            \/ calls Success pre
               = map cb_id (until_raise (callbacks_success h)))
        /\ (calls Failure pre = []
            \/ calls Failure pre
               = map cb_id (until_raise (callback_failure h)))
        /\ (calls Success pre <> [] -> calls Failure pre <> [] ->
            exists e, first_raise (callbacks_success h) = Some e
                      /\ is_Exception e = true)
        /\ (forall e, t_raises (func h0) = Some e -> calls Success pre = [])
        /\ (W.result (timestamp world h0) = Return tt ->
            t_raises (func h0) = None ->
            first_raise (callbacks_success h) = None ->
            calls Success pre = map cb_id (callbacks_success h)
            /\ calls Failure pre = [])).
  { intros _ Ho.
    destruct (finally_block_run h) as [o' ->].
    exists t. eexists. split; [reflexivity|].
    rewrite Hf.
    split; [exact Ha|].
    destruct Hs as [(Hcs & e' & He & Hwhy) | (Hts & Htask & Hcs & Ho')].
    - rewrite Hcs.
      split; [now left|]. split; [now left|].
      split; [intros Hn; now elim Hn|].
      split; [reflexivity|].
      intros Hts Htask. destruct Hwhy as [H|H]; congruence.
    - rewrite Hcs.
      split; [now right|]. split; [now left|].
      split; [intros _ Hn; now elim Hn|].
      split; [intros e' He'; congruence|].
      intros _ _ Hfr. now rewrite (until_raise_all _ Hfr). }
  destruct o as [[]|e].
  - apply (Huncaught (Return tt)). now left.
  - destruct (is_Exception e) eqn:Eex.
    + (* caught *)
      destruct (except_block_run exit e h)
        as (t' & o' & -> & Hf' & Hs' & Ha').
      cbv beta iota zeta.
      destruct (finally_block_run h) as [o'' ->].
      exists (t ++ t')%list. eexists. split; [reflexivity|].
      rewrite !calls_app, Ha, Ha', Hf, Hf', Hs', !app_nil_r. simpl.
      split; [reflexivity|].
      destruct Hs as [(Hcs & e' & He & Hwhy) | (Hts & Htask & Hcs & Ho)].
      * rewrite Hcs.
        split; [now left|]. split; [now right|].
        split; [intros Hn; now elim Hn|].
        split; [reflexivity|].
        intros Hts Htask. injection He as <-.
        destruct Hwhy as [H|H]; congruence.
      * rewrite Hcs.
        split; [now right|]. split; [now right|].
        split.
        { intros _ _.
          destruct (first_raise (callbacks_success h)) as [e'|];
            [|discriminate].
          injection Ho as <-. exists e. auto. }
        split; [intros e' He'; congruence|].
        intros _ _ Hfr. rewrite Hfr in Ho. discriminate.
    + apply (Huncaught (Raise e)). right. exists e. auto.
Qed.

Lemma calls_epilogue (k : hook) (h : ScriptHelper) :
  calls k (epilogue h)
  = if hook_eqb k Always
    then map cb_id (until_raise (callbacks_always h))
    else [].
Proof.
  unfold epilogue, separator_line. rewrite calls_app, calls_invoke.
  destruct (first_raise (callbacks_always h)); simpl;
    rewrite ?calls_IO, app_nil_r; reflexivity.
Qed.

Lemma calls_scope_enter (k : hook) (fpath_log : option PurePath.t) :
  calls k (scope_enter world fpath_log) = [].
Proof. now destruct fpath_log. Qed.

Lemma calls_scope_exit (k : hook) (fpath_log : option PurePath.t) :
  calls k (scope_exit world fpath_log) = [].
Proof. now destruct fpath_log. Qed.

Lemma calls_failed_set_up (k : hook) (fpath_log : option PurePath.t) :
  calls k (failed_set_up_events world fpath_log) = [].
Proof.
  unfold failed_set_up_events.
  destruct (make_log_dir world fpath_log) as [fs [[]|e]]; [|reflexivity].
  destruct fpath_log; destruct (mkdtemp world); reflexivity.
Qed.

(** A run whose set-up succeeds: the entries, the [try] statement, the
    exits. *)
Lemma with_helper_set_up_ok (func : task) (fpath_log : option PurePath.t)
    (verbosity : Z) (quiet dry_run overwrite exit_on_error : bool)
    (prefix_run prefix_error : string) :
  set_up world fpath_log = Return tt ->
  with_helper world func fpath_log verbosity quiet dry_run overwrite
    exit_on_error prefix_run prefix_error
  = (let '(t, _, o) :=
       scoped_body world func exit_on_error
         (scoped_helper world fpath_log verbosity quiet dry_run overwrite
            prefix_run prefix_error) in
     ((scope_enter world fpath_log ++ t ++ scope_exit world fpath_log)%list,
      o)).
Proof.
  unfold set_up, with_helper, scoped_helper, scope_enter, scope_exit,
    tmp_name, with_context, MS.run.
  destruct (make_log_dir world fpath_log) as [fs [[]|e]]; [|discriminate].
  destruct (mkdtemp world) as [d|e]; [|discriminate].
  destruct fpath_log as [p|]; cbn [open_log].
  - destruct (open_w _ p) as [fs' [[]|e]]; [|discriminate].
    intros _.
    destruct (scoped_body _ _ _ _) as [[t h] o]. simpl.
    now rewrite <- !app_assoc.
  - intros _. destruct (scoped_body _ _ _ _) as [[t h] o]. simpl.
    now rewrite app_nil_r.
Qed.

(** A run whose set-up fails raises the error of the set-up, and neither
    the wrapped function nor the [try] statement is reached. *)
Lemma with_helper_set_up_fails (func : task) (fpath_log : option PurePath.t)
    (verbosity : Z) (quiet dry_run overwrite exit_on_error : bool)
    (prefix_run prefix_error : string) (e : exn) :
  set_up world fpath_log = Raise e ->
  with_helper world func fpath_log verbosity quiet dry_run overwrite
    exit_on_error prefix_run prefix_error
  = (failed_set_up_events world fpath_log, Raise e).
Proof.
  unfold set_up, with_helper, failed_set_up_events, with_context.
  destruct (make_log_dir world fpath_log) as [fs [[]|e0]];
    [|intros [= ->]; reflexivity].
  destruct (mkdtemp world) as [d|e0];
    [|intros [= ->]; now rewrite app_nil_r].
  destruct fpath_log as [p|]; cbn [open_log]; [|discriminate].
  destruct (open_w _ p) as [fs' [[]|e0]]; [discriminate|].
  intros [= ->]. reflexivity.
Qed.

(** The trace of a scoped run: the entries, the [try] statement, the
    exits. *)
Lemma with_helper_trace (func : task) (fpath_log : option PurePath.t)
    (verbosity : Z) (quiet dry_run overwrite exit_on_error : bool)
    (prefix_run prefix_error : string) :
  set_up world fpath_log = Return tt ->
  W.trace (with_helper world func fpath_log verbosity quiet dry_run
             overwrite exit_on_error prefix_run prefix_error)
  = (scope_enter world fpath_log
     ++ fst (fst (scoped_body world func exit_on_error
                    (scoped_helper world fpath_log verbosity quiet dry_run
                       overwrite prefix_run prefix_error)))
     ++ scope_exit world fpath_log)%list.
Proof.
  intros Hup. rewrite (with_helper_set_up_ok _ _ _ _ _ _ _ _ _ Hup).
  destruct (scoped_body _ _ _ _) as [[t h] o]. reflexivity.
Qed.

End ScopedRunFacts.

Section ScopedRunClosed.

Variable world : World.
Local Arguments timestamp : simpl never.

Lemma try_block_closed (func : task) (h0 : ScriptHelper) :
  try_block world func h0
  = (try_events world func h0, helper_at_exit world func h0,
     try_outcome world func h0).
Proof.
  unfold try_block, try_events, try_outcome, helper_at_exit, opening,
    separator_line, done_line, MS.bind, for_callbacks, call_task, MS.method.
  rewrite <- (timestamp_trace world h0). unfold W.result, W.trace.
  destruct (timestamp world h0) as [t0 [[]|e0]]; simpl; [|reflexivity].
  destruct (func h0) as [tio th [e1|]]; simpl.
  - now rewrite app_nil_r, <- app_assoc.
  - rewrite invoke_each_run.
    destruct (first_raise (callbacks_success th)) as [e|]; simpl.
    + now rewrite app_nil_r, <- !app_assoc.
    + now rewrite <- !app_assoc.
Qed.

Lemma except_block_closed (exit : bool) (e : exn) (h : ScriptHelper) :
  is_Exception e = true ->
  except_block world exit e h
  = (except_events world h (Raise e), h, except_outcome exit h (Raise e)).
Proof.
  intros He.
  unfold except_block, except_events, except_outcome, error_line,
    MS.bind, for_callbacks, MS.method, MS.raise, print_error, echo.
  rewrite He, invoke_each_run.
  destruct (first_raise (callback_failure h)) as [e'|];
    [now rewrite app_nil_r|].
  rewrite andb_false_r. destruct exit; reflexivity.
Qed.

Lemma finally_block_closed (h : ScriptHelper) :
  finally_block world h
  = (epilogue h, h,
     match first_raise (callbacks_always h) with
     | Some e => Raise e
     | None => W.result (timestamp world h)
     end).
Proof.
  unfold finally_block, epilogue, separator_line, MS.bind, for_callbacks,
    MS.method.
  rewrite invoke_each_run, <- (timestamp_trace world).
  destruct (first_raise (callbacks_always h)) as [e|].
  - now rewrite app_nil_r.
  - simpl. unfold W.trace, W.result.
    destruct (timestamp world h) as [t o']. reflexivity.
Qed.

(** The [try] statement in closed form. *)
Lemma scoped_body_closed (func : task) (exit : bool) (h0 : ScriptHelper) :
  let h := helper_at_exit world func h0 in
  let o := try_outcome world func h0 in
  scoped_body world func exit h0
  = ((try_events world func h0 ++ except_events world h o ++ epilogue h)%list,
     h, finally_outcome world h (except_outcome exit h o)).
Proof.
  intros h o. subst h o.
  unfold scoped_body, MS.try_finally, MS.try_except_Exception.
  rewrite try_block_closed.
  destruct (try_outcome world func h0) as [[]|e] eqn:Eo.
  - rewrite finally_block_closed.
    unfold finally_outcome, except_outcome, except_events. simpl.
    destruct (first_raise _); [reflexivity|].
    destruct (W.result _) as [[]|e']; reflexivity.
  - destruct (is_Exception e) eqn:Ee.
    + rewrite (except_block_closed exit e _ Ee).
      rewrite finally_block_closed.
      unfold finally_outcome. rewrite app_assoc.
      destruct (first_raise (callbacks_always _)); [reflexivity|].
      destruct (W.result _) as [[]|e']; reflexivity.
    + rewrite finally_block_closed.
      unfold finally_outcome, except_outcome, except_events. rewrite Ee.
      simpl.
      destruct (first_raise (callbacks_always _)); [reflexivity|].
      destruct (W.result _) as [[]|e']; reflexivity.
Qed.

(** A scoped run whose set-up succeeds, in closed form. *)
Lemma with_helper_closed (func : task) (fpath_log : option PurePath.t)
    (level : Z) (be_quiet dry over exit_on_error : bool)
    (p_run p_error : string) :
  set_up world fpath_log = Return tt ->
  let h0 := scoped_helper world fpath_log level be_quiet dry over
              p_run p_error in
  let h := helper_at_exit world func h0 in
  let o := try_outcome world func h0 in
  with_helper world func fpath_log level be_quiet dry over exit_on_error
    p_run p_error
  = ((scope_enter world fpath_log
      ++ try_events world func h0 ++ except_events world h o ++ epilogue h
      ++ scope_exit world fpath_log)%list,
     finally_outcome world h (except_outcome exit_on_error h o)).
Proof.
  intros Hup h0 h o.
  pose proof (scoped_body_closed func exit_on_error h0) as Hb.
  cbv zeta in Hb. fold h o in Hb.
  rewrite with_helper_set_up_ok by exact Hup.
  fold h0. rewrite Hb. now rewrite <- !app_assoc.
Qed.

Lemma timestamp_result (h : ScriptHelper) :
  W.result (timestamp world h)
  = match proc world ["date"] false with
    | Exited 0 => Return tt
    | Exited c =>
        Raise (RuntimeError
                 (String "010" "Command date returned " ++ PyStr.str_int c))
    | SpawnError (CalledProcessError c) =>
        Raise (RuntimeError
                 (String "010" "Command date returned " ++ PyStr.str_int c))
    | SpawnError e => Raise e
    end.
Proof.
  unfold timestamp, run_command, echo.
  destruct (run_streams h None None false) as [so se].
  unfold subprocess_run. simpl.
  destruct (verbosity h >? 0); destruct (dry_run h); simpl;
    destruct (proc world ["date"] false) as [[|k|k]|e]; simpl;
    try reflexivity; destruct e; reflexivity.
Qed.

(** Every timestamp of a run ends the same way. *)
Lemma timestamp_result_cases :
  (proc world ["date"] false = Exited 0
   /\ forall h, W.result (timestamp world h) = Return tt)
  \/ (proc world ["date"] false <> Exited 0
      /\ exists e, forall h, W.result (timestamp world h) = Raise e).
Proof.
  destruct (proc world ["date"] false) as [[|k|k]|e] eqn:E.
  - left. split; [reflexivity|]. intros h. now rewrite timestamp_result, E.
  - right. split; [discriminate|]. eexists. intros h.
    rewrite timestamp_result, E. reflexivity.
  - right. split; [discriminate|]. eexists. intros h.
    rewrite timestamp_result, E. reflexivity.
  - right. split; [discriminate|].
    destruct e; eexists; intros h; rewrite timestamp_result, E; reflexivity.
Qed.

Lemma is_scope_IO (l : list io_event) : filter is_scope (map IO l) = [].
Proof. induction l; simpl; auto. Qed.

Lemma is_scope_invoke (k : hook) (cbs : list callback) :
  filter is_scope (flat_map (invoke_events k) cbs) = [].
Proof.
  induction cbs as [|cb r IH]; simpl; [reflexivity|].
  now rewrite filter_app, is_scope_IO, IH.
Qed.

End ScopedRunClosed.

Section ScopedRunClaims.

Variable world : World.
Variable func : task.
Variable fpath_log : option PurePath.t.
Variable level : Z.
Variables be_quiet dry over exit_on_error : bool.
Variables p_run p_error : string.

Local Abbreviation h0 :=
  (scoped_helper world fpath_log level be_quiet dry over p_run p_error).
Local Abbreviation h := (helper_at_exit world func h0).
Local Abbreviation t :=
  (W.trace (with_helper world func fpath_log level be_quiet dry over
              exit_on_error p_run p_error)).

Lemma with_helper_run :
  set_up world fpath_log = Return tt ->
  exists pre,
    t = (scope_enter world fpath_log ++ pre ++ epilogue h
         ++ scope_exit world fpath_log)%list
    /\ calls Always pre = []
    /\ (calls Success pre = []
        \/ calls Success pre = map cb_id (until_raise (callbacks_success h)))
    /\ (calls Failure pre = []
        \/ calls Failure pre = map cb_id (until_raise (callback_failure h)))
    /\ (calls Success pre <> [] -> calls Failure pre <> [] ->
        exists e, first_raise (callbacks_success h) = Some e
                  /\ is_Exception e = true)
    /\ (forall e, t_raises (func h0) = Some e -> calls Success pre = [])
    /\ (W.result (timestamp world h0) = Return tt ->
        t_raises (func h0) = None ->
        first_raise (callbacks_success h) = None ->
        calls Success pre = map cb_id (callbacks_success h)
        /\ calls Failure pre = []).
Proof.
  intros Hup.
  destruct (scoped_body_run world func exit_on_error h0)
    as (pre & o & Hrun & Hrest).
  exists pre. split; [|exact Hrest].
  rewrite with_helper_trace by exact Hup. rewrite Hrun. simpl.
  now rewrite <- app_assoc.
Qed.

Lemma calls_with_helper (k : hook) (pre : list event) :
  t = (scope_enter world fpath_log ++ pre ++ epilogue h
       ++ scope_exit world fpath_log)%list ->
  calls k t = (calls k pre ++ calls k (epilogue h))%list.
Proof.
  intros ->.
  now rewrite !calls_app, calls_scope_enter, calls_scope_exit, app_nil_r.
Qed.

Lemma calls_try_events (k : hook) :
  calls k (try_events world func h0)
  = match W.result (timestamp world h0), t_raises (func h0) with
    | Return _, None =>
        if hook_eqb k Success
        then map cb_id (until_raise (callbacks_success h))
        else []
    | _, _ => []
    end.
Proof.
  unfold try_events, opening, separator_line, done_line, helper_at_exit.
  destruct (W.result (timestamp world h0)) as [[]|e]; [|apply calls_IO].
  rewrite !calls_app, !calls_IO. cbn [calls app].
  destruct (t_raises (func h0)); [reflexivity|].
  rewrite calls_app, calls_invoke.
  destruct (first_raise (callbacks_success (t_helper (func h0))));
    cbn [calls]; now rewrite app_nil_r.
Qed.

Lemma calls_except_events (k : hook) (o : outcome unit) :
  calls k (except_events world h o)
  = if hook_eqb k Failure
    then match o with
         | Return _ => []
         | Raise e =>
             if is_Exception e
             then map cb_id (until_raise (callback_failure h))
             else []
         end
    else [].
Proof.
  unfold except_events, error_line.
  destruct o as [|e]; [now destruct (hook_eqb k Failure)|].
  destruct (is_Exception e); [|now destruct (hook_eqb k Failure)].
  rewrite calls_app, calls_invoke.
  destruct (first_raise (callback_failure h));
    cbn [calls]; now rewrite app_nil_r.
Qed.

(** The callbacks a run calls: none when the set-up fails; else the
    success callbacks in the body of the [try] statement, the failure
    callbacks in its [except] clause and the always-callbacks in its
    [finally] clause. *)
Lemma with_helper_calls (k : hook) :
  calls k t
  = match set_up world fpath_log with
    | Raise _ => []
    | Return _ =>
        (calls k (try_events world func h0)
         ++ calls k (except_events world h (try_outcome world func h0))
         ++ calls k (epilogue h))%list
    end.
Proof.
  destruct (set_up world fpath_log) as [[]|e] eqn:Hup.
  - rewrite with_helper_closed by exact Hup.
    unfold W.trace, fst.
    now rewrite !calls_app, calls_scope_enter, calls_scope_exit, app_nil_r.
  - erewrite with_helper_set_up_fails by exact Hup.
    apply calls_failed_set_up.
Qed.

Lemma with_helper_calls_success :
  calls Success t
  = match set_up world fpath_log, W.result (timestamp world h0),
          t_raises (func h0) with
    | Return _, Return _, None =>
        map cb_id (until_raise (callbacks_success h))
    | _, _, _ => []
    end.
Proof.
  rewrite with_helper_calls, calls_try_events, calls_except_events,
    calls_epilogue.
  cbn [hook_eqb]. rewrite !app_nil_r.
  destruct (set_up world fpath_log) as [[]|]; [|reflexivity].
  destruct (W.result (timestamp world h0)) as [[]|]; [|reflexivity].
  now destruct (t_raises (func h0)).
Qed.

Lemma with_helper_calls_failure :
  calls Failure t
  = match set_up world fpath_log, try_outcome world func h0 with
    | Return _, Raise e =>
        if is_Exception e
        then map cb_id (until_raise (callback_failure h))
        else []
    | _, _ => []
    end.
Proof.
  rewrite with_helper_calls, calls_try_events, calls_except_events,
    calls_epilogue.
  cbn [hook_eqb]. rewrite !app_nil_r.
  destruct (set_up world fpath_log) as [[]|]; [|reflexivity].
  destruct (W.result (timestamp world h0)) as [[]|]; [|reflexivity].
  now destruct (t_raises (func h0)).
Qed.

(** C2 (as amended): in every scoped run whose set-up succeeds (the
    directory of the log is made, the scratch directory created, the log
    opened), whether the wrapped function returns or raises, the trace
    ends with the [finally] clause and the exits of the [with]
    statements: the always-callbacks are called in the order of
    registration, after every success or failure callback, up to the
    first that raises; when none raises, the separator line is written
    and the [date] process is run, and its output reaches the log only at
    verbosity 2 or more; then the log file, if any, is closed and the
    scratch directory removed.  A run whose set-up fails raises the error
    of the set-up: it does not reach the [try] statement, and of log and
    scratch directory it does only what came before the failure, a
    scratch directory that was created being removed. *)
Theorem with_helper_finalization :
  (set_up world fpath_log = Return tt ->
   exists pre,
     t = (pre ++ epilogue h ++ scope_exit world fpath_log)%list
     /\ calls Always pre = []
     /\ calls Success (epilogue h ++ scope_exit world fpath_log) = []
     /\ calls Failure (epilogue h ++ scope_exit world fpath_log) = []
     /\ calls Always t = map cb_id (until_raise (callbacks_always h)))
  /\ (forall e, set_up world fpath_log = Raise e ->
      with_helper world func fpath_log level be_quiet dry over
        exit_on_error p_run p_error
      = (failed_set_up_events world fpath_log, Raise e)
      /\ forallb is_scope (failed_set_up_events world fpath_log) = true
      /\ forall d, In (TmpCreate d) (failed_set_up_events world fpath_log) ->
                   exists l, failed_set_up_events world fpath_log
                             = (l ++ [TmpRemove d])%list)
  /\ (first_raise (callbacks_always h) = None ->
      epilogue h
      = (flat_map (invoke_events Always) (callbacks_always h)
         ++ separator_line h :: map IO (timestamp_events h))%list
      /\ In (Run ["date"] false (date_stream h) (date_stream h))
            (timestamp_events h))
  /\ (2 <= verbosity h -> date_stream h = file_log h)
  /\ (verbosity h < 2 -> date_stream h = Some DEVNULL).
Proof.
  split.
  { intros Hup.
    destruct (with_helper_run Hup) as (pre & Ht & Ha & _).
    exists (scope_enter world fpath_log ++ pre)%list.
    split; [now rewrite Ht, <- app_assoc|].
    split; [now rewrite calls_app, calls_scope_enter, Ha|].
    split; [now rewrite calls_app, calls_epilogue, calls_scope_exit|].
    split; [now rewrite calls_app, calls_epilogue, calls_scope_exit|].
    rewrite (calls_with_helper Always pre Ht), Ha, calls_epilogue.
    reflexivity. }
  split.
  { intros e Hup. split; [now apply with_helper_set_up_fails|].
    unfold failed_set_up_events.
    destruct (make_log_dir world fpath_log) as [fs [[]|e0]].
    - destruct fpath_log as [p|]; destruct (mkdtemp world) as [d0|e1];
        (split; [reflexivity|]); intros d Hin; simpl in Hin.
      + destruct Hin as [Hin|[Hin|[Hin|[]]]]; try discriminate.
        injection Hin as ->.
        now exists [MkdirParents (PurePath.parent p); TmpCreate d].
      + destruct Hin as [Hin|[]]. discriminate.
      + destruct Hin as [Hin|[Hin|[]]]; try discriminate.
        injection Hin as ->. now exists [TmpCreate d].
      + destruct Hin.
    - split; [reflexivity|]. intros d []. }
  split.
  { intros Hfr. unfold epilogue.
    rewrite Hfr, (until_raise_all _ Hfr). split; [reflexivity|].
    unfold timestamp_events. apply in_or_app. right. now left. }
  unfold date_stream. split; intros Hv.
  - apply Z.ltb_ge in Hv. now rewrite Hv.
  - apply Z.ltb_lt in Hv. now rewrite Hv.
Qed.

(** C3 (as amended): in every scoped run the success callbacks called
    are a prefix of the registered ones, in order, and so are the
    failure callbacks; none of the success callbacks is called when the
    wrapped function raises.  In a run whose set-up and opening
    timestamp succeed: when the function returns, the success callbacks
    are called up to the first that raises, and when none raises, all of
    them and no failure callback are called; when the function or a
    success callback raises an [Exception], the failure callbacks are
    called up to the first that raises, all of them when none raises;
    when what is raised is no [Exception], no failure callback is
    called.  And both a success and a failure callback are called in one
    run only when a success callback itself raises an [Exception]. *)
Theorem with_helper_success_failure :
  (exists n, calls Success t = firstn n (map cb_id (callbacks_success h)))
  /\ (exists n,
        calls Failure t = firstn n (map cb_id (callback_failure h)))
  /\ (forall e, t_raises (func h0) = Some e -> calls Success t = [])
  /\ (set_up world fpath_log = Return tt ->
      W.result (timestamp world h0) = Return tt ->
      t_raises (func h0) = None ->
      calls Success t = map cb_id (until_raise (callbacks_success h))
      /\ (first_raise (callbacks_success h) = None ->
          calls Success t = map cb_id (callbacks_success h)
          /\ calls Failure t = []))
  /\ (forall e,
      set_up world fpath_log = Return tt ->
      W.result (timestamp world h0) = Return tt ->
      t_raises (func h0) = Some e
      \/ (t_raises (func h0) = None
          /\ first_raise (callbacks_success h) = Some e) ->
      (is_Exception e = true ->
       calls Failure t = map cb_id (until_raise (callback_failure h))
       /\ (first_raise (callback_failure h) = None ->
           calls Failure t = map cb_id (callback_failure h)))
      /\ (is_Exception e = false -> calls Failure t = []))
  /\ (calls Success t <> [] -> calls Failure t <> [] ->
      exists e, first_raise (callbacks_success h) = Some e
                /\ is_Exception e = true).
Proof.
  rewrite !with_helper_calls_success, !with_helper_calls_failure.
  unfold try_outcome, helper_at_exit.
  destruct (set_up world fpath_log) as [[]|eup].
  - destruct (W.result (timestamp world h0)) as [[]|ets] eqn:Hts.
    + destruct (t_raises (func h0)) as [etask|] eqn:Htask.
      * split; [now exists 0%nat|]. split.
        { destruct (is_Exception etask); [|now exists 0%nat].
          destruct (until_raise_firstn (callback_failure (t_helper (func h0))))
            as [n ->].
          exists n. symmetry. apply firstn_map. }
        split; [reflexivity|]. split; [discriminate|]. split.
        { intros e _ _ [[= <-] | [[=] _]].
          split; intros ->; [|reflexivity].
          split; [reflexivity|]. intros Hfr.
          now rewrite (until_raise_all _ Hfr). }
        intros Hn. now elim Hn.
      * split.
        { destruct (until_raise_firstn
                      (callbacks_success (t_helper (func h0)))) as [n ->].
          exists n. symmetry. apply firstn_map. }
        destruct (first_raise (callbacks_success (t_helper (func h0))))
          as [ecb|] eqn:Hcb.
        -- split.
           { destruct (is_Exception ecb); [|now exists 0%nat].
             destruct (until_raise_firstn
                         (callback_failure (t_helper (func h0)))) as [n ->].
             exists n. symmetry. apply firstn_map. }
           split; [discriminate|].
           split; [intros _ _ _; split; [reflexivity|discriminate]|].
           split.
           { intros e _ _ [[=] | [_ [= <-]]].
             split; intros ->; [|reflexivity].
             split; [reflexivity|]. intros Hfr.
             now rewrite (until_raise_all _ Hfr). }
           intros _ Hn. exists ecb. split; [reflexivity|].
           destruct (is_Exception ecb); [reflexivity|now elim Hn].
        -- split; [now exists 0%nat|].
           split; [discriminate|].
           split.
           { intros _ _ _. split; [reflexivity|]. intros _.
             now rewrite (until_raise_all _ Hcb). }
           split; [intros e _ _ [[=] | [_ [=]]]|].
           intros _ Hn. now elim Hn.
    + split; [now exists 0%nat|]. split.
      { destruct (is_Exception ets); [|now exists 0%nat].
        destruct (until_raise_firstn (callback_failure h0)) as [n ->].
        exists n. symmetry. apply firstn_map. }
      split; [reflexivity|]. split; [discriminate|].
      split; [discriminate|]. intros Hn. now elim Hn.
  - split; [now exists 0%nat|]. split; [now exists 0%nat|].
    split; [reflexivity|]. split; [discriminate|].
    split; [discriminate|]. intros Hn. now elim Hn.
Qed.

End ScopedRunClaims.

Lemma with_helper_finalization_witness :
  let run :=
    with_helper Samples.world
      (Samples.registering [Samples.cb_ok 0; Samples.cb_ok 1]
         [Samples.cb_ok 2] [Samples.cb_ok 3]
         (Some (OtherException "ValueError")))
      (Some (PurePath.parse "logs/run.log")) 2 false false false false
      PREFIX_RUN PREFIX_ERROR in
  let no_log :=
    with_helper Samples.world
      (Samples.registering [Samples.cb_ok 0; Samples.cb_ok 1]
         [Samples.cb_ok 2] [Samples.cb_ok 3]
         (Some (OtherException "ValueError")))
      (Some (PurePath.parse "out/sub-01")) 2 false false false false
      PREFIX_RUN PREFIX_ERROR in
  set_up Samples.world (Some (PurePath.parse "logs/run.log")) = Return tt
  /\ calls Always (W.trace run) = [0%nat; 1%nat]
  /\ In (IO (Run ["date"] false (Some (FileObj "logs/run.log"))
               (Some (FileObj "logs/run.log"))))
        (W.trace run)
  /\ set_up Samples.world (Some (PurePath.parse "out/sub-01"))
     = Raise (OtherException "IsADirectoryError")
  /\ no_log
     = ([MkdirParents (PurePath.parse "out");
         TmpCreate "/tmp/tmpk3x9";
         TmpRemove "/tmp/tmpk3x9"],
        Raise (OtherException "IsADirectoryError")).
Proof.
  destruct (with_helper_finalization Samples.world
              (Samples.registering [Samples.cb_ok 0; Samples.cb_ok 1]
                 [Samples.cb_ok 2] [Samples.cb_ok 3]
                 (Some (OtherException "ValueError")))
              (Some (PurePath.parse "logs/run.log")) 2 false false false
              false PREFIX_RUN PREFIX_ERROR)
    as (Hok & _ & Hdate & Hlog & _).
  destruct (with_helper_finalization Samples.world
              (Samples.registering [Samples.cb_ok 0; Samples.cb_ok 1]
                 [Samples.cb_ok 2] [Samples.cb_ok 3]
                 (Some (OtherException "ValueError")))
              (Some (PurePath.parse "out/sub-01")) 2 false false false
              false PREFIX_RUN PREFIX_ERROR)
    as (_ & Hfails & _).
  destruct (Hok eq_refl) as (pre & Ht & _ & _ & _ & Hcalls).
  split; [reflexivity|]. split; [exact Hcalls|]. split.
  - destruct (Hdate eq_refl) as [Hepi Hin].
    rewrite (Hlog ltac:(discriminate)) in Hin.
    cbv zeta. rewrite Ht, Hepi.
    apply in_or_app. right. apply in_or_app. left.
    apply in_or_app. right. right. apply in_map. exact Hin.
  - split; [reflexivity|].
    exact (proj1 (Hfails (OtherException "IsADirectoryError") eq_refl)).
Defined.

(** C2 (as stated) fails.  An always-callback that raises ends the
    [finally] clause: the callbacks after it are not called and neither
    separator nor timestamp follows.  With [quiet] the [date] process
    writes to the null device: no timestamp is printed at all.  And a run
    whose log cannot be set up ends before the [try] statement, without
    separator or timestamp: a log path below a regular file fails in
    [mkdir], a log path that is a directory fails in [open], after the
    scratch directory was created. *)
Lemma with_helper_finalization_cut_short :
  with_helper Samples.world
    (Samples.registering [Samples.cb_failing 0; Samples.cb_ok 1] [] [] None)
    None 2 false false false true PREFIX_RUN PREFIX_ERROR
  = ([TmpCreate "/tmp/tmpk3x9";
      IO (Echo [Styled (Some "yellow") "[RUN] date"] true None);
      IO (Run ["date"] false None None);
      IO (Echo [Styled None "--------------------"] true None);
      IO (Echo [Styled (Some "green") "[SUCCESS]"] true None);
      Call Always 0;
      TmpRemove "/tmp/tmpk3x9"],
     Raise (OtherException "ValueError"))
  /\ with_helper Samples.world (Samples.registering [] [] [] None)
       None 2 true false false true PREFIX_RUN PREFIX_ERROR
     = ([TmpCreate "/tmp/tmpk3x9";
         IO (Run ["date"] false (Some DEVNULL) (Some DEVNULL));
         IO (Echo [Styled None "--------------------"] true None);
         IO (Echo [Styled (Some "green") "[SUCCESS]"] true None);
         IO (Echo [Styled None "--------------------"] true None);
         IO (Run ["date"] false (Some DEVNULL) (Some DEVNULL));
         TmpRemove "/tmp/tmpk3x9"],
        Return tt)
  /\ with_helper Samples.world
       (Samples.registering [Samples.cb_ok 0] [] [] None)
       (Some (PurePath.parse "out/sub-01/sub-01_T1w.mnc/run.log"))
       2 false false false true PREFIX_RUN PREFIX_ERROR
     = ([], Raise (FileExistsError "out/sub-01/sub-01_T1w.mnc"))
  /\ with_helper Samples.world
       (Samples.registering [Samples.cb_ok 0] [] [] None)
       (Some (PurePath.parse "out/sub-01"))
       2 false false false true PREFIX_RUN PREFIX_ERROR
     = ([MkdirParents (PurePath.parse "out");
         TmpCreate "/tmp/tmpk3x9";
         TmpRemove "/tmp/tmpk3x9"],
        Raise (OtherException "IsADirectoryError")).
Proof. repeat split. Qed.

Lemma with_helper_success_failure_witness :
  let raising :=
    with_helper Samples.world
      (Samples.registering [Samples.cb_ok 0; Samples.cb_ok 1]
         [Samples.cb_ok 2] [Samples.cb_ok 3; Samples.cb_ok 5]
         (Some (OtherException "ValueError")))
      None 2 false false false false PREFIX_RUN PREFIX_ERROR in
  let returning :=
    with_helper Samples.world
      (Samples.registering [] [Samples.cb_ok 2; Samples.cb_ok 4]
         [Samples.cb_ok 3] None)
      None 2 false false false false PREFIX_RUN PREFIX_ERROR in
  set_up Samples.world None = Return tt
  /\ calls Success (W.trace raising) = []
  /\ calls Failure (W.trace raising) = [3%nat; 5%nat]
  /\ calls Success (W.trace returning) = [2%nat; 4%nat]
  /\ calls Failure (W.trace returning) = [].
Proof.
  split; [reflexivity|].
  destruct (with_helper_success_failure Samples.world
              (Samples.registering [Samples.cb_ok 0; Samples.cb_ok 1]
                 [Samples.cb_ok 2] [Samples.cb_ok 3; Samples.cb_ok 5]
                 (Some (OtherException "ValueError")))
              None 2 false false false false PREFIX_RUN PREFIX_ERROR)
    as (_ & _ & Hraise & _ & Hfail & _).
  destruct (with_helper_success_failure Samples.world
              (Samples.registering [] [Samples.cb_ok 2; Samples.cb_ok 4]
                 [Samples.cb_ok 3] None)
              None 2 false false false false PREFIX_RUN PREFIX_ERROR)
    as (_ & _ & _ & Hfine & _).
  split; [exact (Hraise (OtherException "ValueError") eq_refl)|].
  split.
  - destruct (Hfail (OtherException "ValueError") eq_refl eq_refl
                (or_introl eq_refl)) as [Hex _].
    destruct (Hex eq_refl) as [_ Hall].
    exact (Hall eq_refl).
  - destruct (Hfine eq_refl eq_refl eq_refl) as [_ Hall].
    exact (Hall eq_refl).
Defined.

(** C3 (as stated) fails: the success callbacks run inside the [try]
    statement, so when one of them raises, the failure callbacks are called
    in the same run. *)
Lemma with_helper_calls_both_sets :
  let run :=
    with_helper Samples.world
      (Samples.registering [] [Samples.cb_failing 0] [Samples.cb_ok 1] None)
      None 2 false false false true PREFIX_RUN PREFIX_ERROR in
  calls Success (W.trace run) = [0%nat]
  /\ calls Failure (W.trace run) = [1%nat]
  /\ W.trace run
     = [TmpCreate "/tmp/tmpk3x9";
        IO (Echo [Styled (Some "yellow") "[RUN] date"] true None);
        IO (Run ["date"] false None None);
        IO (Echo [Styled None "--------------------"] true None);
        Call Success 0;
        Call Failure 1;
        IO (Echo [Styled (Some "red")
                    "[ERROR] Traceback (most recent call last): ..."]
                 true None);
        IO (Echo [Styled None "--------------------"] true None);
        IO (Echo [Styled (Some "yellow") "[RUN] date"] true None);
        IO (Run ["date"] false None None);
        TmpRemove "/tmp/tmpk3x9"].
Proof. repeat split. Qed.

(** * Further properties *)

(** ** [add_options] *)

(** X1: [add_options] applies the first option last, so that it is the
    outermost decorator; an empty list leaves the function as it is, and a
    concatenated list is the composition of its parts. *)
Theorem add_options_compose (F : Type) (option : F -> F)
    (options options' : list (F -> F)) (func : F) :
  add_options [] func = func
  /\ add_options (option :: options) func = option (add_options options func)
  /\ add_options (options ++ options') func
     = add_options options (add_options options' func).
Proof.
  unfold add_options. split; [reflexivity|]. split.
  - simpl. now rewrite fold_left_app.
  - now rewrite rev_app_distr, fold_left_app.
Qed.

(** ** More on [run_command] *)

Section RunCommandMore.

Variable world : World.
Variable self : ScriptHelper.

Lemma clean_args_no_empty (args : list string) : ~ In "" (clean_args args).
Proof.
  unfold clean_args. intros H. apply filter_In in H as [_ H]. discriminate.
Qed.

(** The trace of a call: the command line, when it is printed, then the
    process, when it is run. *)
Lemma run_command_trace (args : list string) (shell : bool)
    (stdout stderr : option handle) (silent force : bool) :
  W.trace (run_command world self args shell stdout stderr silent force)
  = (run_echo self args silent
     ++ (if force || negb (dry_run self)
         then [Run (clean_args args) shell
                 (fst (run_streams self stdout stderr silent))
                 (snd (run_streams self stdout stderr silent))]
         else []))%list.
Proof.
  unfold run_command, run_echo, echo.
  assert (Hp : String.eqb PREFIX_RUN "" = false) by reflexivity.
  rewrite Hp. simpl negb. rewrite andb_true_l.
  destruct (run_streams self stdout stderr silent) as [so se].
  unfold subprocess_run.
  destruct (negb silent && _); destruct (dry_run self);
    destruct force; simpl; try reflexivity;
    destruct (proc world (clean_args args) shell) as [[|c|c]|e];
    try reflexivity; destruct e; reflexivity.
Qed.

(** X2: a process started by [run_command] never gets an empty-string
    argument: its argument list is the given one without the empty
    strings, in the same order, and [shell] is passed on. *)
Theorem run_command_no_empty_argument
    (args : list string) (shell : bool) (stdout stderr : option handle)
    (silent force : bool) (a : list string) (sh : bool)
    (so se : option handle) :
  In (Run a sh so se)
     (W.trace (run_command world self args shell stdout stderr silent force))
  -> a = filter (fun arg => negb (String.eqb arg "")) args
     /\ ~ In "" a
     /\ sh = shell.
Proof.
  rewrite run_command_trace. intros H. apply in_app_or in H as [H|H].
  - unfold run_echo in H.
    destruct (negb silent && _); [|contradiction].
    destruct H as [H|[]]. discriminate.
  - destruct (force || negb (dry_run self)); [|contradiction].
    destruct H as [H|[]]. injection H as <- <- _ _.
    split; [reflexivity|]. split; [apply clean_args_no_empty | reflexivity].
Qed.

(** X3: [run_command] prints the command line exactly when it is not
    [silent] and the verbosity is above 0 or dry-run is on; it prints it
    once, to the log, and without the colours the line is the run prefix
    followed by the space-joined arguments the process gets. *)
Theorem run_command_prints_command_line
    (args : list string) (shell : bool) (stdout stderr : option handle)
    (silent force : bool) :
  let t :=
    W.trace (run_command world self args shell stdout stderr silent force) in
  ((exists text color file, In (Echo text color file) t)
   <-> silent = false /\ (0 < verbosity self \/ dry_run self = true))
  /\ (forall text color file,
        In (Echo text color file) t ->
        plain_text text = "[RUN] " ++ PyStr.join " " (clean_args args)
        /\ file = file_log self)
  /\ (List.length (filter is_echo t) <= 1)%nat.
Proof.
  intros t. subst t. rewrite run_command_trace.
  assert (Hnone : forall text color file,
            ~ In (Echo text color file)
                (if force || negb (dry_run self)
                 then [Run (clean_args args) shell
                         (fst (run_streams self stdout stderr silent))
                         (snd (run_streams self stdout stderr silent))]
                 else [])).
  { intros text color file H.
    destruct (force || negb (dry_run self)); [|contradiction].
    destruct H as [H|[]]. discriminate. }
  assert (Hcond : negb silent && ((verbosity self >? 0) || dry_run self)
                  = true
                  <-> silent = false
                      /\ (0 < verbosity self \/ dry_run self = true)).
  { rewrite andb_true_iff, orb_true_iff, negb_true_iff, Z.gtb_lt.
    reflexivity. }
  unfold run_echo.
  split; [|split].
  - rewrite <- Hcond. split.
    + intros (text & color & file & H).
      apply in_app_or in H as [H|H]; [|now apply Hnone in H].
      destruct (negb silent && _); [reflexivity | contradiction].
    + intros ->. eexists; eexists; eexists. left. reflexivity.
  - intros text color file H.
    apply in_app_or in H as [H|H]; [|now apply Hnone in H].
    destruct (negb silent && _); [|contradiction].
    destruct H as [H|[]].
    destruct (dry_run self); injection H as <- _ <-;
      (split; [|reflexivity]); unfold plain_text; simpl;
      now rewrite ?append_nil_r.
  - rewrite filter_app.
    destruct (negb silent && _); destruct (force || negb (dry_run self));
      simpl; lia.
Qed.

(** X4: [run_command] never lets a [CalledProcessError] out; when it runs
    the command, it returns if the process ends with status 0, and an
    error of starting the process (a missing program, say) reaches the
    caller as it is. *)
Theorem run_command_outcome
    (args : list string) (shell : bool) (stdout stderr : option handle)
    (silent force : bool) :
  let r :=
    W.result (run_command world self args shell stdout stderr silent force) in
  (forall c, r <> Raise (CalledProcessError c))
  /\ ((force || negb (dry_run self)) = true ->
      proc world (clean_args args) shell = Exited 0 -> r = Return tt)
  /\ ((force || negb (dry_run self)) = true ->
      forall e,
        proc world (clean_args args) shell = SpawnError e ->
        (forall c, e <> CalledProcessError c) -> r = Raise e).
Proof.
  intros r. subst r. unfold run_command, echo.
  destruct (run_streams self stdout stderr silent) as [so se].
  unfold subprocess_run.
  split; [|split].
  - intros c.
    destruct (negb silent && _); destruct (force || negb (dry_run self));
      simpl; try discriminate;
      destruct (proc world (clean_args args) shell) as [[|k|k]|e];
      simpl; try discriminate; destruct e; simpl; discriminate.
  - intros -> ->. destruct (negb silent && _); reflexivity.
  - intros -> e -> He.
    destruct (negb silent && _); destruct e; simpl; try reflexivity;
      now elim (He returncode).
Qed.

(** X5: [timestamp] runs [date] whatever the helper is, dry-run included:
    it starts exactly that one process, and it returns exactly when [date]
    ends with status 0. *)
Theorem timestamp_always_runs_date :
  filter spawns (W.trace (timestamp world self))
  = [Run ["date"] false (date_stream self) (date_stream self)]
  /\ (W.result (timestamp world self) = Return tt
      <-> proc world ["date"] false = Exited 0).
Proof.
  split.
  - unfold timestamp. rewrite run_command_spawn by reflexivity.
    unfold run_streams, date_stream. simpl.
    destruct (verbosity self <? 2); reflexivity.
  - unfold timestamp, run_command, echo.
    destruct (run_streams self None None false) as [so se].
    unfold subprocess_run. simpl.
    destruct (verbosity self >? 0); destruct (dry_run self); simpl;
      destruct (proc world ["date"] false) as [[|k|k]|e]; simpl;
      (split; [intros H | intros H]); try reflexivity; try discriminate;
      destruct e; discriminate.
Qed.

End RunCommandMore.

Lemma run_command_no_empty_argument_witness :
  ["ls"; "-l"] = filter (fun arg => negb (String.eqb arg "")) [""; "ls"; ""; "-l"]
  /\ ~ In "" ["ls"; "-l"].
Proof.
  assert (Hin : In (Run ["ls"; "-l"] false (Some (FileObj "run.log"))
                      (Some (FileObj "run.log")))
                  (W.trace (run_command Samples.world
                              (Samples.helper 2 false false false)
                              [""; "ls"; ""; "-l"] false None None
                              false false))).
  { right. left. reflexivity. }
  destruct (run_command_no_empty_argument Samples.world
              (Samples.helper 2 false false false)
              [""; "ls"; ""; "-l"] false None None false false
              ["ls"; "-l"] false
              (Some (FileObj "run.log")) (Some (FileObj "run.log")) Hin)
    as (H1 & H2 & _).
  split; assumption.
Defined.

Lemma run_command_prints_command_line_witness :
  plain_text [Styled (Some "yellow") "[RUN] "; Plain "ls -l"] = "[RUN] ls -l".
Proof.
  destruct (run_command_prints_command_line Samples.world
              (Samples.helper 0 true true false)
              ["ls"; "-l"] false None None false false)
    as (_ & H & _).
  apply (H _ true (Some (FileObj "run.log"))).
  left. reflexivity.
Defined.

Lemma run_command_outcome_witness :
  W.result (run_command Samples.world (Samples.helper 2 false true false)
              ["ls"] false None None false true)
  = Return tt.
Proof.
  destruct (run_command_outcome Samples.world
              (Samples.helper 2 false true false)
              ["ls"] false None None false true)
    as (_ & H & _).
  apply H; reflexivity.
Defined.

Lemma timestamp_always_runs_date_witness :
  W.result (timestamp Samples.world (Samples.helper 2 false true false))
  = Return tt.
Proof.
  apply (proj2 (timestamp_always_runs_date Samples.world
                  (Samples.helper 2 false true false))).
  reflexivity.
Defined.

(** ** Printing *)

Section Printing.

Variable self : ScriptHelper.

(** X6: whatever the colour options are, [echo] writes one line to the
    log and returns, and without the colours the line is the prefix
    followed by the message. *)
Theorem echo_plain_text (message prefix : string) (color : option string)
    (color_prefix_only force_color : bool) :
  exists text,
    echo self message prefix color color_prefix_only force_color
    = ([Echo text force_color (file_log self)], Return tt)
    /\ plain_text text = prefix ++ message.
Proof.
  unfold echo, W.emit, plain_text.
  destruct (negb (String.eqb prefix "") && color_prefix_only);
    eexists; (split; [reflexivity|]); simpl; now rewrite ?append_nil_r.
Qed.

(** X7: [print_info] prints nothing when the verbosity is 0 or less and
    prints like [print_outcome] otherwise; [print_outcome] and
    [print_error] print at every verbosity, and [print_error] then raises
    [SystemExit] with the given code exactly when [exit] is set. *)
Theorem print_info_needs_verbosity (message : string)
    (color : option string) (exit_code : Z) (exit : bool) :
  (verbosity self <= 0 -> print_info self message color = ([], Return tt))
  /\ (0 < verbosity self ->
      print_info self message color = print_outcome self message color)
  /\ print_outcome self message color
     = ([Echo [Styled color message] true (file_log self)], Return tt)
  /\ print_error self message color exit_code exit
     = ([Echo [Styled color (prefix_error self ++ message)] true
           (file_log self)],
        if exit then Raise (SystemExit exit_code) else Return tt).
Proof.
  unfold print_info, print_outcome, print_error, verbose, echo.
  split; [|split; [|split]].
  - intros H. apply Z.ltb_ge in H.
    now rewrite Z.gtb_ltb, H.
  - intros H. apply Z.gtb_lt in H. now rewrite H.
  - reflexivity.
  - rewrite andb_false_r. now destruct exit.
Qed.

End Printing.

Lemma print_info_needs_verbosity_witness :
  print_info (Samples.helper 3 true false false) "registered" None
  = ([], Return tt)
  /\ print_info (Samples.helper 1 false false false) "registered" None
     = ([Echo [Styled None "registered"] true (Some (FileObj "run.log"))],
        Return tt).
Proof.
  split.
  - apply (proj1 (print_info_needs_verbosity
                    (Samples.helper 3 true false false) "registered" None
                    1 true)).
    discriminate.
  - destruct (print_info_needs_verbosity
                (Samples.helper 1 false false false) "registered" None
                1 true) as (_ & H & Ho & _).
    rewrite H by reflexivity. exact Ho.
Defined.

(** ** More on the file checks *)

Section ChecksMore.

Variable world : World.
Variable self : ScriptHelper.

Lemma filter_all (X : Type) (f : X -> bool) (l : list X) :
  (forall x, f x = true) -> filter f l = l.
Proof.
  intros H. induction l as [|x l IH]; simpl; [reflexivity|].
  now rewrite H, IH.
Qed.

(** X8: [check_file] raises [FileExistsError] exactly when the path
    exists and [overwrite] is off, and returns otherwise; whenever
    [check_dir] raises on a path, [check_file] raises on it too. *)
Theorem check_file_raises_iff (fpath : PurePath.t) :
  ((exists msg, check_file world self fpath
                = ([], Raise (FileExistsError msg)))
   <-> Fs.exists_ (files world) fpath = true /\ overwrite self = false)
  /\ (~ (Fs.exists_ (files world) fpath = true /\ overwrite self = false)
      -> check_file world self fpath = ([], Return tt))
  /\ (forall prefix msg,
        check_dir world self fpath prefix = ([], Raise (FileExistsError msg))
        -> exists msg', check_file world self fpath
                        = ([], Raise (FileExistsError msg'))).
Proof.
  unfold check_file, check_dir.
  destruct (Fs.exists_ (files world) fpath); destruct (overwrite self);
    simpl; (split; [split|split]);
    try (intros [msg H]; discriminate);
    try (intros [H1 H2]; discriminate);
    try (intros prefix msg H; discriminate);
    try reflexivity.
  - intros _. auto.
  - intros _. eexists. reflexivity.
  - intros H. elim H. auto.
  - intros prefix msg _. eexists. reflexivity.
Qed.

(** X9: with [overwrite] on, neither check ever raises. *)
Theorem overwrite_disables_checks (p : PurePath.t) (prefix : option string) :
  overwrite self = true ->
  check_dir world self p prefix = ([], Return p)
  /\ check_file world self p = ([], Return tt).
Proof.
  intros H. unfold check_dir, check_file. rewrite H, andb_false_r.
  split; reflexivity.
Qed.

(** X10: for [check_dir], the empty prefix is no prefix; a directory that
    passes without a prefix passes with every prefix; and a path that is
    not a directory (a regular file, say) always passes. *)
Theorem check_dir_prefix (dpath : PurePath.t) :
  check_dir world self dpath (Some "") = check_dir world self dpath None
  /\ (forall pre,
        check_dir world self dpath None = ([], Return dpath) ->
        check_dir world self dpath (Some pre) = ([], Return dpath))
  /\ (Fs.is_dir (files world) dpath = false ->
      forall prefix, check_dir world self dpath prefix = ([], Return dpath)).
Proof.
  unfold check_dir. split; [|split].
  - rewrite (filter_all (fun p => PyStr.startswith (PurePath.name p) ""));
      [reflexivity|].
    intros x. unfold PyStr.startswith. now destruct (PurePath.name x).
  - intros pre.
    destruct (Fs.exists_ (files world) dpath && negb (overwrite self));
      [|reflexivity].
    destruct (filter (Fs.is_file (files world)) _) as [|x l];
      [reflexivity | discriminate].
  - intros Hd prefix. unfold Fs.rglob_all. rewrite Hd.
    destruct (Fs.exists_ (files world) dpath && negb (overwrite self));
      destruct prefix; reflexivity.
Qed.

End ChecksMore.

Lemma check_file_raises_iff_witness :
  exists msg,
    check_file Samples.world (Samples.helper 2 false false false)
      (PurePath.parse "out/sub-01/sub-01_T1w.mnc")
    = ([], Raise (FileExistsError msg)).
Proof.
  apply (proj1 (check_file_raises_iff Samples.world
                  (Samples.helper 2 false false false)
                  (PurePath.parse "out/sub-01/sub-01_T1w.mnc"))).
  split; reflexivity.
Defined.

Lemma overwrite_disables_checks_witness :
  check_dir Samples.world (Samples.helper 2 false false true)
    (PurePath.parse "out") None
  = ([], Return (PurePath.parse "out"))
  /\ check_file Samples.world (Samples.helper 2 false false true)
       (PurePath.parse "out")
     = ([], Return tt).
Proof.
  apply (overwrite_disables_checks Samples.world
           (Samples.helper 2 false false true) (PurePath.parse "out") None).
  reflexivity.
Defined.

Lemma check_dir_prefix_witness :
  check_dir Samples.world (Samples.helper 2 false false false)
    (PurePath.parse "out/sub-01/sub-01_T1w.mnc") None
  = ([], Return (PurePath.parse "out/sub-01/sub-01_T1w.mnc"))
  /\ check_dir Samples.world (Samples.helper 2 false false false)
       (PurePath.parse "fresh") (Some "sub-")
     = ([], Return (PurePath.parse "fresh")).
Proof.
  split.
  - apply (proj2 (proj2 (check_dir_prefix Samples.world
                           (Samples.helper 2 false false false)
                           (PurePath.parse "out/sub-01/sub-01_T1w.mnc")))).
    reflexivity.
  - apply (proj1 (proj2 (check_dir_prefix Samples.world
                           (Samples.helper 2 false false false)
                           (PurePath.parse "fresh")))).
    reflexivity.
Defined.

(** ** [check_nihpd_pipeline] *)

Section NihpdPipeline.

Local Open Scope string_scope.

Lemma prefix_app (p s : string) :
  String.prefix p s = true <-> exists b, s = p ++ b.
Proof.
  revert s. induction p as [|a p IH]; intros [|c s]; simpl.
  - split; [intros _; now exists "" | reflexivity].
  - split; [intros _; now exists (String c s) | reflexivity].
  - split; [discriminate | intros [b H]; discriminate].
  - destruct (ascii_dec a c) as [<-|Hne].
    + rewrite IH. split; intros [b H]; exists b; congruence.
    + split; [discriminate | intros [b H]; congruence].
Qed.

Lemma str_in_step (sub s : string) :
  str_in sub s
  = String.prefix sub s
    || match s with
       | EmptyString => false
       | String _ s' => str_in sub s'
       end.
Proof. now destruct s. Qed.

Lemma str_in_occurs (sub s : string) :
  str_in sub s = true <-> occurs sub s.
Proof.
  unfold occurs. split.
  - induction s as [|c s IH]; rewrite str_in_step, orb_true_iff;
      intros [H|H].
    + apply prefix_app in H as [b ->]. now exists "", b.
    + discriminate.
    + apply prefix_app in H as [b ->]. now exists "", b.
    + destruct (IH H) as (a & b & ->). now exists (String c a), b.
  - intros (a & b & ->). induction a as [|c a IH].
    + rewrite str_in_step. simpl append.
      assert (H : String.prefix sub (sub ++ b) = true)
        by (apply prefix_app; now exists b).
      now rewrite H.
    + rewrite str_in_step.
      change (String c a ++ sub ++ b) with (String c (a ++ sub ++ b)).
      cbv beta iota. rewrite IH. apply orb_true_r.
Qed.

Variable world : World.
Variable environ : string -> option string.

(** X11: [check_nihpd_pipeline] looks for [init.sh] in the given
    directory first and raises [FileNotFoundError] when it is missing,
    whatever [PYTHONPATH] is; it returns exactly when the file exists and
    [PYTHONPATH] is set to a text in which [nihpd_pipeline] occurs; an
    unset [PYTHONPATH] raises [RuntimeError]. *)
Theorem check_nihpd_pipeline_spec (dpath_pipeline : PurePath.t) :
  let init :=
    PurePath.mk (PurePath.root dpath_pipeline)
      (List.app (PurePath.tail dpath_pipeline) ["init.sh"]) in
  (Fs.exists_ (files world) init = false ->
   check_nihpd_pipeline world environ dpath_pipeline
   = ([], Raise (FileNotFoundError (PurePath.to_string init))))
  /\ (check_nihpd_pipeline world environ dpath_pipeline = ([], Return tt)
      <-> Fs.exists_ (files world) init = true
          /\ exists v, environ "PYTHONPATH" = Some v
                       /\ occurs "nihpd_pipeline" v)
  /\ (Fs.exists_ (files world) init = true ->
      environ "PYTHONPATH" = None ->
      exists msg, check_nihpd_pipeline world environ dpath_pipeline
                  = ([], Raise (RuntimeError msg))).
Proof.
  intros init. unfold check_nihpd_pipeline.
  assert (Hj : PurePath.joinpath dpath_pipeline "init.sh" = init)
    by reflexivity.
  rewrite Hj. clear Hj.
  split; [|split].
  - intros ->. reflexivity.
  - destruct (Fs.exists_ (files world) init); simpl.
    + destruct (environ "PYTHONPATH") as [v|].
      * destruct (str_in DNAME_NIHPD v) eqn:E; simpl.
        -- split; [|reflexivity]. intros _. split; [reflexivity|].
           exists v. split; [reflexivity|]. now apply str_in_occurs.
        -- split; [discriminate|]. intros (_ & v' & Hv & Ho).
           injection Hv as <-. apply str_in_occurs in Ho.
           unfold DNAME_NIHPD in E. congruence.
      * split; [discriminate|]. intros (_ & v' & Hv & _). discriminate.
    + split; [discriminate | intros [H _]; discriminate].
  - intros -> ->. simpl. eexists. reflexivity.
Qed.

End NihpdPipeline.

Lemma check_nihpd_pipeline_spec_witness :
  check_nihpd_pipeline Samples.world
    (fun _ => Some "/opt/nihpd_pipeline/python:/usr/lib/python")
    (PurePath.parse "/opt/nihpd_pipeline")
  = ([], Raise (FileNotFoundError "/opt/nihpd_pipeline/init.sh")).
Proof.
  apply (proj1 (check_nihpd_pipeline_spec Samples.world
                  (fun _ => Some "/opt/nihpd_pipeline/python:/usr/lib/python")
                  (PurePath.parse "/opt/nihpd_pipeline"))).
  reflexivity.
Defined.

(** ** More on [requires_program] *)

(** X12: [requires_program] hides no error.  When [which] itself cannot
    be started, that error reaches the caller and the wrapped function is
    not called; when the program is found and the wrapped function
    raises, the wrapper raises the same exception after the same
    events. *)
Theorem requires_program_propagates (world : World) (A V : Type)
    (func : A -> W io_event V) (program : string)
    (program_name : option string) (args : A) :
  (forall e,
      proc world ["which"; program] false = SpawnError e ->
      (forall c, e <> CalledProcessError c) ->
      requires_program world func program program_name args
      = ([CheckOutput ["which"; program]], Raise e))
  /\ (forall t e,
      proc world ["which"; program] false = Exited 0 ->
      func args = (t, Raise e) ->
      requires_program world func program program_name args
      = (CheckOutput ["which"; program] :: t, Raise e)).
Proof.
  unfold requires_program, subprocess_check_output. split.
  - intros e -> He. destruct e; try reflexivity. now elim (He returncode).
  - intros t e -> ->. reflexivity.
Qed.

Lemma requires_program_propagates_witness :
  requires_program Samples.world
    (fun _ : unit =>
       ([Echo [Plain "converting"] true None],
        Raise (OtherException "ValueError") : outcome nat))
    "python2" None tt
  = ([CheckOutput ["which"; "python2"]; Echo [Plain "converting"] true None],
     Raise (OtherException "ValueError")).
Proof.
  apply (proj2 (requires_program_propagates Samples.world
                  (fun _ : unit =>
                     ([Echo [Plain "converting"] true None],
                      Raise (OtherException "ValueError") : outcome nat))
                  "python2" None tt)).
  - reflexivity.
  - reflexivity.
Defined.

(** ** More on [with_helper] *)

Section ScopedRunMore.

Variable world : World.
Variable func : task.
Variable fpath_log : option PurePath.t.
Variable level : Z.
Variables be_quiet dry over exit_on_error : bool.
Variables p_run p_error : string.

Local Abbreviation h0 :=
  (scoped_helper world fpath_log level be_quiet dry over p_run p_error).
Local Abbreviation h' := (t_helper (func h0)).
Local Abbreviation run :=
  (with_helper world func fpath_log level be_quiet dry over exit_on_error
     p_run p_error).

Lemma with_helper_returns_set_up_ok :
  set_up world fpath_log = Return tt ->
  (W.result run = Return tt
   <-> proc world ["date"] false = Exited 0
       /\ t_raises (func h0) = None
       /\ first_raise (callbacks_success h') = None
       /\ first_raise (callbacks_always h') = None)
  /\ (W.result run = Return tt ->
      W.trace run
      = (scope_enter world fpath_log
         ++ opening h0
         ++ map IO (t_io (func h0))
         ++ flat_map (invoke_events Success) (callbacks_success h')
         ++ [done_line h']
         ++ flat_map (invoke_events Always) (callbacks_always h')
         ++ separator_line h' :: map IO (timestamp_events h')
         ++ scope_exit world fpath_log)%list).
Proof.
  intros Hup.
  rewrite with_helper_closed by exact Hup.
  unfold W.result, W.trace, fst, snd.
  unfold finally_outcome, except_outcome, except_events, try_outcome,
    try_events, helper_at_exit, epilogue.
  destruct (timestamp_result_cases world) as [[Hp Hts] | [Hp [e Hts]]];
    rewrite !Hts.
  - destruct (t_raises (func h0)) as [e1|].
    + assert (Hno : forall o : outcome unit,
                match first_raise (callbacks_always h') with
                | Some e => Raise e
                | None =>
                    if is_Exception e1
                    then match first_raise (callback_failure h') with
                         | Some e' => Raise e'
                         | None => if exit_on_error
                                   then Raise (SystemExit 1) else Raise e1
                         end
                    else Raise e1
                end <> Return tt).
      { intros _. destruct (first_raise (callbacks_always h'));
          [discriminate|].
        destruct (is_Exception e1); [|discriminate].
        destruct (first_raise (callback_failure h')); [discriminate|].
        destruct exit_on_error; discriminate. }
      specialize (Hno (Return tt)).
      split; [split|]; intros H; try contradiction.
      destruct H as (_ & H & _). discriminate.
    + destruct (first_raise (callbacks_success h')) as [e2|] eqn:Es.
      * assert (Hno : match first_raise (callbacks_always h') with
                      | Some e => Raise e
                      | None =>
                          if is_Exception e2
                          then match first_raise (callback_failure h') with
                               | Some e' => Raise e'
                               | None => if exit_on_error
                                         then Raise (SystemExit 1)
                                         else Raise e2
                               end
                          else Raise e2
                      end <> Return tt).
        { destruct (first_raise (callbacks_always h')); [discriminate|].
          destruct (is_Exception e2); [|discriminate].
          destruct (first_raise (callback_failure h')); [discriminate|].
          destruct exit_on_error; discriminate. }
        split; [split|]; intros H; try contradiction.
        destruct H as (_ & _ & H & _). discriminate.
      * destruct (first_raise (callbacks_always h')) as [e3|] eqn:Ea.
        -- split; [split|]; intros H; try discriminate.
           destruct H as (_ & _ & _ & H). discriminate.
        -- split; [split; auto|]. intros _.
           rewrite (until_raise_all _ Es), (until_raise_all _ Ea).
           simpl. now rewrite <- !app_assoc.
  - assert (Hno : match first_raise (callbacks_always h0) with
                  | Some e1 => Raise e1
                  | None => Raise e
                  end <> Return tt).
    { destruct (first_raise (callbacks_always h0)); discriminate. }
    split; [split|]; intros H; try contradiction.
    destruct H as (H & _). contradiction.
Qed.

(** X13: a scoped run returns normally exactly when its set-up succeeds
    (the directory of the log is made, the scratch directory created, the
    log opened), [date] succeeds, the wrapped function returns, and no
    success callback and no always-callback raises: no error is
    swallowed.  The run then did, in this order: the entries, the
    opening, the function, the success callbacks, the done line, the
    always-callbacks, the closing, the exits. *)
Theorem with_helper_returns_iff :
  (W.result run = Return tt
   <-> set_up world fpath_log = Return tt
       /\ proc world ["date"] false = Exited 0
       /\ t_raises (func h0) = None
       /\ first_raise (callbacks_success h') = None
       /\ first_raise (callbacks_always h') = None)
  /\ (W.result run = Return tt ->
      W.trace run
      = (scope_enter world fpath_log
         ++ opening h0
         ++ map IO (t_io (func h0))
         ++ flat_map (invoke_events Success) (callbacks_success h')
         ++ [done_line h']
         ++ flat_map (invoke_events Always) (callbacks_always h')
         ++ separator_line h' :: map IO (timestamp_events h')
         ++ scope_exit world fpath_log)%list).
Proof.
  destruct (set_up world fpath_log) as [[]|e] eqn:Hup.
  - destruct (with_helper_returns_set_up_ok Hup) as [Hiff Htrace].
    split; [|exact Htrace].
    split.
    + intros H. split; [reflexivity|]. now apply Hiff.
    + intros [_ H]. now apply Hiff.
  - erewrite with_helper_set_up_fails by exact Hup.
    split; [split|]; [discriminate| |discriminate].
    intros [H _]. discriminate.
Qed.

(** X14: in a run whose set-up succeeded, when the wrapped function
    raises an [Exception] and no failure callback raises, the run calls
    every failure callback, writes the
    traceback with the error prefix, and goes on to the [finally] clause;
    if no always-callback raises either, it ends with [SystemExit(1)]
    when [exit_on_error] is set, so that the exception is not raised
    again, and with the exception of the function otherwise. *)
Theorem with_helper_task_exception (e : exn) :
  set_up world fpath_log = Return tt ->
  proc world ["date"] false = Exited 0 ->
  t_raises (func h0) = Some e ->
  is_Exception e = true ->
  first_raise (callback_failure h') = None ->
  W.trace run
  = (scope_enter world fpath_log
     ++ opening h0
     ++ map IO (t_io (func h0))
     ++ flat_map (invoke_events Failure) (callback_failure h')
     ++ [error_line world h' e]
     ++ epilogue h'
     ++ scope_exit world fpath_log)%list
  /\ (first_raise (callbacks_always h') = None ->
      W.result run
      = if exit_on_error then Raise (SystemExit 1) else Raise e).
Proof.
  intros Hup Hp Ht He Hf.
  rewrite with_helper_closed by exact Hup.
  unfold W.result, W.trace, fst, snd.
  unfold finally_outcome, except_outcome, except_events, try_outcome,
    try_events, helper_at_exit.
  destruct (timestamp_result_cases world) as [[_ Hts] | [Hn _]];
    [|contradiction].
  rewrite !Hts, Ht, He, Hf, (until_raise_all _ Hf).
  split.
  - simpl. now rewrite <- !app_assoc.
  - intros ->. reflexivity.
Qed.

(** X15: in a run whose set-up succeeded, a failure callback that
    raises takes the place of the error of the wrapped function: the failure callbacks after it are not called,
    no traceback is written, and when no always-callback raises, the run
    ends with the exception of the callback, whatever [exit_on_error]
    is. *)
Theorem with_helper_failure_callback_raises (e e' : exn) :
  set_up world fpath_log = Return tt ->
  proc world ["date"] false = Exited 0 ->
  t_raises (func h0) = Some e ->
  is_Exception e = true ->
  first_raise (callback_failure h') = Some e' ->
  W.trace run
  = (scope_enter world fpath_log
     ++ opening h0
     ++ map IO (t_io (func h0))
     ++ flat_map (invoke_events Failure) (until_raise (callback_failure h'))
     ++ epilogue h'
     ++ scope_exit world fpath_log)%list
  /\ (first_raise (callbacks_always h') = None -> W.result run = Raise e').
Proof.
  intros Hup Hp Ht He Hf.
  rewrite with_helper_closed by exact Hup.
  unfold W.result, W.trace, fst, snd.
  unfold finally_outcome, except_outcome, except_events, try_outcome,
    try_events, helper_at_exit.
  destruct (timestamp_result_cases world) as [[_ Hts] | [Hn _]];
    [|contradiction].
  rewrite !Hts, Ht, He, Hf.
  split.
  - simpl. now rewrite app_nil_r, <- !app_assoc.
  - intros ->. reflexivity.
Qed.

(** X16: in a run whose set-up succeeded, an exception of the wrapped
    function that is no [Exception] ([KeyboardInterrupt], [SystemExit])
    skips the [except] clause: no
    failure callback is called and no traceback is written; the [finally]
    clause runs, and when no always-callback raises the exception reaches
    the caller. *)
Theorem with_helper_base_exception (e : exn) :
  set_up world fpath_log = Return tt ->
  proc world ["date"] false = Exited 0 ->
  t_raises (func h0) = Some e ->
  is_Exception e = false ->
  W.trace run
  = (scope_enter world fpath_log
     ++ opening h0
     ++ map IO (t_io (func h0))
     ++ epilogue h'
     ++ scope_exit world fpath_log)%list
  /\ (first_raise (callbacks_always h') = None -> W.result run = Raise e).
Proof.
  intros Hup Hp Ht He.
  rewrite with_helper_closed by exact Hup.
  unfold W.result, W.trace, fst, snd.
  unfold finally_outcome, except_outcome, except_events, try_outcome,
    try_events, helper_at_exit.
  destruct (timestamp_result_cases world) as [[_ Hts] | [Hn _]];
    [|contradiction].
  rewrite !Hts, Ht, He.
  split.
  - simpl. now rewrite app_nil_r, <- !app_assoc.
  - intros ->. reflexivity.
Qed.

(** X17: when the opening [date] does not end with status 0, the wrapped
    function is not called: the run is the same whatever the function
    is, it calls no callback, and it does not return normally.  This is
    so whether or not the set-up of the run succeeds. *)
Theorem with_helper_opening_date_fails (func' : task) :
  proc world ["date"] false <> Exited 0 ->
  run
  = with_helper world func' fpath_log level be_quiet dry over exit_on_error
      p_run p_error
  /\ (forall k, calls k (W.trace run) = [])
  /\ W.result run <> Return tt.
Proof.
  intros Hp.
  destruct (set_up world fpath_log) as [[]|eup] eqn:Hup;
    [|rewrite (@with_helper_set_up_fails world func fpath_log level
                 be_quiet dry over exit_on_error p_run p_error eup Hup),
              (@with_helper_set_up_fails world func' fpath_log level
                 be_quiet dry over exit_on_error p_run p_error eup Hup);
      split; [reflexivity|];
      split; [intros k; apply calls_failed_set_up|discriminate]].
  rewrite !with_helper_closed by exact Hup.
  unfold W.result, W.trace, fst, snd.
  unfold finally_outcome, except_outcome, except_events, try_outcome,
    try_events, helper_at_exit, epilogue, error_line, separator_line.
  destruct (timestamp_result_cases world) as [[Hok _] | [_ [e Hts]]];
    [contradiction|].
  rewrite !Hts.
  pose proof (fun k => calls_scope_enter world k fpath_log) as Hen.
  pose proof (fun k => calls_scope_exit world k fpath_log) as Hex.
  remember (scope_enter world fpath_log) as enter eqn:Eenter.
  remember (scope_exit world fpath_log) as leave eqn:Eleave.
  clear Eenter Eleave. simpl.
  split; [reflexivity|]. split.
  - intros k. rewrite !calls_app, Hen, calls_IO.
    cbn [calls]. rewrite calls_app, Hex, calls_IO.
    now destruct (is_Exception e).
  - destruct (is_Exception e); [destruct exit_on_error|]; discriminate.
Qed.

Lemma is_scope_body :
  filter is_scope
    (try_events world func h0
     ++ except_events world (helper_at_exit world func h0)
          (try_outcome world func h0)
     ++ epilogue (helper_at_exit world func h0))%list = [].
Proof.
  rewrite !filter_app.
  assert (H1 : filter is_scope (try_events world func h0) = []).
  { unfold try_events, opening.
    destruct (W.result (timestamp world h0)); [|apply is_scope_IO].
    rewrite !filter_app, !is_scope_IO. simpl.
    destruct (t_raises (func h0)); [reflexivity|].
    rewrite filter_app, is_scope_invoke.
    now destruct (first_raise (callbacks_success h')). }
  assert (H2 : forall h o, filter is_scope (except_events world h o) = []).
  { intros h o. unfold except_events. destruct o as [|e]; [reflexivity|].
    destruct (is_Exception e); [|reflexivity].
    rewrite filter_app, is_scope_invoke.
    now destruct (first_raise (callback_failure h)). }
  assert (H3 : forall h, filter is_scope (epilogue h) = []).
  { intros h. unfold epilogue. rewrite filter_app, is_scope_invoke.
    destruct (first_raise (callbacks_always h)); [reflexivity|].
    simpl. apply is_scope_IO. }
  now rewrite H1, H2, H3.
Qed.

(** X18: a run whose set-up succeeds creates the scratch directory once,
    before anything else but the directory of the log, and removes it
    once, at the very end; the log file, when one is given, is opened
    once after that and closed once just before: these are all the events
    of the kind in the trace, in this order.  A run whose set-up fails
    raises the error of the set-up and does nothing but the steps of the
    set-up before the failure and the removal of a scratch directory it
    created.  In every run, a scratch directory that was created is
    removed, as the last event. *)
Theorem with_helper_scope_balanced :
  (set_up world fpath_log = Return tt ->
   filter is_scope (W.trace run)
   = (scope_enter world fpath_log ++ scope_exit world fpath_log)%list
   /\ (exists body,
         W.trace run
         = (scope_enter world fpath_log ++ body
            ++ scope_exit world fpath_log)%list
         /\ filter is_scope body = []))
  /\ (forall e, set_up world fpath_log = Raise e ->
      run = (failed_set_up_events world fpath_log, Raise e))
  /\ (forall d, In (TmpCreate d) (W.trace run) ->
      exists l, W.trace run = (l ++ [TmpRemove d])%list).
Proof.
  assert (Hok : set_up world fpath_log = Return tt ->
    filter is_scope (W.trace run)
    = (scope_enter world fpath_log ++ scope_exit world fpath_log)%list
    /\ (exists body,
          W.trace run
          = (scope_enter world fpath_log ++ body
             ++ scope_exit world fpath_log)%list
          /\ filter is_scope body = [])).
  { intros Hup. rewrite with_helper_closed by exact Hup.
    unfold W.trace, fst. split.
    - rewrite !app_assoc, filter_app, <- !app_assoc.
      rewrite filter_app, is_scope_body.
      now destruct fpath_log.
    - eexists. split; [|exact is_scope_body]. now rewrite <- !app_assoc. }
  split; [exact Hok|].
  split; [intros e Hup; now apply with_helper_set_up_fails|].
  intros d Hin.
  destruct (set_up world fpath_log) as [[]|e] eqn:Hup.
  - destruct (Hok eq_refl) as [Hfilter (body & Ht & _)].
    assert (Hd : d = tmp_name world).
    { assert (Hin' : In (TmpCreate d) (filter is_scope (W.trace run)))
        by (apply filter_In; split; [exact Hin|reflexivity]).
      rewrite Hfilter in Hin'. unfold scope_enter, scope_exit in Hin'.
      destruct fpath_log; simpl in Hin';
        repeat (destruct Hin' as [Hin'|Hin']; try discriminate;
                try (now injection Hin'));
        contradiction. }
    subst d. rewrite Ht. unfold scope_exit.
    destruct fpath_log as [p|].
    + exists (scope_enter world (Some p) ++ body ++ [LogClose p])%list.
      now rewrite <- !app_assoc.
    + exists (scope_enter world None ++ body)%list.
      now rewrite <- !app_assoc.
  - rewrite (@with_helper_set_up_fails world func fpath_log level
               be_quiet dry over exit_on_error p_run p_error e Hup)
      in Hin |- *.
    unfold W.trace, fst in Hin |- *. revert Hin.
    unfold failed_set_up_events.
    destruct (make_log_dir world fpath_log) as [fs [[]|e0]];
      [|intros []].
    destruct fpath_log as [p|]; destruct (mkdtemp world) as [d0|e1];
      simpl; intros Hin;
      repeat (destruct Hin as [Hin|Hin]; try discriminate);
      try contradiction; injection Hin as ->.
    + now exists [MkdirParents (PurePath.parent p); TmpCreate d].
    + now exists [TmpCreate d].
Qed.

(** X19: in a run whose set-up succeeded, what the [finally] clause
    raises is what the run raises: an always-callback that raises hides the outcome of everything before
    it, the error of the wrapped function and the exit of [print_error]
    included. *)
Theorem with_helper_finally_raises (e : exn) :
  set_up world fpath_log = Return tt ->
  first_raise (callbacks_always (helper_at_exit world func h0)) = Some e ->
  W.result run = Raise e.
Proof.
  intros Hup H. rewrite with_helper_closed by exact Hup.
  unfold W.result, snd.
  unfold finally_outcome. now rewrite H.
Qed.

End ScopedRunMore.

Lemma with_helper_returns_iff_witness :
  W.result
    (with_helper Samples.world
       (Samples.registering [Samples.cb_ok 0] [Samples.cb_ok 2] [] None)
       None 2 false false false true PREFIX_RUN PREFIX_ERROR)
  = Return tt.
Proof.
  apply (proj1 (with_helper_returns_iff Samples.world
                  (Samples.registering [Samples.cb_ok 0] [Samples.cb_ok 2]
                     [] None)
                  None 2 false false false true PREFIX_RUN PREFIX_ERROR)).
  repeat split.
Defined.

Lemma with_helper_task_exception_witness :
  W.result
    (with_helper Samples.world
       (Samples.registering [Samples.cb_ok 0] [] [Samples.cb_ok 3]
          (Some (OtherException "ValueError")))
       None 2 false false false true PREFIX_RUN PREFIX_ERROR)
  = Raise (SystemExit 1).
Proof.
  destruct (@with_helper_task_exception Samples.world
              (Samples.registering [Samples.cb_ok 0] [] [Samples.cb_ok 3]
                 (Some (OtherException "ValueError")))
              None 2 false false false true PREFIX_RUN PREFIX_ERROR
              (OtherException "ValueError")
              eq_refl eq_refl eq_refl eq_refl eq_refl) as [_ H].
  exact (H eq_refl).
Defined.

Lemma with_helper_failure_callback_raises_witness :
  W.result
    (with_helper Samples.world
       (Samples.registering [] [] [Samples.cb_failing 3; Samples.cb_ok 4]
          (Some (RuntimeError "no input")))
       None 2 false false false true PREFIX_RUN PREFIX_ERROR)
  = Raise (OtherException "ValueError").
Proof.
  destruct (@with_helper_failure_callback_raises Samples.world
              (Samples.registering [] []
                 [Samples.cb_failing 3; Samples.cb_ok 4]
                 (Some (RuntimeError "no input")))
              None 2 false false false true PREFIX_RUN PREFIX_ERROR
              (RuntimeError "no input") (OtherException "ValueError")
              eq_refl eq_refl eq_refl eq_refl eq_refl) as [_ H].
  exact (H eq_refl).
Defined.

Lemma with_helper_base_exception_witness :
  W.result
    (with_helper Samples.world
       (Samples.registering [Samples.cb_ok 0] [] [Samples.cb_ok 3]
          (Some KeyboardInterrupt))
       None 2 false false false true PREFIX_RUN PREFIX_ERROR)
  = Raise KeyboardInterrupt.
Proof.
  destruct (@with_helper_base_exception Samples.world
              (Samples.registering [Samples.cb_ok 0] [] [Samples.cb_ok 3]
                 (Some KeyboardInterrupt))
              None 2 false false false true PREFIX_RUN PREFIX_ERROR
              KeyboardInterrupt eq_refl eq_refl eq_refl eq_refl) as [_ H].
  exact (H eq_refl).
Defined.

Lemma with_helper_opening_date_fails_witness :
  W.result
    (with_helper MoreSamples.world_without_date
       (Samples.registering [Samples.cb_ok 0] [] [Samples.cb_ok 3] None)
       None 2 false false false false PREFIX_RUN PREFIX_ERROR)
  <> Return tt.
Proof.
  destruct (@with_helper_opening_date_fails MoreSamples.world_without_date
              (Samples.registering [Samples.cb_ok 0] [] [Samples.cb_ok 3]
                 None)
              None 2 false false false false PREFIX_RUN PREFIX_ERROR
              (Samples.registering [] [] [] None))
    as (_ & _ & H).
  - discriminate.
  - exact H.
Defined.

Lemma with_helper_scope_balanced_witness :
  let logged :=
    with_helper Samples.world
      (Samples.registering [Samples.cb_ok 0] [Samples.cb_ok 2] [] None)
      (Some (PurePath.parse "logs/run.log")) 2 false false false true
      PREFIX_RUN PREFIX_ERROR in
  let below_file :=
    with_helper Samples.world
      (Samples.registering [Samples.cb_ok 0] [Samples.cb_ok 2] [] None)
      (Some (PurePath.parse "out/sub-01/sub-01_T1w.mnc/run.log"))
      2 false false false true PREFIX_RUN PREFIX_ERROR in
  set_up Samples.world (Some (PurePath.parse "logs/run.log")) = Return tt
  /\ filter is_scope (W.trace logged)
     = [MkdirParents (PurePath.parse "logs");
        TmpCreate "/tmp/tmpk3x9";
        LogOpen (PurePath.parse "logs/run.log");
        LogClose (PurePath.parse "logs/run.log");
        TmpRemove "/tmp/tmpk3x9"]
  /\ set_up Samples.world
       (Some (PurePath.parse "out/sub-01/sub-01_T1w.mnc/run.log"))
     = Raise (FileExistsError "out/sub-01/sub-01_T1w.mnc")
  /\ below_file = ([], Raise (FileExistsError "out/sub-01/sub-01_T1w.mnc")).
Proof.
  destruct (with_helper_scope_balanced Samples.world
              (Samples.registering [Samples.cb_ok 0] [Samples.cb_ok 2] []
                 None)
              (Some (PurePath.parse "logs/run.log")) 2 false false false
              true PREFIX_RUN PREFIX_ERROR)
    as (Hok & _ & _).
  destruct (with_helper_scope_balanced Samples.world
              (Samples.registering [Samples.cb_ok 0] [Samples.cb_ok 2] []
                 None)
              (Some (PurePath.parse "out/sub-01/sub-01_T1w.mnc/run.log"))
              2 false false false true PREFIX_RUN PREFIX_ERROR)
    as (_ & Hfails & _).
  split; [reflexivity|]. split; [exact (proj1 (Hok eq_refl))|].
  split; [reflexivity|].
  exact (Hfails (FileExistsError "out/sub-01/sub-01_T1w.mnc") eq_refl).
Defined.

Lemma with_helper_finally_raises_witness :
  W.result
    (with_helper Samples.world
       (Samples.registering [Samples.cb_failing 0] [] []
          (Some (RuntimeError "no input")))
       None 2 false false false true PREFIX_RUN PREFIX_ERROR)
  = Raise (OtherException "ValueError").
Proof.
  apply (@with_helper_finally_raises Samples.world
           (Samples.registering [Samples.cb_failing 0] [] []
              (Some (RuntimeError "no input")))
           None 2 false false false true PREFIX_RUN PREFIX_ERROR
           (OtherException "ValueError")); reflexivity.
Defined.

(** ** More on [add_suffix] *)

Section AddSuffixMore.

Import PurePath.

Lemma length_app (a b : string) :
  String.length (a ++ b) = (String.length a + String.length b)%nat.
Proof. induction a as [|c a IH]; simpl; [reflexivity | now rewrite IH]. Qed.

Lemma drop_app_length (a b : string) :
  PyStr.drop (String.length a) (a ++ b) = b.
Proof. induction a as [|c a IH]; simpl; [reflexivity | exact IH]. Qed.

Lemma take_app_length (a b : string) :
  PyStr.take (String.length a) (a ++ b) = a.
Proof. induction a as [|c a IH]; simpl; [reflexivity | now rewrite IH]. Qed.

Lemma take_length (n : nat) (s : string) :
  (n <= String.length s)%nat -> String.length (PyStr.take n s) = n.
Proof.
  revert s. induction n as [|n IH]; intros [|c s] H; simpl in *;
    try reflexivity; try lia.
  rewrite IH; [reflexivity | lia].
Qed.

Lemma rfind_bounds (c : ascii) (s : string) :
  -1 <= PyStr.rfind c s < PyStr.len s.
Proof.
  unfold PyStr.len. induction s as [|a s IH]; simpl String.length.
  - simpl. lia.
  - cbn [PyStr.rfind].
    destruct (0 <=? PyStr.rfind c s) eqn:E.
    + apply Z.leb_le in E. lia.
    + destruct (Ascii.eqb a c); lia.
Qed.

Lemma rfind_app_r (c : ascii) (a b : string) :
  0 <= PyStr.rfind c b ->
  PyStr.rfind c (a ++ b) = PyStr.len a + PyStr.rfind c b.
Proof.
  intros H. unfold PyStr.len. induction a as [|x a IH].
  - simpl. lia.
  - change (String x a ++ b) with (String x (a ++ b)).
    cbn [PyStr.rfind String.length]. rewrite IH.
    assert (E : (0 <=? Z.of_nat (String.length a) + PyStr.rfind c b) = true)
      by (apply Z.leb_le; lia).
    rewrite E. lia.
Qed.

Lemma rfind_drop (c : ascii) (s : string) :
  0 <= PyStr.rfind c s ->
  PyStr.rfind c (PyStr.drop (Z.to_nat (PyStr.rfind c s)) s) = 0.
Proof.
  induction s as [|a s IH]; cbn [PyStr.rfind]; [lia|].
  destruct (0 <=? PyStr.rfind c s) eqn:E.
  - apply Z.leb_le in E. intros _.
    replace (Z.to_nat (PyStr.rfind c s + 1))
      with (S (Z.to_nat (PyStr.rfind c s))) by lia.
    simpl. now apply IH.
  - destruct (Ascii.eqb a c) eqn:Ea; [|lia]. intros _.
    simpl. now rewrite E, Ea.
Qed.

Lemma is_component_long (x : string) :
  (2 <= String.length x)%nat -> is_component x = true.
Proof.
  destruct x as [|c [|d x]]; simpl; try lia. intros _.
  unfold is_component. simpl. now destruct (Ascii.eqb c ".").
Qed.

Lemma is_component_nonempty (x : string) :
  is_component x = true -> (1 <= String.length x)%nat.
Proof. destruct x; [discriminate | simpl; lia]. Qed.

(** A component stays one when text is put inside it. *)
Lemma is_component_insert (a m b : string) :
  is_component (a ++ b) = true -> is_component (a ++ m ++ b) = true.
Proof.
  intros H. destruct m as [|c m].
  - exact H.
  - apply is_component_long. apply is_component_nonempty in H.
    rewrite length_app in *. rewrite length_app. simpl. lia.
Qed.

(** The pieces of a name with an extension. *)
Lemma suffix_pieces (p : t) :
  suffix p <> "" ->
  exists i : nat,
    (0 < i)%nat /\ (i + 2 <= String.length (name p))%nat
    /\ stem p = PyStr.take i (name p)
    /\ suffix p = PyStr.drop i (name p)
    /\ PyStr.rfind dot (suffix p) = 0.
Proof.
  unfold suffix, stem, PyStr.len.
  pose proof (rfind_bounds dot (name p)) as Hb. unfold PyStr.len in Hb.
  destruct (andb _ _) eqn:E; [|intros H; now elim H].
  intros _. apply andb_true_iff in E as [E1 E2].
  apply Z.ltb_lt in E1, E2.
  exists (Z.to_nat (PyStr.rfind dot (name p))).
  repeat split; try lia.
  apply rfind_drop. lia.
Qed.

(** X20: when the path has an extension and neither suffix nor separator
    holds a slash, [add_suffix] without [ext] keeps that extension: the
    result has the same extension and the same parent, and its stem is
    the old stem, the separator and the suffix. *)
Theorem add_suffix_keeps_extension (path suffix sep : string) :
  PyStr.contains slash suffix = false ->
  PyStr.contains slash sep = false ->
  PurePath.suffix (parse path) <> "" ->
  let r := add_suffix path suffix (Some sep) None in
  PurePath.suffix r = PurePath.suffix (parse path)
  /\ stem r = stem (parse path) ++ sep ++ inserted_suffix suffix sep
  /\ parent r = parent (parse path).
Proof.
  intros Hs Hsep Hext r. subst r. rewrite add_suffix_auto.
  set (p := parse path) in *.
  set (mid := sep ++ inserted_suffix suffix sep).
  destruct (suffix_pieces p Hext) as (i & Hi & Hlen & Hstem & Hsuf & Hrf).
  assert (Hname : stem p ++ PurePath.suffix p = name p)
    by apply stem_suffix.
  assert (Hstemlen : String.length (stem p) = i).
  { rewrite Hstem. apply take_length. lia. }
  assert (Hsuflen : (2 <= String.length (PurePath.suffix p))%nat).
  { pose proof (f_equal String.length Hname) as H.
    rewrite length_app in H. lia. }
  assert (Hnew : stem p ++ sep ++ inserted_suffix suffix sep
                 ++ PurePath.suffix p
                 = (stem p ++ mid) ++ PurePath.suffix p).
  { unfold mid. now rewrite !append_assoc. }
  assert (Hj : joinpath (parent p)
                 (stem p ++ sep ++ inserted_suffix suffix sep
                  ++ PurePath.suffix p)
               = mk (root (parent p))
                   (List.app (tail (parent p))
                      [(stem p ++ mid) ++ PurePath.suffix p])).
  { rewrite <- Hnew. apply joinpath_single.
    - rewrite !contains_append. subst p.
      rewrite stem_no_slash, suffix_no_slash, Hsep.
      now rewrite (inserted_suffix_no_slash _ _ Hs).
    - apply is_component_long. rewrite !length_app. lia. }
  rewrite Hj.
  assert (Hn : name (mk (root (parent p))
                       (List.app (tail (parent p))
                          [(stem p ++ mid) ++ PurePath.suffix p]))
               = (stem p ++ mid) ++ PurePath.suffix p).
  { unfold name. simpl. apply last_last. }
  assert (Hr : PyStr.rfind dot ((stem p ++ mid) ++ PurePath.suffix p)
               = Z.of_nat (String.length (stem p ++ mid))).
  { rewrite rfind_app_r by lia. unfold PyStr.len. lia. }
  assert (Hcond :
    (0 <? Z.of_nat (String.length (stem p ++ mid)))
    && (Z.of_nat (String.length (stem p ++ mid))
        <? PyStr.len ((stem p ++ mid) ++ PurePath.suffix p) - 1) = true).
  { apply andb_true_iff. unfold PyStr.len.
    rewrite !length_app. split; apply Z.ltb_lt; lia. }
  split; [|split].
  - unfold PurePath.suffix at 1. rewrite Hn, Hr, Hcond, Nat2Z.id.
    apply drop_app_length.
  - unfold stem at 1. rewrite Hn, Hr, Hcond, Nat2Z.id.
    rewrite take_app_length. unfold mid. reflexivity.
  - apply parent_joinpath_single.
Qed.

End AddSuffixMore.

Lemma add_suffix_keeps_extension_witness :
  PurePath.suffix (add_suffix "out/sub-01_T1w.mnc" "_mask" (Some "_") None)
  = ".mnc"
  /\ PurePath.stem (add_suffix "out/sub-01_T1w.mnc" "_mask" (Some "_") None)
     = "sub-01_T1w_mask".
Proof.
  destruct (@add_suffix_keeps_extension "out/sub-01_T1w.mnc" "_mask" "_"
              eq_refl eq_refl ltac:(discriminate)) as (H1 & H2 & _).
  split; [exact H1 | exact H2].
Defined.

Section AddSuffixPaths.

Import PurePath.

Lemma parse_tail_component (s x : string) :
  In x (tail (parse s)) -> valid_component x.
Proof.
  intros H. split; [now apply (parse_components s)|].
  unfold parse in H. destruct (splitroot s) as [r rel]. simpl in H.
  now apply filter_In in H.
Qed.

Lemma name_valid (s : string) :
  tail (parse s) <> [] -> valid_component (name (parse s)).
Proof.
  intros H. apply (parse_tail_component s). unfold name.
  destruct (exists_last H) as (l & x & ->).
  rewrite last_last. apply in_or_app. right. now left.
Qed.

Lemma add_suffix_nosep (path suffix : string) :
  add_suffix path suffix None None
  = joinpath (parent (parse path))
      (stem (parse path) ++ suffix ++ PurePath.suffix (parse path)).
Proof. reflexivity. Qed.

(** X21: without a separator ([sep=None]) the suffix is put before the
    extension as it is, a leading dash included: for a path with a name
    and a suffix without a slash the result lies in the same parent and
    its name is stem, suffix, extension.  With the empty suffix the
    result is the path itself, for every path. *)
Theorem add_suffix_no_separator (path suffix : string) :
  add_suffix path "" None None = parse path
  /\ (PyStr.contains slash suffix = false ->
      tail (parse path) <> [] ->
      let r := add_suffix path suffix None None in
      parent r = parent (parse path)
      /\ name r = stem (parse path) ++ suffix
                  ++ PurePath.suffix (parse path)).
Proof.
  rewrite !add_suffix_nosep. set (p := parse path).
  assert (Hjoin : forall m,
            PyStr.contains slash m = false ->
            tail p <> [] ->
            joinpath (parent p) (stem p ++ m ++ PurePath.suffix p)
            = mk (root (parent p))
                (List.app (tail (parent p))
                   [stem p ++ m ++ PurePath.suffix p])).
  { intros m Hm Hne. destruct (@name_valid path Hne) as [Hslash Hcomp].
    fold p in Hslash, Hcomp.
    apply joinpath_single.
    - rewrite !contains_append. subst p.
      now rewrite stem_no_slash, suffix_no_slash, Hm.
    - apply is_component_insert. now rewrite stem_suffix. }
  split.
  - assert (Hcase : tail p = [] \/ tail p <> [])
      by (destruct (tail p); [now left | right; discriminate]).
    destruct Hcase as [Et | Hne].
    + assert (Hn : name p = "") by (unfold name; now rewrite Et).
      unfold stem, PurePath.suffix. rewrite Hn. simpl.
      unfold joinpath, parent. rewrite Et. simpl.
      destruct p as [r tl]. simpl in Et. now subst tl.
    + rewrite (Hjoin "" eq_refl Hne). simpl append.
      rewrite stem_suffix. unfold parent, name. simpl.
      rewrite <- app_removelast_last by exact Hne.
      now destruct p.
  - intros Hs Hne r. subst r. rewrite (Hjoin suffix Hs Hne). split.
    + apply parent_joinpath_single.
    + unfold name at 1. simpl. apply last_last.
Qed.

Lemma removesuffix_app (s e : string) : PyStr.removesuffix (s ++ e) e = s.
Proof.
  induction s as [|c s IH].
  - simpl. destruct e; simpl; now rewrite ?String.eqb_refl, ?Ascii.eqb_refl.
  - change (String c s ++ e) with (String c (s ++ e)).
    cbn [PyStr.removesuffix].
    destruct (String.eqb (String c (s ++ e)) e) eqn:E.
    + apply String.eqb_eq in E. apply (f_equal String.length) in E.
      simpl in E. rewrite length_app in E. lia.
    + now rewrite IH.
Qed.

Lemma join_cons (sep x : string) (l : list string) :
  l <> [] -> PyStr.join sep (x :: l) = x ++ sep ++ PyStr.join sep l.
Proof. destruct l; [congruence | reflexivity]. Qed.

Lemma join_snoc (d : list string) (a b : string) :
  PyStr.join "/" (d ++ [a ++ b]) = PyStr.join "/" (d ++ [a]) ++ b.
Proof.
  induction d as [|x d IH]; [reflexivity|].
  simpl app.
  rewrite !join_cons by (now destruct d).
  now rewrite IH, !append_assoc.
Qed.

Lemma split_app_sep (c : ascii) (x rest : string) :
  PyStr.contains c x = false ->
  PyStr.split c (x ++ String c rest) = x :: PyStr.split c rest.
Proof.
  induction x as [|a x IH]; simpl; intros H.
  - now rewrite Ascii.eqb_refl.
  - apply orb_false_elim in H as [Ha Hx]. now rewrite Ha, (IH Hx).
Qed.

Lemma split_join (l : list string) :
  l <> [] ->
  Forall valid_component l ->
  PyStr.split slash (PyStr.join "/" l) = l.
Proof.
  induction l as [|x l IH]; [congruence|]. intros _ Hall.
  inversion Hall as [|? ? [Hx _] Hl]; subst.
  destruct l as [|y l].
  - simpl. now apply split_no_sep.
  - change (PyStr.join "/" (x :: y :: l))
      with (x ++ String slash (PyStr.join "/" (y :: l))).
    rewrite (@split_app_sep _ _ _ Hx), IH; [reflexivity | discriminate | exact Hl].
Qed.

Lemma filter_valid (l : list string) :
  Forall valid_component l -> filter is_component l = l.
Proof.
  induction 1 as [|x l [_ Hx] _ IH]; simpl; [reflexivity|].
  now rewrite Hx, IH.
Qed.

(** The first character of a joined list of components is no slash. *)
Lemma join_head (l : list string) :
  l <> [] ->
  Forall valid_component l ->
  exists a s, PyStr.join "/" l = String a s /\ Ascii.eqb a slash = false.
Proof.
  destruct l as [|x l]; [congruence|]. intros _ Hall.
  inversion Hall as [|? ? [Hx Hc] _]; subst.
  destruct x as [|a x]; [discriminate|].
  simpl in Hx. apply orb_false_elim in Hx as [Ha _].
  destruct l; simpl; eauto.
Qed.

(** Parsing a joined list of components gives the list back. *)
Lemma parse_join (l : list string) :
  l <> [] ->
  Forall valid_component l ->
  parse (PyStr.join "/" l) = mk "" l
  /\ parse (String slash (PyStr.join "/" l)) = mk "/" l.
Proof.
  intros Hne Hall.
  destruct (@join_head _ Hne Hall) as (a & s & Hj & Ha).
  pose proof (@split_join _ Hne Hall) as Hsplit.
  rewrite Hj in *.
  assert (Hrel : splitroot (String a s) = ("", String a s))
    by (simpl; now rewrite Ha).
  assert (Habs : splitroot (String slash (String a s)) = ("/", String a s))
    by (simpl; now rewrite Ha).
  unfold parse. rewrite Hrel, Habs, Hsplit, (@filter_valid _ Hall).
  split; reflexivity.
Qed.

(** X22: with [ext] given, the stem is taken from the whole path string.
    For a relative path made of the directories [d] and a name ending in
    [ext], the result repeats the directories: it is [d], [d] again, and
    the new name.  For the same path under the root, the result is the
    root, [d] once, and the new name. *)
Theorem add_suffix_ext_directories
    (d : list string) (base ext suffix sep : string) :
  Forall valid_component d ->
  valid_component (base ++ ext) ->
  PyStr.contains slash suffix = false ->
  PyStr.contains slash sep = false ->
  let new_name := base ++ sep ++ inserted_suffix suffix sep ++ ext in
  add_suffix (PyStr.join "/" (d ++ [base ++ ext])) suffix
    (Some sep) (Some ext)
  = mk "" (d ++ d ++ [new_name])
  /\ add_suffix (String slash (PyStr.join "/" (d ++ [base ++ ext]))) suffix
       (Some sep) (Some ext)
     = mk "/" (d ++ [new_name]).
Proof.
  intros Hd [Hslash Hcomp] Hs Hsep new_name.
  rewrite contains_append in Hslash.
  apply orb_false_elim in Hslash as [Hb He].
  assert (Hold : Forall valid_component (d ++ [base ++ ext])).
  { apply Forall_app. split; [exact Hd|]. constructor; [|constructor].
    split; [|exact Hcomp]. now rewrite contains_append, Hb, He. }
  assert (Hnew : Forall valid_component (d ++ [new_name])).
  { apply Forall_app. split; [exact Hd|]. constructor; [|constructor].
    unfold new_name. split.
    - rewrite !contains_append, Hb, Hsep, He.
      now rewrite (@inserted_suffix_no_slash _ _ Hs).
    - replace (base ++ sep ++ inserted_suffix suffix sep ++ ext)
        with (base ++ (sep ++ inserted_suffix suffix sep) ++ ext)
        by (now rewrite append_assoc).
      now apply (@is_component_insert base
                   (sep ++ inserted_suffix suffix sep) ext). }
  assert (Hne : forall x, (d ++ [x])%list <> [])
    by (intros x H; now destruct d).
  destruct (@parse_join _ (Hne _) Hold) as [Hrel Habs].
  destruct (@parse_join _ (Hne _) Hnew) as [Hrel' Habs'].
  assert (Hparent : forall r x, parent (mk r (d ++ [x])) = mk r d).
  { intros r x. unfold parent. simpl. now rewrite removelast_last. }
  assert (Hrelstr : to_string (mk "" (d ++ [base ++ ext]))
                    = PyStr.join "/" (d ++ [base]) ++ ext).
  { assert (Hto : forall l, l <> [] ->
                    to_string (mk "" l) = PyStr.join "/" l)
      by (intros [|x l] H; [congruence | reflexivity]).
    rewrite (Hto _ (Hne _)). apply join_snoc. }
  assert (Habsstr : to_string (mk "/" (d ++ [base ++ ext]))
                    = ("/" ++ PyStr.join "/" (d ++ [base])) ++ ext).
  { unfold to_string. simpl root. simpl tail. cbv iota.
    now rewrite join_snoc, append_assoc. }
  assert (Hnewstr : PyStr.join "/" (d ++ [base]) ++ sep
                    ++ inserted_suffix suffix sep ++ ext
                    = PyStr.join "/" (d ++ [new_name])).
  { unfold new_name. now rewrite join_snoc. }
  rewrite !add_suffix_ext, Hrel, Habs, !Hparent, Hrelstr, Habsstr.
  rewrite !removesuffix_app. split.
  - rewrite Hnewstr. unfold joinpath. rewrite Hrel'. reflexivity.
  - rewrite append_assoc, Hnewstr. unfold joinpath.
    change ("/" ++ PyStr.join "/" (d ++ [new_name]))
      with (String slash (PyStr.join "/" (d ++ [new_name]))).
    rewrite Habs'. reflexivity.
Qed.

End AddSuffixPaths.

Lemma add_suffix_no_separator_witness :
  PurePath.name (add_suffix "out/sub-01_T1w.mnc" "-mask" None None)
  = "sub-01_T1w-mask.mnc".
Proof.
  destruct (@add_suffix_no_separator "out/sub-01_T1w.mnc" "-mask")
    as [_ H].
  destruct (H eq_refl ltac:(discriminate)) as [_ Hn]. exact Hn.
Defined.

Lemma add_suffix_ext_directories_witness :
  add_suffix "data/sub-01/img.nii.gz" "brain" (Some "-") (Some ".nii.gz")
  = PurePath.mk "" ["data"; "sub-01"; "data"; "sub-01"; "img-brain.nii.gz"]
  /\ add_suffix "/data/sub-01/img.nii.gz" "brain" (Some "-") (Some ".nii.gz")
     = PurePath.mk "/" ["data"; "sub-01"; "img-brain.nii.gz"].
Proof.
  apply (@add_suffix_ext_directories ["data"; "sub-01"] "img" ".nii.gz"
           "brain" "-").
  - repeat constructor.
  - split; reflexivity.
  - reflexivity.
  - reflexivity.
Defined.

(** ** [mkdir] *)

Section Mkdir.

Import PurePath.

Local Abbreviation dirs_only added :=
  (Forall (fun e : PurePath.t * kind => snd e = Directory) added).

Lemma list_eqb_eq (l l' : list string) : Fs.list_eqb l l' = true <-> l = l'.
Proof.
  revert l'. induction l as [|x l IH]; intros [|y l']; simpl;
    try (split; [reflexivity || discriminate | reflexivity || discriminate]).
  rewrite andb_true_iff, String.eqb_eq, IH.
  split; [intros [-> ->]; reflexivity | intros H; now injection H].
Qed.

Lemma path_eqb_eq (p q : t) : Fs.path_eqb p q = true <-> p = q.
Proof.
  unfold Fs.path_eqb. rewrite andb_true_iff, String.eqb_eq, list_eqb_eq.
  destruct p, q; simpl. split; [intros [-> ->]; reflexivity|].
  intros H; now injection H.
Qed.

Lemma lookup_app (fs added : list (t * kind)) (q : t) :
  Fs.lookup (fs ++ added) q
  = match Fs.lookup fs q with
    | Some k => Some k
    | None => Fs.lookup added q
    end.
Proof.
  unfold Fs.lookup. induction fs as [|e fs IH]; simpl; [reflexivity|].
  destruct (Fs.path_eqb (fst e) q); [reflexivity | exact IH].
Qed.

Lemma lookup_In (fs : list (t * kind)) (q : t) (k : kind) :
  Fs.lookup fs q = Some k -> In (q, k) fs.
Proof.
  unfold Fs.lookup. destruct (find _ fs) as [e|] eqn:E; [|discriminate].
  intros H. injection H as <-. apply find_some in E as [Hin Heq].
  apply path_eqb_eq in Heq. subst q. now destruct e.
Qed.

Lemma kind_at_app (fs added : list (t * kind)) (q : t) (k : kind) :
  kind_at fs q = Some k -> kind_at (fs ++ added) q = Some k.
Proof.
  unfold kind_at. destruct (tail q); [auto|].
  intros H. now rewrite lookup_app, H.
Qed.

Lemma kind_at_new (fs : list (t * kind)) (p : t) :
  kind_at fs p = None -> kind_at (fs ++ [(p, Directory)]) p = Some Directory.
Proof.
  unfold kind_at. destruct (tail p); [discriminate|].
  intros H. rewrite lookup_app, H. unfold Fs.lookup. simpl.
  now rewrite (proj2 (path_eqb_eq p p) eq_refl).
Qed.

Lemma os_mkdir_cases (fs : list (t * kind)) (p : t) :
  (exists e, os_mkdir fs p = (fs, Raise e))
  \/ (os_mkdir fs p = ((fs ++ [(p, Directory)])%list, Return tt)
      /\ kind_at fs p = None).
Proof.
  unfold os_mkdir. destruct (tail p); [left; eexists; reflexivity|].
  destruct (descend _ _ _ _) as [[|]|];
    try (left; eexists; reflexivity).
  destruct (kind_at fs p) eqn:E;
    [left; eexists; reflexivity | right; auto].
Qed.

Lemma mkdir_exists_cases (fs : list (t * kind)) (p : t) (ok : bool)
    (e : exn) :
  mkdir_exists fs p ok e = (fs, Raise e)
  \/ (mkdir_exists fs p ok e = (fs, Return tt)
      /\ kind_at fs p = Some Directory).
Proof.
  unfold mkdir_exists. destruct ok; simpl; [|now left].
  destruct (kind_at fs p) as [[|]|]; simpl; auto.
Qed.

Lemma mkdir_leaf_ok (fs fs' : list (t * kind)) (p : t) (ok : bool) :
  mkdir_leaf fs p ok = (fs', Return tt) ->
  kind_at fs' p = Some Directory
  /\ exists added, fs' = (fs ++ added)%list /\ dirs_only added.
Proof.
  unfold mkdir_leaf.
  destruct (os_mkdir_cases fs p) as [[e ->] | [-> Hnone]].
  - assert (Hex : mkdir_exists fs p ok e = (fs', Return tt) ->
              kind_at fs' p = Some Directory
              /\ exists added, fs' = (fs ++ added)%list /\ dirs_only added).
    { destruct (mkdir_exists_cases fs p ok e) as [-> | [-> Hd]];
        [discriminate|].
      intros H. injection H as <-. split; [exact Hd|].
      exists []. split; [now rewrite app_nil_r | constructor]. }
    destruct e; try exact Hex. discriminate.
  - intros H. injection H as <-. split; [now apply kind_at_new|].
    exists [(p, Directory)]. split; [reflexivity|].
    constructor; [reflexivity | constructor].
Qed.

Lemma Path_mkdir_rev_ok (root : string) (rtail : list string) :
  forall (fs fs' : list (t * kind)) (parents ok : bool),
    Path_mkdir_rev root rtail fs parents ok = (fs', Return tt) ->
    kind_at fs' (mk root (rev rtail)) = Some Directory
    /\ exists added, fs' = (fs ++ added)%list /\ dirs_only added.
Proof.
  induction rtail as [|c rparent IH]; intros fs fs' parents ok;
    cbn [Path_mkdir_rev];
    set (p := mk root (rev _));
    destruct (os_mkdir_cases fs p) as [[e ->] | [-> Hnone]].
  - assert (Hex : mkdir_exists fs p ok e = (fs', Return tt) ->
              kind_at fs' p = Some Directory
              /\ exists added, fs' = (fs ++ added)%list /\ dirs_only added).
    { destruct (mkdir_exists_cases fs p ok e) as [-> | [-> Hd]];
        [discriminate|].
      intros H. injection H as <-. split; [exact Hd|].
      exists []. split; [now rewrite app_nil_r | constructor]. }
    destruct e; try exact Hex. discriminate.
  - intros H. injection H as <-. split; [now apply kind_at_new|].
    exists [(p, Directory)]. split; [reflexivity|].
    constructor; [reflexivity | constructor].
  - assert (Hex : mkdir_exists fs p ok e = (fs', Return tt) ->
              kind_at fs' p = Some Directory
              /\ exists added, fs' = (fs ++ added)%list /\ dirs_only added).
    { destruct (mkdir_exists_cases fs p ok e) as [-> | [-> Hd]];
        [discriminate|].
      intros H. injection H as <-. split; [exact Hd|].
      exists []. split; [now rewrite app_nil_r | constructor]. }
    destruct e; try exact Hex.
    destruct (negb parents); [discriminate|].
    destruct (Path_mkdir_rev root rparent fs true true)
      as [fs1 [[]|e1]] eqn:Erec; [|discriminate].
    destruct (IH _ _ _ _ Erec) as (_ & added1 & -> & Hd1).
    intros Hleaf. apply mkdir_leaf_ok in Hleaf as (Hk & added2 & -> & Hd2).
    split; [exact Hk|].
    exists (added1 ++ added2)%list. split; [now rewrite app_assoc|].
    now apply Forall_app.
  - intros H. injection H as <-. split; [now apply kind_at_new|].
    exists [(p, Directory)]. split; [reflexivity|].
    constructor; [reflexivity | constructor].
Qed.

Lemma Path_mkdir_path (p : t) : mk (root p) (rev (rev (tail p))) = p.
Proof. rewrite rev_involutive. now destruct p. Qed.

(** X23: outside dry-run, when [mkdir] returns, the path is a directory,
    the file system has grown by directories only, and what was there
    before is still there. *)
Theorem mkdir_creates (self : ScriptHelper) (fs fs' : list (t * kind))
    (path : string) (parents : bool) (exist_ok : option bool) :
  dry_run self = false ->
  mkdir self fs path parents exist_ok = (fs', Return tt) ->
  kind_at fs' (parse path) = Some Directory
  /\ (exists added,
        fs' = (fs ++ added)%list
        /\ Forall (fun e => snd e = Directory) added)
  /\ (forall q k, kind_at fs q = Some k -> kind_at fs' q = Some k).
Proof.
  intros Hdry. unfold mkdir, Path_mkdir. rewrite Hdry. simpl negb.
  cbv iota. intros H.
  apply Path_mkdir_rev_ok in H as (Hk & added & -> & Hd).
  rewrite Path_mkdir_path in Hk.
  split; [exact Hk|]. split; [now exists added|].
  intros q k. apply kind_at_app.
Qed.

(** In a well-formed file system everything above an entry is a
    directory. *)
Lemma ancestors_are_directories (fs : list (t * kind)) (root : string) :
  well_formed fs ->
  forall (l2 l1 : list string) (k : kind),
    l2 <> [] ->
    kind_at fs (mk root (l1 ++ l2)) = Some k ->
    kind_at fs (mk root l1) = Some Directory.
Proof.
  intros Hwf l2. induction l2 as [|z l2 IH] using rev_ind;
    intros l1 k Hne Hk; [congruence|].
  assert (Hin : In (mk root (l1 ++ l2 ++ [z]), k) fs).
  { apply lookup_In. unfold kind_at in Hk. simpl in Hk.
    destruct (l1 ++ l2 ++ [z])%list eqn:E; [|exact Hk].
    apply app_eq_nil in E as [_ E]. now apply app_eq_nil in E as [_ E]. }
  apply Hwf in Hin. unfold parent in Hin. simpl in Hin.
  rewrite app_assoc, removelast_last in Hin.
  destruct l2 as [|y l2].
  - now rewrite app_nil_r in Hin.
  - apply (IH l1 Directory); [discriminate | exact Hin].
Qed.

Lemma descend_none (fs : list (t * kind)) (root : string) :
  well_formed fs ->
  forall (rest seen : list string),
    kind_at fs (mk root (seen ++ rest)) = Some Directory ->
    descend fs root seen rest = None.
Proof.
  intros Hwf rest. induction rest as [|c rest IH]; intros seen Hk;
    [reflexivity|].
  cbn [descend].
  assert (Hc : kind_at fs (mk root (seen ++ [c])) = Some Directory).
  { destruct rest as [|c' rest]; [exact Hk|].
    apply (@ancestors_are_directories fs root Hwf (c' :: rest)
             (seen ++ [c]) Directory); [discriminate|].
    now rewrite <- app_assoc. }
  rewrite Hc. apply IH. now rewrite <- app_assoc.
Qed.

(** X24: under dry-run [mkdir] does nothing and returns, whatever the
    path is.  Outside dry-run, in a well-formed file system, on a path
    that exists and with [exist_ok] left out, it returns without a change
    when the path is a directory and [overwrite] is on, and raises
    [FileExistsError] without a change otherwise. *)
Theorem mkdir_dry_run_or_existing (self : ScriptHelper)
    (fs : list (t * kind)) (path : string) (parents : bool) :
  (dry_run self = true ->
   forall exist_ok, mkdir self fs path parents exist_ok = (fs, Return tt))
  /\ (dry_run self = false ->
      well_formed fs ->
      forall k,
        kind_at fs (parse path) = Some k ->
        mkdir self fs path parents None
        = (fs,
           if overwrite self
              && match k with Directory => true | RegularFile => false end
           then Return tt
           else Raise (FileExistsError (to_string (parse path))))).
Proof.
  split.
  - intros Hdry exist_ok. unfold mkdir. now rewrite Hdry.
  - intros Hdry Hwf k Hk. unfold mkdir, Path_mkdir. rewrite Hdry.
    simpl negb. cbv iota. set (p := parse path) in *.
    assert (Hos : os_mkdir fs p
                  = (fs, Raise (FileExistsError (to_string p)))).
    { unfold os_mkdir. destruct (tail p) as [|x l] eqn:Et; [reflexivity|].
      assert (Hne : x :: l <> []) by discriminate.
      destruct (exists_last Hne) as (init & z & Hl). rewrite Hl.
      rewrite removelast_last.
      assert (Hinit : kind_at fs (mk (root p) init) = Some Directory).
      { apply (@ancestors_are_directories fs (root p) Hwf [z] init k);
          [discriminate|].
        rewrite <- Hl, <- Et. now destruct p. }
      rewrite (@descend_none fs (root p) Hwf init [] Hinit), Hk.
      reflexivity. }
    assert (Hrev : forall rtail,
              mk (root p) (rev rtail) = p ->
              Path_mkdir_rev (root p) rtail fs parents (overwrite self)
              = mkdir_exists fs p (overwrite self)
                  (FileExistsError (to_string p))).
    { intros rtail Hp. destruct rtail; cbn [Path_mkdir_rev];
        rewrite Hp, Hos; reflexivity. }
    rewrite (Hrev _ (Path_mkdir_path p)).
    unfold mkdir_exists. rewrite Hk.
    destruct (overwrite self); destruct k; reflexivity.
Qed.

Lemma strict_prefix_app (l l' : list string) :
  Fs.strict_prefixb l l' = true -> exists x ext, l' = (l ++ x :: ext)%list.
Proof.
  revert l'. induction l as [|a l IH]; intros [|b l']; simpl;
    try discriminate.
  - intros _. now exists b, l'.
  - intros H. apply andb_true_iff in H as [Hab H].
    apply String.eqb_eq in Hab. subst b.
    destruct (IH _ H) as (x & ext & ->). now exists x, ext.
Qed.

Lemma filter_none (X : Type) (f : X -> bool) (l : list X) :
  (forall x, In x l -> f x = false) -> filter f l = [].
Proof.
  induction l as [|x l IH]; intros H; simpl; [reflexivity|].
  rewrite (H x (or_introl eq_refl)). apply IH.
  intros y Hy. apply H. now right.
Qed.

(** X25: a directory that [mkdir] has just made passes [check_dir]: in a
    well-formed file system, when the path did not exist and [mkdir]
    returns outside dry-run, [check_dir] on the file system it leaves
    returns the path, with and without a prefix and also with
    [overwrite] off. *)
Theorem mkdir_then_check_dir (world : World) (self : ScriptHelper)
    (fs' : list (t * kind)) (path : string) (parents : bool)
    (ok : option bool) (pre : option string) :
  well_formed (files world) ->
  dry_run self = false ->
  kind_at (files world) (parse path) = None ->
  mkdir self (files world) path parents ok = (fs', Return tt) ->
  check_dir (with_files world fs') self (parse path) pre
  = ([], Return (parse path)).
Proof.
  intros Hwf Hdry Hfresh Hmk.
  unfold mkdir, Path_mkdir in Hmk. rewrite Hdry in Hmk. simpl negb in Hmk.
  cbv iota in Hmk.
  apply Path_mkdir_rev_ok in Hmk as (_ & added & Hfs & Hd).
  set (p := parse path) in *.
  set (world' := with_files world fs').
  assert (Hfiles : files world' = fs') by reflexivity.
  assert (Hempty : filter (Fs.is_file (files world'))
                     (Fs.rglob_all (files world') p) = []).
  { apply filter_none. intros q Hq.
    unfold Fs.rglob_all in Hq.
    destruct (Fs.is_dir (files world') p); [|contradiction].
    apply filter_In in Hq as [_ Hbelow].
    unfold Fs.is_file. rewrite Hfiles, Hfs, lookup_app.
    destruct (Fs.lookup (files world) q) as [k|] eqn:Eq.
    - destruct k; [|reflexivity]. exfalso.
      unfold Fs.is_below in Hbelow.
      apply andb_true_iff in Hbelow as [Hroot Hpre].
      apply String.eqb_eq in Hroot.
      apply strict_prefix_app in Hpre as (x & ext & Htail).
      assert (Hq : q = mk (root p) (tail p ++ x :: ext))
        by (destruct q; simpl in *; now subst).
      assert (Hkq : kind_at (files world) q = Some RegularFile).
      { unfold kind_at. rewrite Htail.
        destruct (tail p ++ x :: ext)%list eqn:E;
          [now apply app_eq_nil in E as [_ E] | exact Eq]. }
      rewrite Hq in Hkq.
      apply (@ancestors_are_directories (files world) (root p) Hwf
               (x :: ext) (tail p) RegularFile) in Hkq; [|discriminate].
      destruct p as [r tl]. simpl in Hkq. congruence.
    - destruct (Fs.lookup added q) as [k|] eqn:Ea; [|reflexivity].
      apply lookup_In in Ea.
      rewrite Forall_forall in Hd.
      apply Hd in Ea. simpl in Ea. now subst k. }
  unfold check_dir.
  destruct (Fs.exists_ (files world') p && negb (overwrite self));
    [|reflexivity].
  rewrite Hempty. now destruct pre.
Qed.

End Mkdir.

Lemma samples_well_formed : well_formed (files Samples.world).
Proof.
  intros q k Hin. simpl in Hin.
  repeat (destruct Hin as [H | Hin]; [injection H as <- <-; reflexivity|]).
  contradiction.
Qed.

Lemma mkdir_creates_witness :
  kind_at
    (fst (mkdir (Samples.helper 2 false false false) (files Samples.world)
            "derivatives/sub-01/dbm" true None))
    (PurePath.parse "derivatives/sub-01/dbm")
  = Some Directory.
Proof.
  destruct (@mkdir_creates (Samples.helper 2 false false false)
              (files Samples.world)
              (fst (mkdir (Samples.helper 2 false false false)
                      (files Samples.world)
                      "derivatives/sub-01/dbm" true None))
              "derivatives/sub-01/dbm" true None eq_refl eq_refl)
    as [H _].
  exact H.
Defined.

Lemma mkdir_dry_run_or_existing_witness :
  mkdir (Samples.helper 2 false true false) (files Samples.world)
    "out" true None
  = (files Samples.world, Return tt)
  /\ mkdir (Samples.helper 2 false false false) (files Samples.world)
       "out" true None
     = (files Samples.world, Raise (FileExistsError "out")).
Proof.
  split.
  - apply (proj1 (@mkdir_dry_run_or_existing
                    (Samples.helper 2 false true false)
                    (files Samples.world) "out" true)).
    reflexivity.
  - apply (proj2 (@mkdir_dry_run_or_existing
                    (Samples.helper 2 false false false)
                    (files Samples.world) "out" true)
             eq_refl samples_well_formed Directory).
    reflexivity.
Defined.

Lemma mkdir_then_check_dir_witness :
  check_dir
    (with_files Samples.world
       (fst (mkdir (Samples.helper 2 false false false)
               (files Samples.world) "derivatives/sub-01/dbm" true None)))
    (Samples.helper 2 false false false)
    (PurePath.parse "derivatives/sub-01/dbm") None
  = ([], Return (PurePath.parse "derivatives/sub-01/dbm")).
Proof.
  apply (@mkdir_then_check_dir Samples.world
           (Samples.helper 2 false false false)
           (fst (mkdir (Samples.helper 2 false false false)
                   (files Samples.world) "derivatives/sub-01/dbm" true None))
           "derivatives/sub-01/dbm" true None None).
  - exact samples_well_formed.
  - reflexivity.
  - reflexivity.
  - reflexivity.
Defined.
